(** * The search editor input (searchEditorInput.ts)

    A shallow embedding of [SearchEditorInput] and of the registry behind
    [getOrMakeSearchEditorInput].

    - Objects live in a store and are named by references, so that the
      identity test [this === other] and the sharing of one input between
      the registry and its callers are those of the source.
    - The injected services and the collaborator modules are interfaces
      ([Services], [Collaborators]): every statement holds for all of their
      implementations.  Each call that crosses such an interface is also
      appended to a log, which is what "delegates to" and "nothing is
      written" are stated on.
    - A promise is modelled as settled: the body of an [async] function runs
      to completion where it is called and yields [Resolved] or [Rejected].
    - A string is a sequence of code units (below 256 in this model). *)

From Stdlib Require Import ZArith Lia Ascii String.
From stdpp Require Import gmap strings list fin_maps.

Local Open Scope Z_scope.
Local Open Scope string_scope.

(** ** JavaScript strings *)

Module Js.

(** A string in a condition: only the empty string is falsy. *)
Definition truthy (s : string) : bool :=
  match s with
  | EmptyString => false
  | String _ _ => true
  end.

(** White space and line terminators that [trim] removes. *)
Definition is_white_space (a : ascii) : bool :=
  let n := nat_of_ascii a in
  ((9 <=? n) && (n <=? 13) || (n =? 32) || (n =? 160))%nat.

Fixpoint trimStart (s : string) : string :=
  match s with
  | String a r => if is_white_space a then trimStart r else s
  | EmptyString => EmptyString
  end.

Fixpoint trimEnd (s : string) : string :=
  match s with
  | String a r =>
      match trimEnd r with
      | EmptyString => if is_white_space a then EmptyString else String a EmptyString
      | r' => String a r'
      end
  | EmptyString => EmptyString
  end.

Definition trim (s : string) : string := trimEnd (trimStart s).

(** [s.slice(0, e)]: a negative end counts from the end of the string. *)
Definition slice0 (s : string) (e : Z) : string :=
  let len := Z.of_nat (String.length s) in
  let e' := (if e <? 0 then Z.max (len + e) 0 else Z.min e len)%Z in
  String.substring 0 (Z.to_nat e') s.

(** [/\w/], and the class [[\w \-_]] of suggestFileName. *)
Definition is_word (a : ascii) : bool :=
  let n := nat_of_ascii a in
  ((48 <=? n) && (n <=? 57) || (65 <=? n) && (n <=? 90)
   || (97 <=? n) && (n <=? 122) || (n =? 95))%nat.

Definition is_file_name_char (a : ascii) : bool :=
  let n := nat_of_ascii a in
  (is_word a || (n =? 32) || (n =? 45))%nat.

(** [s.replace(/[^\w \-_]+/g, '_')]: every maximal run of other characters
    becomes one underscore. [in_run] tells that the run has been replaced. *)
Fixpoint replace_runs (in_run : bool) (s : string) : string :=
  match s with
  | EmptyString => EmptyString
  | String a r =>
      if is_file_name_char a then String a (replace_runs false r)
      else if in_run then replace_runs true r
      else String "_" (replace_runs true r)
  end.

(** Substitution of [{0}] in a message. *)
Fixpoint format0 (message arg : string) : string :=
  match message with
  | String "{" (String "0" (String "}" r)) => arg +:+ format0 r arg
  | String a r => String a (format0 r arg)
  | EmptyString => EmptyString
  end.

End Js.

(** Modelled from the spec: [localize] of vs/nls is missing from the sources;
    as in the titles the spec names ('Search'), it yields the default
    message, with [{0}] replaced by the argument when there is one. *)
Definition localize (key message : string) (arg : option string) : string :=
  match arg with
  | Some a => Js.format0 message a
  | None => message
  end.

(** ** Data *)

Record URI := {
  scheme : string;
  authority : string;
  path : string;
  uri_query : string;
  fragment : string
}.

(** Modelled from the spec: the uri class of vs/base/common/uri is missing
    from the sources. It keeps the path of a uri with a [file], [http] or
    [https] scheme absolute: an empty one becomes [/], a relative one gets
    the slash in front. *)
Definition referenceResolution (scheme path : string) : string :=
  if String.eqb scheme "https" || String.eqb scheme "http" || String.eqb scheme "file"
  then
    match path with
    | EmptyString => "/"
    | String a _ => if Ascii.eqb a "/" then path else "/" +:+ path
    end
  else path.

(** Modelled from the spec: [URI.from] of vs/base/common/uri is missing from
    the sources. It builds the uri from the components that the source
    passes, the others empty, and, as the uri class does, makes the path
    absolute under the schemes [file], [http] and [https]. The scheme is
    taken as it is given. *)
Definition URI_from (scheme path fragment : string) : URI :=
  {| scheme := scheme; authority := ""; path := referenceResolution scheme path;
     uri_query := ""; fragment := fragment |}.

(** [Partial<SearchConfiguration>]: this file reads the [query] only; the
    other settings travel along. *)
Record SearchConfiguration := {
  query : option string;
  settings : list (string * string)
}.

(** The object literal [{}]. *)
Definition empty_config : SearchConfiguration := {| query := None; settings := [] |}.

Record IModelDeltaDecoration := {
  range : Z * Z * Z * Z;
  options : string
}.

Inductive SearchEditorViewState :=
| focused_input
| focused_editor (state : string).

Inductive AutoSaveMode :=
| OFF
| AFTER_SHORT_DELAY
| AFTER_LONG_DELAY
| ON_FOCUS_CHANGE
| ON_WINDOW_CHANGE.

Definition AutoSaveMode_eqb (a b : AutoSaveMode) : bool :=
  match a, b with
  | OFF, OFF | AFTER_SHORT_DELAY, AFTER_SHORT_DELAY
  | AFTER_LONG_DELAY, AFTER_LONG_DELAY | ON_FOCUS_CHANGE, ON_FOCUS_CHANGE
  | ON_WINDOW_CHANGE, ON_WINDOW_CHANGE => true
  | _, _ => false
  end.

Record ITextFileSaveOptions := {
  availableFileSystems : option (list string);
  saveReason : option Z
}.

Record IRevertOptions := { soft : option bool }.

Definition GroupIdentifier := Z.
Definition Error := string.

(** Handles of objects that the host owns. *)
Definition ITextModel := nat.
Definition ITextBufferFactory := nat.
Definition SearchEditorModel := nat.
Definition ITextSnapshot := string.

(** [string | ITextBufferFactory] *)
Inductive Contents :=
| of_string (s : string)
| of_factory (f : ITextBufferFactory).

Record IResolvedBackup := { value : ITextBufferFactory }.

(** The first argument of [createInstance(SearchEditorModel, ...)]. *)
Inductive ModelArgs :=
| resultsTextModel_searchConfig (existing : ITextModel) (config : SearchConfiguration)
| rawTextModel (contents : Contents).

(** A promise once settled. *)
Inductive Outcome (A : Type) :=
| Resolved (a : A)
| Rejected (e : Error).
Arguments Resolved {A} a.
Arguments Rejected {A} e.

(** References to [SearchEditorInput] objects. *)
Abbreviation InputRef := nat.

(** [unknown], as far as [matches] can tell values apart. *)
Inductive unknown :=
| a_SearchEditorInput (r : InputRef)
| another_value (description : string).

(** The listener that [getOrMakeSearchEditorInput] attaches to [onDispose]:
    [() => inputs.delete(uri.toString())], with the key it captured. *)
Inductive DisposeListener :=
| inputs_delete (key : string).

#[global] Instance DisposeListener_eq_dec : EqDecision DisposeListener.
Proof. solve_decision. Defined.

Record SearchEditorInput := {
  resource : URI;
  dirty : bool;
  model : Outcome SearchEditorModel;
  input_query : option SearchConfiguration;
  viewState : SearchEditorViewState;
  _highlights : option (list IModelDeltaDecoration);
  (* state of the base class EditorInput *)
  disposed : bool;
  onDispose : list DisposeListener
}.

(** The anonymous class [workingCopyAdapter]. [resource] and [capabilities]
    are read once, in the constructor; the other members go through the
    captured [input] (see [WorkingCopyAdapter] below). *)
Record IWorkingCopy := {
  wc_input : InputRef;
  wc_resource : URI;
  wc_capabilities : Z
}.

Record IWorkingCopyBackup := { content : ITextSnapshot }.

(** ** Interfaces *)

(** The collaborator modules: constants, URI and path helpers, serialization. *)
Class Collaborators := {
  SearchEditorScheme : string;
  Schemas_vscodeRemote : string;
  Schemas_file : string;
  WorkingCopyCapabilities_Untitled : Z;
  URI_toString : URI -> string;
  isEqual : URI -> URI -> bool;
  joinPath : URI -> string -> URI;
  toLocalResource : URI -> option string -> URI;
  basename : string -> string -> string;
  extractSearchQuery : string -> SearchConfiguration;
  serializeSearchConfiguration : SearchConfiguration -> string
}.

(** The injected services, the [SearchEditorModel] class and the [revert] of
    the base class [EditorInput], over a host state [Σ]. A call that returns
    a promise yields an [Outcome]. *)
Class Services (Σ : Type) := {
  modelService_getModel : URI -> Σ -> option ITextModel;
  modelService_destroyModel : URI -> Σ -> Σ;
  backupService_resolve : URI -> Σ -> Outcome (option IResolvedBackup) * Σ;
  backupService_discardBackup : URI -> Σ -> Σ;
  textFileService_read : URI -> Σ -> Outcome string * Σ;
  textFileService_write :
    URI -> ITextSnapshot -> option ITextFileSaveOptions -> Σ -> Outcome unit * Σ;
  textFileService_saveAs :
    URI -> URI -> option ITextFileSaveOptions -> Σ -> Outcome (option URI) * Σ;
  fileDialogService_pickFileToSave :
    URI -> option (list string) -> Σ -> Outcome (option URI) * Σ;
  fileDialogService_defaultFilePath : string -> Σ -> option URI;
  telemetryService_publicLog2 : string -> Σ -> Σ;
  workingCopyService_registerWorkingCopy : IWorkingCopy -> Σ -> Σ;
  filesConfigurationService_getAutoSaveMode : Σ -> AutoSaveMode;
  environmentService_remoteAuthority : Σ -> option string;
  Math_random : Σ -> string * Σ;
  new_SearchEditorModel : ModelArgs -> URI -> Σ -> SearchEditorModel * Σ;
  model_isDisposed : SearchEditorModel -> Σ -> bool;
  model_createSnapshot : SearchEditorModel -> Σ -> ITextSnapshot;
  model_searchConfig : SearchEditorModel -> Σ -> SearchConfiguration;
  model_setConfig : SearchEditorModel -> SearchConfiguration -> Σ -> Σ;
  model_getAllDecorations : SearchEditorModel -> Σ -> list IModelDeltaDecoration;
  model_deltaDecorations : SearchEditorModel -> list IModelDeltaDecoration -> Σ -> Σ;
  model_dispose : SearchEditorModel -> Σ -> Σ;
  super_revert :
    InputRef -> GroupIdentifier -> option IRevertOptions -> Σ -> Outcome bool * Σ
}.

(** What crosses an interface, in the order it happened. *)
Inductive Call :=
| call_destroyModel (u : URI)
| call_backup_resolve (u : URI)
| call_discardBackup (u : URI)
| call_read (u : URI)
| call_write (u : URI) (s : ITextSnapshot) (o : option ITextFileSaveOptions)
| call_saveAs (source target : URI) (o : option ITextFileSaveOptions)
| call_pickFileToSave (default : URI) (fileSystems : option (list string))
| call_publicLog2 (event : string)
| call_registerWorkingCopy (wc : IWorkingCopy)
| call_new_SearchEditorModel (a : ModelArgs) (u : URI)
| call_model_setConfig (m : SearchEditorModel) (c : SearchConfiguration)
| call_deltaDecorations (m : SearchEditorModel) (ds : list IModelDeltaDecoration)
| call_model_dispose (m : SearchEditorModel)
| call_super_revert (i : InputRef) (group : GroupIdentifier) (o : option IRevertOptions)
| fire_onDidChangeDirty (i : InputRef)
| fire_onDidChangeLabel (i : InputRef)
| fire_onDispose (i : InputRef).

(** [existingData] of [getOrMakeSearchEditorInput]: the three shapes of the
    union type. The source reads it through optional properties. *)
Inductive ExistingData :=
| with_uri (uri : URI) (config : option SearchConfiguration)
| with_text (text : string)
| with_config (config : SearchConfiguration).

Definition existingData_uri (d : ExistingData) : option URI :=
  match d with
  | with_uri u _ => Some u
  | _ => None
  end.

Definition existingData_text (d : ExistingData) : option string :=
  match d with
  | with_text t => Some t
  | _ => None
  end.

Definition existingData_config (d : ExistingData) : option SearchConfiguration :=
  match d with
  | with_uri _ c => c
  | with_config c => Some c
  | with_text _ => None
  end.

(** An optional string in a condition: defined and not empty. *)
Definition if_truthy (o : option string) : option string :=
  match o with
  | Some s => if Js.truthy s then Some s else None
  | None => None
  end.

(** Updates of one field of an input. *)
Definition set_dirty (d : bool) (o : SearchEditorInput) : SearchEditorInput :=
  {| resource := resource o; dirty := d; model := model o;
     input_query := input_query o; viewState := viewState o;
     _highlights := _highlights o; disposed := disposed o;
     onDispose := onDispose o |}.

Definition set_query (q : option SearchConfiguration) (o : SearchEditorInput)
  : SearchEditorInput :=
  {| resource := resource o; dirty := dirty o; model := model o;
     input_query := q; viewState := viewState o;
     _highlights := _highlights o; disposed := disposed o;
     onDispose := onDispose o |}.

Definition set_highlights (h : option (list IModelDeltaDecoration))
  (o : SearchEditorInput) : SearchEditorInput :=
  {| resource := resource o; dirty := dirty o; model := model o;
     input_query := input_query o; viewState := viewState o;
     _highlights := h; disposed := disposed o;
     onDispose := onDispose o |}.

Definition set_viewState (v : SearchEditorViewState) (o : SearchEditorInput)
  : SearchEditorInput :=
  {| resource := resource o; dirty := dirty o; model := model o;
     input_query := input_query o; viewState := v;
     _highlights := _highlights o; disposed := disposed o;
     onDispose := onDispose o |}.

Definition set_disposed (d : bool) (o : SearchEditorInput) : SearchEditorInput :=
  {| resource := resource o; dirty := dirty o; model := model o;
     input_query := input_query o; viewState := viewState o;
     _highlights := _highlights o; disposed := d;
     onDispose := onDispose o |}.

Definition set_onDispose (ls : list DisposeListener) (o : SearchEditorInput)
  : SearchEditorInput :=
  {| resource := resource o; dirty := dirty o; model := model o;
     input_query := input_query o; viewState := viewState o;
     _highlights := _highlights o; disposed := disposed o;
     onDispose := ls |}.

(** ** The members that only read the object *)

Section Getters.
Context `{Collaborators}.

Definition getResource (this : SearchEditorInput) : URI := resource this.

Definition isUntitled (this : SearchEditorInput) : bool :=
  String.eqb (scheme (resource this)) SearchEditorScheme.

Definition isDirty (this : SearchEditorInput) : bool := dirty this.

Definition isReadonly (this : SearchEditorInput) : bool := false.

Definition getConfigSync (this : SearchEditorInput) : option SearchConfiguration :=
  input_query this.

Definition getTypeId (this : SearchEditorInput) : string :=
  "workbench.editorinputs.searchEditorInput".

(** The local function of [getName]. *)
Definition trimToMax (maxLength : Z) (label : string) : string :=
  if (Z.of_nat (String.length label) <? maxLength)%Z then label
  else Js.slice0 label (maxLength - 3) +:+ "...".

(** [this.query?.query?.trim()] *)
Definition trimmed_query (this : SearchEditorInput) : option string :=
  match input_query this with
  | Some c =>
      match query c with
      | Some q => Some (Js.trim q)
      | None => None
      end
  | None => None
  end.

(** [getName(maxLength = 12)]: [None] is the call without an argument. *)
Definition getName (this : SearchEditorInput) (maxLength : option Z) : string :=
  let maxLength := default 12%Z maxLength in
  if isUntitled this then
    match if_truthy (trimmed_query this) with
    | Some query =>
        localize "searchTitle.withQuery" "Search: {0}" (Some (trimToMax maxLength query))
    | None => localize "searchTitle" "Search" None
    end
  else
    localize "searchTitle.withQuery" "Search: {0}"
      (Some (basename (path (resource this)) ".code-search")).

(** The getter [highlights]: a copy of the decorations, [[]] when unset. *)
Definition highlights (this : SearchEditorInput) : list IModelDeltaDecoration :=
  map (fun d => {| range := range d; options := options d |})
      (default [] (_highlights this)).

End Getters.

(** ** The world, and computations in it *)

Section Workbench.
Context `{Collaborators} {Σ : Type} `{Services Σ}.

Record World := {
  host : Σ;
  store : list SearchEditorInput;
  inputs : gmap string InputRef;   (* the module-level [inputs] map *)
  log : list Call
}.

Definition init (h : Σ) : World :=
  {| host := h; store := []; inputs := ∅; log := [] |}.

Definition set_host (h : Σ) (w : World) : World :=
  {| host := h; store := store w; inputs := inputs w; log := log w |}.

Definition set_store (s : list SearchEditorInput) (w : World) : World :=
  {| host := host w; store := s; inputs := inputs w; log := log w |}.

Definition set_inputs (i : gmap string InputRef) (w : World) : World :=
  {| host := host w; store := store w; inputs := i; log := log w |}.

Definition record (c : Call) (w : World) : World :=
  {| host := host w; store := store w; inputs := inputs w; log := log w ++ [c] |}.

(** A computation that may throw, or return a rejected promise. *)
Definition M (A : Type) : Type := World -> Outcome A * World.

Definition ret {A} (a : A) : M A := fun w => (Resolved a, w).

Definition throw {A} (e : Error) : M A := fun w => (Rejected e, w).

Definition bind {A B} (m : M A) (k : A -> M B) : M B :=
  fun w =>
    match m w with
    | (Resolved a, w') => k a w'
    | (Rejected e, w') => (Rejected e, w')
    end.

(** A plain, total step. *)
Definition step {A} (f : World -> A * World) : M A :=
  fun w => let '(a, w') := f w in (Resolved a, w').

Definition effect (f : World -> World) : M unit :=
  fun w => (Resolved tt, f w).

(** A call of an [async] function whose promise is dropped: its effects
    happen, its outcome is not looked at. *)
Definition drop {A} (m : M A) : M unit :=
  fun w => (Resolved tt, snd (m w)).

(** Calls through the interfaces. *)
Definition ask {A} (f : Σ -> A) : M A :=
  fun w => (Resolved (f (host w)), w).

Definition tell (c : Call) (f : Σ -> Σ) : World -> World :=
  fun w => set_host (f (host w)) (record c w).

Definition request {A} (c : Call) (f : Σ -> Outcome A * Σ) : M A :=
  fun w => let '(r, h) := f (host (record c w)) in (r, set_host h (record c w)).

(** The store. *)
Definition modify (r : InputRef) (f : SearchEditorInput -> SearchEditorInput)
  : World -> World :=
  fun w => set_store (alter f r (store w)) w.

Definition alloc (o : SearchEditorInput) : World -> InputRef * World :=
  fun w => (length (store w), set_store (store w ++ [o]) w).

(** Reading [this]; a reference always names an object in the source. *)
Definition read (this : InputRef) : M SearchEditorInput :=
  fun w =>
    match store w !! this with
    | Some o => (Resolved o, w)
    | None => (Rejected "ReferenceError", w)
    end.

(** [await this.model] *)
Definition await_model (this : InputRef) : M SearchEditorModel :=
  bind (read this) (fun o =>
    match model o with
    | Resolved m => ret m
    | Rejected e => throw e
    end).

End Workbench.

Arguments World Σ : clear implicits.
Arguments M Σ A : clear implicits.

Declare Scope workbench_scope.
Delimit Scope workbench_scope with wb.
Notation "'let*' x ':=' m 'in' k" := (bind m (fun x => k))
  (at level 10, x name, m at level 100, k at level 200) : workbench_scope.

Local Open Scope workbench_scope.

(** ** The members that change the world *)

Section Members.
Context `{Collaborators} {Σ : Type} `{Services Σ}.

Abbreviation W := (World Σ).
Abbreviation M := (M Σ).

Definition emit (c : Call) : M unit := effect (record c).

(** [setDirty]: the second event waits for the model, and is not fired when
    the model was rejected. *)
Definition setDirty (this : InputRef) (dirty : bool) : M unit :=
  let* _ := effect (modify this (set_dirty dirty)) in
  let* _ := emit (fire_onDidChangeDirty this) in
  let* _ := await_model this in
  emit (fire_onDidChangeDirty this).

Definition reloadModel (this : InputRef) : M SearchEditorModel :=
  let* model := await_model this in
  let* config := ask (model_searchConfig model) in
  let* _ := effect (modify this (set_query (Some config))) in
  let* decorations := ask (model_getAllDecorations model) in
  let* _ := effect (modify this (set_highlights (Some decorations))) in
  let* _ := emit (fire_onDidChangeLabel this) in
  ret model.

Definition setConfig (this : InputRef) (config : SearchConfiguration) : M unit :=
  let* model := await_model this in
  effect (tell (call_model_setConfig model config) (model_setConfig model config)).

Definition resolve (this : InputRef) : M unit := ret tt.

(** [setHighlights]: an array is never falsy, so the guard never returns. *)
Definition setHighlights (this : InputRef) (value : list IModelDeltaDecoration)
  : M unit :=
  let* model := await_model this in
  let* _ := effect (tell (call_deltaDecorations model value)
                         (model_deltaDecorations model value)) in
  effect (modify this (set_highlights (Some value))).

(** Modelled from the spec: the base class [EditorInput] is missing from the
    sources. Its [revert] is taken as a call into the host of which nothing
    is assumed; the promise that it returns is left alone. *)
Definition EditorInput_revert (this : InputRef) (group : GroupIdentifier)
  (options : option IRevertOptions) : M bool :=
  request (call_super_revert this group options) (super_revert this group options).

(** [revert]: the base class first, then the dirty flag; neither promise is
    awaited. *)
Definition revert (this : InputRef) (group : GroupIdentifier)
  (options : option IRevertOptions) : M bool :=
  let* _ := drop (EditorInput_revert this group options) in
  let* _ := drop (setDirty this false) in
  ret true.

Definition backup (this : InputRef) : M IWorkingCopyBackup :=
  let* model := await_model this in
  let* content := ask (model_createSnapshot model) in
  ret {| content := content |}.

Definition suggestFileName (this : InputRef) : M URI :=
  let* model := reloadModel this in
  let* config := ask (model_searchConfig model) in
  match query config with
  | None => throw "TypeError: query is undefined"
  | Some query =>
      let replaced := Js.replace_runs false query in
      let searchFileName :=
        (if Js.truthy replaced then replaced else "Search") +:+ ".code-search" in
      let* remoteAuthority := ask environmentService_remoteAuthority in
      let schemeFilter :=
        match if_truthy remoteAuthority with
        | Some _ => Schemas_vscodeRemote
        | None => Schemas_file
        end in
      let* defaultFilePath := ask (fileDialogService_defaultFilePath schemeFilter) in
      match defaultFilePath with
      | Some defaultFilePath => ret (joinPath defaultFilePath searchFileName)
      | None =>
          ret (toLocalResource (URI_from schemeFilter searchFileName "") remoteAuthority)
      end
  end.

(** Modelled from the spec: the base class [EditorInput] (and [Disposable]
    under it) is missing from the sources. Disposing an input marks it
    disposed, tells the [onDispose] listeners, which is how "disposing an
    input removes its entry", and then releases what the input registered:
    its emitters, so that no listener is told twice, and its model. *)
Definition EditorInput_dispose (this : InputRef) : W -> W :=
  fun w =>
    match store w !! this with
    | Some o =>
        if disposed o then w
        else
          let w := modify this (set_disposed true) w in
          let w := record (fire_onDispose this) w in
          let w :=
            fold_left
              (fun w l => match l with
                          | inputs_delete key => set_inputs (delete key (inputs w)) w
                          end)
              (onDispose o) w in
          let w := modify this (set_onDispose []) w in
          match model o with
          | Resolved m => tell (call_model_dispose m) (model_dispose m) w
          | Rejected _ => w
          end
    | None => w
    end.

Definition dispose (this : InputRef) : W -> W :=
  fun w =>
    match store w !! this with
    | Some o =>
        let w := tell (call_destroyModel (resource o))
                      (modelService_destroyModel (resource o)) w in
        EditorInput_dispose this w
    | None => w
    end.

(** *** The constructor *)

(** [getModel] is the closure that [getOrMakeSearchEditorInput] passes;
    the constructor calls it at once. Its promise being modelled as settled,
    all the calls of [getModel] stand in the log before the registration of
    the working copy; in the source those after its first [await] come
    later. What is stated of the constructor is stated of the working
    copies registered, not of the place of the registration in the log. *)
Definition new_SearchEditorInput (resource : URI) (getModel : M SearchEditorModel)
  (startingConfig : option SearchConfiguration) : W -> InputRef * W :=
  fun w =>
    let '(model, w) := getModel w in
    let this :=
      {| resource := resource; dirty := false; model := model;
         input_query := None; viewState := focused_input;
         _highlights := None; disposed := false; onDispose := [] |} in
    let '(input, w) := alloc this w in
    let workingCopyAdapter :=
      {| wc_input := input;
         wc_resource := getResource this;
         wc_capabilities :=
           if isUntitled this then WorkingCopyCapabilities_Untitled else 0%Z |} in
    let w := tell (call_registerWorkingCopy workingCopyAdapter)
                  (workingCopyService_registerWorkingCopy workingCopyAdapter) w in
    let w := modify input (set_query startingConfig) w in
    (input, w).

(** *** The registry *)

(** [instantiationService.createInstance(SearchEditorModel, a, uri)] *)
Definition createInstance_SearchEditorModel (a : ModelArgs) (uri : URI)
  : M SearchEditorModel :=
  step (fun w =>
    let '(m, h) := new_SearchEditorModel a uri (host w) in
    (m, set_host h (record (call_new_SearchEditorModel a uri) w))).

(** The closure [getModel] of [getOrMakeSearchEditorInput]. *)
Definition getModel (existingData : ExistingData) (uri : URI)
  (config : SearchConfiguration) : M SearchEditorModel :=
  let* existing := ask (modelService_getModel uri) in
  match existing with
  | Some existing =>
      createInstance_SearchEditorModel (resultsTextModel_searchConfig existing config) uri
  | None =>
      let* backup := request (call_backup_resolve uri) (backupService_resolve uri) in
      let* _ := effect (tell (call_discardBackup uri) (backupService_discardBackup uri)) in
      let* contents :=
        match backup with
        | Some backup => ret (of_factory (value backup))
        | None =>
            if negb (String.eqb (scheme uri) SearchEditorScheme) then
              let* file := request (call_read uri) (textFileService_read uri) in
              ret (of_string file)
            else
              match if_truthy (existingData_text existingData) with
              | Some text => ret (of_string text)
              | None =>
                  match existingData_config existingData with
                  | Some config => ret (of_string (serializeSearchConfiguration config))
                  | None => throw "no initial contents for search editor"
                  end
              end
        end in
      createInstance_SearchEditorModel (rawTextModel contents) uri
  end.

(** [existingData.config ?? (existingData.text ? extractSearchQuery(existingData.text) : {})] *)
Definition starting_config (existingData : ExistingData) : SearchConfiguration :=
  match existingData_config existingData with
  | Some config => config
  | None =>
      match if_truthy (existingData_text existingData) with
      | Some text => extractSearchQuery text
      | None => empty_config
      end
  end.

Definition getOrMakeSearchEditorInput (existingData : ExistingData)
  : W -> InputRef * W :=
  fun w =>
    let '(uri, w) :=
      match existingData_uri existingData with
      | Some uri => (uri, w)
      | None =>
          let '(random, h) := Math_random (host w) in
          (URI_from SearchEditorScheme "" random, set_host h w)
      end in
    match inputs w !! URI_toString uri with
    | Some existing => (existing, w)
    | None =>
        let config := starting_config existingData in
        let '(input, w) :=
          new_SearchEditorInput uri (getModel existingData uri config) (Some config) w in
        let w := set_inputs (<[URI_toString uri := input]> (inputs w)) w in
        let w := modify input
                   (fun o => set_onDispose
                               (onDispose o ++ [inputs_delete (URI_toString uri)]) o) w in
        (input, w)
    end.

(** *** Saving *)

Definition saveAs (this : InputRef) (group : GroupIdentifier)
  (options : option ITextFileSaveOptions) : M (option InputRef) :=
  let* suggested := suggestFileName this in
  let fileSystems := options ≫= availableFileSystems in
  let* path := request (call_pickFileToSave suggested fileSystems)
                       (fileDialogService_pickFileToSave suggested fileSystems) in
  match path with
  | Some path =>
      let* _ := effect (tell (call_publicLog2 "searchEditor/saveSearchResults")
                             (telemetryService_publicLog2 "searchEditor/saveSearchResults")) in
      let* o := read this in
      let* saved := request (call_saveAs (resource o) path options)
                            (textFileService_saveAs (resource o) path options) in
      match saved with
      | Some _ =>
          let* _ := drop (setDirty this false) in
          if negb (isEqual path (resource o)) then
            let* o := read this in
            let* input :=
              step (getOrMakeSearchEditorInput
                      (with_uri path (Some (default empty_config (input_query o))))) in
            let* o := read this in
            let* _ := drop (setHighlights input (highlights o)) in
            ret (Some input)
          else ret (Some this)
      | None => ret None
      end
  | None => ret None
  end.

Definition save (this : InputRef) (group : GroupIdentifier)
  (options : option ITextFileSaveOptions) : M (option InputRef) :=
  let* model := await_model this in
  let* isDisposed := ask (model_isDisposed model) in
  if isDisposed then ret None
  else
    let* o := read this in
    if isUntitled o then saveAs this group options
    else
      let* model := await_model this in
      let* snapshot := ask (model_createSnapshot model) in
      let* _ := request (call_write (resource o) snapshot options)
                        (textFileService_write (resource o) snapshot options) in
      let* _ := drop (setDirty this false) in
      ret (Some this).

(** [isSaving] asks the files-configuration service. *)
Definition isSaving (this : SearchEditorInput) (h : Σ) : bool :=
  if negb (isDirty this) then false
  else if isUntitled this then false
  else if AutoSaveMode_eqb (filesConfigurationService_getAutoSaveMode h) AFTER_SHORT_DELAY
  then true
  else false.

(** [this === other]: the same object, that is the same reference. *)
Definition same_object (this : InputRef) (other : unknown) : bool :=
  match other with
  | a_SearchEditorInput r => Nat.eqb this r
  | another_value _ => false
  end.

(** [other instanceof SearchEditorInput] *)
Definition instanceof_SearchEditorInput (other : unknown) (w : W)
  : option SearchEditorInput :=
  match other with
  | a_SearchEditorInput r => store w !! r
  | another_value _ => None
  end.

Definition matches (this : InputRef) (other : unknown) (w : W) : bool :=
  if same_object this other then true
  else
    match store w !! this, instanceof_SearchEditorInput other w with
    | Some this, Some other =>
        if Js.truthy (path (resource other))
             && String.eqb (path (resource other)) (path (resource this))
           || Js.truthy (fragment (resource other))
             && String.eqb (fragment (resource other)) (fragment (resource this))
        then true
        else false
    | _, _ => false
    end.

(** *** The working copy adapter

    The members of the anonymous class that are not plain fields. *)

Definition WorkingCopyAdapter_name (a : IWorkingCopy) (w : W) : option string :=
  (fun input => getName input None) <$> store w !! wc_input a.

Definition WorkingCopyAdapter_isDirty (a : IWorkingCopy) (w : W) : option bool :=
  isDirty <$> store w !! wc_input a.

Definition WorkingCopyAdapter_backup (a : IWorkingCopy) : M IWorkingCopyBackup :=
  backup (wc_input a).

Definition WorkingCopyAdapter_save (a : IWorkingCopy)
  (options : option ITextFileSaveOptions) : M bool :=
  let* editor := save (wc_input a) 0%Z options in
  ret (bool_decide (is_Some editor)).

Definition WorkingCopyAdapter_revert (a : IWorkingCopy)
  (options : option IRevertOptions) : M bool :=
  revert (wc_input a) 0%Z options.

(** ** Runs

    What the rest of the workbench can do with this module: call
    [getOrMakeSearchEditorInput], construct an input of its own, call the
    public members of an input it holds, assign the public [viewState],
    and change the host on its side. The map [inputs] is private to the
    module. *)
Inductive Action :=
| do_getOrMake (existingData : ExistingData)
| do_construct (resource : URI) (getModel : Σ -> Outcome SearchEditorModel * Σ)
    (startingConfig : option SearchConfiguration)
| do_save (this : InputRef) (group : GroupIdentifier) (options : option ITextFileSaveOptions)
| do_saveAs (this : InputRef) (group : GroupIdentifier) (options : option ITextFileSaveOptions)
| do_reloadModel (this : InputRef)
| do_setConfig (this : InputRef) (config : SearchConfiguration)
| do_setDirty (this : InputRef) (dirty : bool)
| do_setHighlights (this : InputRef) (value : list IModelDeltaDecoration)
| do_revert (this : InputRef) (group : GroupIdentifier) (options : option IRevertOptions)
| do_dispose (this : InputRef)
| do_viewState (this : InputRef) (v : SearchEditorViewState)
| do_host (f : Σ -> Σ).

Definition exec (a : Action) (w : W) : W :=
  match a with
  | do_getOrMake d => snd (getOrMakeSearchEditorInput d w)
  | do_construct u g c =>
      snd (new_SearchEditorInput u
             (fun w => let '(r, h) := g (host w) in (r, set_host h w)) c w)
  | do_save this g o => snd (save this g o w)
  | do_saveAs this g o => snd (saveAs this g o w)
  | do_reloadModel this => snd (reloadModel this w)
  | do_setConfig this c => snd (setConfig this c w)
  | do_setDirty this d => snd (setDirty this d w)
  | do_setHighlights this v => snd (setHighlights this v w)
  | do_revert this g o => snd (revert this g o w)
  | do_dispose this => dispose this w
  | do_viewState this v => modify this (set_viewState v) w
  | do_host f => set_host (f (host w)) w
  end.

Definition run (l : list Action) (w : W) : W := fold_left (fun w a => exec a w) l w.

Definition reachable (w : W) : Prop := exists h l, w = run l (init h).

End Members.

(** * Vocabulary of the statements *)

(** ** What the registry sees of the world

    The map [inputs], and of every object its resource, whether it is
    disposed, and its [onDispose] listeners. Most members leave this view
    alone. *)

Definition Skeleton : Type := URI * bool * list DisposeListener.

Definition skeleton (o : SearchEditorInput) : Skeleton :=
  (resource o, disposed o, onDispose o).

Definition View : Type := gmap string InputRef * list Skeleton.

Section Vocabulary.
Context `{Collaborators} {Σ : Type} `{Services Σ}.

Abbreviation W := (World Σ).
Abbreviation M := (M Σ).

Definition view (w : W) : View := (inputs w, skeleton <$> store w).

(** A computation that leaves the view alone. *)
Definition keeps {A} (m : M A) : Prop := forall w, view (snd (m w)) = view w.

(** Every entry names a live input that was stored under the string form
    of its own uri and still listens for its disposal; and every listener
    of an input points back at the entry of that input. *)
Definition entries_open (v : View) : Prop :=
  forall key r,
    v.1 !! key = Some r ->
    exists u ls,
      v.2 !! r = Some (u, false, ls)
      /\ key = URI_toString u
      /\ inputs_delete key ∈ ls.

Definition listeners_own (v : View) : Prop :=
  forall r u d ls key,
    v.2 !! r = Some (u, d, ls) ->
    inputs_delete key ∈ ls ->
    v.1 !! key = Some r.

Definition Inv (v : View) : Prop := entries_open v /\ listeners_own v.

(** From one view to a later one: an object stays where it is, and while
    it is not disposed its skeleton is the same. *)
Definition later (v v' : View) : Prop :=
  forall r s,
    v.2 !! r = Some s ->
    exists s', v'.2 !! r = Some s' /\ (s'.1.2 = false -> s' = s).

Definition evolves (v v' : View) : Prop := Inv v -> Inv v' /\ later v v'.

(** The keys that the listeners of a disposed input delete. *)
Definition delete_keys (ls : list DisposeListener) (i : gmap string InputRef)
  : gmap string InputRef :=
  fold_left (fun i l => match l with inputs_delete key => delete key i end) ls i.

(** A computation under which the view evolves. *)
Definition good {A} (m : M A) : Prop := forall w, evolves (view w) (view (m w).2).

(** The uri that [getOrMakeSearchEditorInput] works with. *)
Definition uri_of (existingData : ExistingData) (w : W) : URI :=
  match existingData_uri existingData with
  | Some uri => uri
  | None => URI_from SearchEditorScheme "" (Math_random (host w)).1
  end.

(** The world once the backup was asked for and discarded. *)
Definition after_backup (uri : URI) (h1 : Σ) (w : W) : W :=
  tell (call_discardBackup uri) (backupService_discardBackup uri)
    (set_host h1 (record (call_backup_resolve uri) w)).

(** As the spec puts it for the text: with no text model and no backup,
    under the search-editor scheme, a text that was passed is the contents
    of the model. *)
Definition provided_text_is_used : Prop :=
  forall (d : ExistingData) (uri : URI) (config : SearchConfiguration) (w : W)
    (h1 : Σ) (text : string),
    modelService_getModel uri (host w) = None ->
    backupService_resolve uri (host w) = (Resolved None, h1) ->
    scheme uri = SearchEditorScheme ->
    existingData_text d = Some text ->
    getModel d uri config w
    = createInstance_SearchEditorModel (rawTextModel (of_string text)) uri
        (after_backup uri h1 w).

(** As the spec puts it for the starting config: a new input made from a
    text starts from [extractSearchQuery] of that text. *)
Definition text_config_is_extracted : Prop :=
  forall (w : W) (text : string),
    inputs w !! URI_toString (uri_of (with_text text) w) = None ->
    input_query <$> store (getOrMakeSearchEditorInput (with_text text) w).2
                      !! (getOrMakeSearchEditorInput (with_text text) w).1
    = Some (Some (extractSearchQuery text)).

(** As the spec puts it for a cancelled [saveAs]: it returns undefined and
    leaves the input as it was. *)
Definition cancelled_saveAs_leaves_input : Prop :=
  forall (this : InputRef) (group : GroupIdentifier)
    (options : option ITextFileSaveOptions) (w : W) (name : URI) (w1 : W) (h2 : Σ),
    suggestFileName this w = (Resolved name, w1) ->
    fileDialogService_pickFileToSave name (options ≫= availableFileSystems) (host w1)
    = (Resolved None, h2) ->
    (saveAs this group options w).1 = Resolved None
    /\ store (saveAs this group options w).2 !! this = store w !! this.

End Vocabulary.

(** The calls that write through the text file service or log telemetry. *)
Definition writes_or_logs (c : Call) : bool :=
  match c with
  | call_write _ _ _ | call_saveAs _ _ _ | call_publicLog2 _ => true
  | _ => false
  end.

(** ** A small host

    One implementation of the interfaces, to run the definitions on: files,
    backups and models are kept in lists, the dialog answers with a fixed
    choice, and a search configuration is serialized as one header line. *)

Fixpoint assoc {A} (key : string) (l : list (string * A)) : option A :=
  match l with
  | [] => None
  | (k, a) :: l => if String.eqb k key then Some a else assoc key l
  end.

Fixpoint after_prefix (p s : string) : option string :=
  match p, s with
  | EmptyString, _ => Some s
  | String a p, String b s => if Ascii.eqb a b then after_prefix p s else None
  | String _ _, EmptyString => None
  end.

Definition demo_toString (u : URI) : string :=
  scheme u +:+ ":" +:+ path u +:+ "#" +:+ fragment u.

Definition demo_collaborators : Collaborators :=
  {| SearchEditorScheme := "search-editor";
     Schemas_vscodeRemote := "vscode-remote";
     Schemas_file := "file";
     WorkingCopyCapabilities_Untitled := 2;
     URI_toString := demo_toString;
     isEqual := fun a b => String.eqb (demo_toString a) (demo_toString b);
     joinPath := fun u name =>
       {| scheme := scheme u; authority := authority u;
          path := path u +:+ "/" +:+ name; uri_query := uri_query u;
          fragment := fragment u |};
     toLocalResource := fun u _ => u;
     basename := fun p ext => p;
     extractSearchQuery := fun text =>
       {| query := Some (default "" (after_prefix "# Query: " text)); settings := [] |};
     serializeSearchConfiguration := fun c => "# Query: " +:+ default "" (query c) |}.

Record DemoHost := {
  demo_models : list (SearchConfiguration * string * bool);
  demo_files : list (string * string);
  demo_backups : list (string * ITextBufferFactory);
  demo_pick : option URI;
  demo_autoSave : AutoSaveMode;
  demo_seed : nat
}.

Definition with_models (ms : list (SearchConfiguration * string * bool)) (h : DemoHost)
  : DemoHost :=
  {| demo_models := ms; demo_files := demo_files h; demo_backups := demo_backups h;
     demo_pick := demo_pick h; demo_autoSave := demo_autoSave h;
     demo_seed := demo_seed h |}.

Definition with_files (fs : list (string * string)) (h : DemoHost) : DemoHost :=
  {| demo_models := demo_models h; demo_files := fs; demo_backups := demo_backups h;
     demo_pick := demo_pick h; demo_autoSave := demo_autoSave h;
     demo_seed := demo_seed h |}.

Definition demo_model (m : SearchEditorModel) (h : DemoHost)
  : SearchConfiguration * string * bool :=
  default (empty_config, "", true) (demo_models h !! m).

Definition demo_services : Services DemoHost :=
  {| modelService_getModel := fun _ _ => None;
     modelService_destroyModel := fun _ h => h;
     backupService_resolve := fun u h =>
       (Resolved ((fun f => {| value := f |}) <$> assoc (demo_toString u) (demo_backups h)), h);
     backupService_discardBackup := fun u h =>
       {| demo_models := demo_models h; demo_files := demo_files h;
          demo_backups :=
            filter (fun b => negb (String.eqb b.1 (demo_toString u))) (demo_backups h);
          demo_pick := demo_pick h; demo_autoSave := demo_autoSave h;
          demo_seed := demo_seed h |};
     textFileService_read := fun u h =>
       match assoc (demo_toString u) (demo_files h) with
       | Some text => (Resolved text, h)
       | None => (Rejected "file not found", h)
       end;
     textFileService_write := fun u snapshot _ h =>
       (Resolved tt, with_files ((demo_toString u, snapshot) :: demo_files h) h);
     textFileService_saveAs := fun source target _ h =>
       (Resolved (Some target),
        with_files ((demo_toString target,
                     default "" (assoc (demo_toString source) (demo_files h)))
                      :: demo_files h) h);
     fileDialogService_pickFileToSave := fun _ _ h => (Resolved (demo_pick h), h);
     fileDialogService_defaultFilePath := fun _ _ => None;
     telemetryService_publicLog2 := fun _ h => h;
     workingCopyService_registerWorkingCopy := fun _ h => h;
     filesConfigurationService_getAutoSaveMode := demo_autoSave;
     environmentService_remoteAuthority := fun _ => None;
     Math_random := fun h =>
       ("0." +:+ String (ascii_of_nat (48 + demo_seed h mod 10)) "",
        {| demo_models := demo_models h; demo_files := demo_files h;
           demo_backups := demo_backups h; demo_pick := demo_pick h;
           demo_autoSave := demo_autoSave h; demo_seed := S (demo_seed h) |});
     new_SearchEditorModel := fun a _ h =>
       (length (demo_models h),
        with_models
          (demo_models h
             ++ [match a with
                 | resultsTextModel_searchConfig _ c => (c, "", false)
                 | rawTextModel (of_string text) =>
                     (@extractSearchQuery demo_collaborators text, text, false)
                 | rawTextModel (of_factory _) => (empty_config, "", false)
                 end])%list h);
     model_isDisposed := fun m h => (demo_model m h).2;
     model_createSnapshot := fun m h => (demo_model m h).1.2;
     model_searchConfig := fun m h => (demo_model m h).1.1;
     model_setConfig := fun m c h =>
       with_models (alter (fun x => (c, x.1.2, x.2)) m (demo_models h)) h;
     model_getAllDecorations := fun _ _ => [];
     model_deltaDecorations := fun _ _ h => h;
     model_dispose := fun m h =>
       with_models (alter (fun x => (x.1, true)) m (demo_models h)) h;
     super_revert := fun _ _ _ h => (Resolved true, h) |}.

(** A saved search on disk, and a host in which the user cancels dialogs. *)
Definition demo_file : URI := URI_from "file" "/searches/foo.code-search" "".

Definition demo_untitled : URI := URI_from "search-editor" "" "0.5".

Definition demo_host : DemoHost :=
  {| demo_models := [];
     demo_files := [("file:/searches/foo.code-search#", "# Query: foo")];
     demo_backups := [];
     demo_pick := None;
     demo_autoSave := AFTER_SHORT_DELAY;
     demo_seed := 0 |}.

Section DemoWorlds.
#[local] Existing Instance demo_collaborators.
#[local] Existing Instance demo_services.

Abbreviation W := (World DemoHost).

(** The world after the saved search was opened. *)
Definition demo_opened : W :=
  run [do_getOrMake (with_uri demo_file None)] (init demo_host).

Definition demo_between : list (@Action DemoHost) :=
  [do_setDirty 0%nat true; do_getOrMake (with_text "# Query: bar");
   do_dispose 1%nat; do_reloadModel 0%nat].

Definition demo_untitled_input : SearchEditorInput :=
  {| resource := demo_untitled; dirty := false; model := Resolved 0%nat;
     input_query := Some {| query := Some "  a rather long query "; settings := [] |};
     viewState := focused_input; _highlights := None; disposed := false;
     onDispose := [] |}.

Definition demo_two : W :=
  run [do_getOrMake (with_uri demo_file None);
       do_construct demo_file (fun h => (Rejected "none", h)) None;
       do_getOrMake (with_text "# Query: bar")] (init demo_host).

End DemoWorlds.

(** ** Working copies and file names *)

(** The working copies that were registered, in the order of the calls. *)
Fixpoint registered (l : list Call) : list IWorkingCopy :=
  match l with
  | [] => []
  | c :: l =>
      match c with
      | call_registerWorkingCopy a => a :: registered l
      | _ => registered l
      end
  end.

(** A predicate on every character of a string. *)
Fixpoint all_chars (p : ascii -> bool) (s : string) : bool :=
  match s with
  | EmptyString => true
  | String a r => p a && all_chars p r
  end.

(** The string begins with a character of the class [[\w \-_]], or is empty. *)
Definition starts_kept (s : string) : Prop :=
  match s with
  | EmptyString => True
  | String a _ => Js.is_file_name_char a = true
  end.

(** What [replace(/[^\w \-_]+/g, '_')] is to yield, in the words of the
    pattern and not of the loop of [Js.replace_runs]: a character of the
    class is kept, and a run of other characters that goes on to the next
    character of the class, or to the end, gives one underscore. *)
Inductive collapsed : string -> string -> Prop :=
| collapsed_end : collapsed "" ""
| collapsed_keep (a : ascii) (s t : string) :
    Js.is_file_name_char a = true ->
    collapsed s t ->
    collapsed (String a s) (String a t)
| collapsed_run (r s t : string) :
    r <> "" ->
    all_chars (fun a => negb (Js.is_file_name_char a)) r = true ->
    starts_kept s ->
    collapsed s t ->
    collapsed (r +:+ s) (String "_" t).

(** The schemes under which a uri has an absolute path. *)
Definition has_absolute_path (scheme : string) : bool :=
  String.eqb scheme "https" || String.eqb scheme "http" || String.eqb scheme "file".

Section Vocabulary_of_working_copies.
Context `{Collaborators} {Σ : Type} `{Services Σ}.

Abbreviation W := (World Σ).
Abbreviation M := (M Σ).

(** The adapter that the constructor builds for the input at [r]. *)
Definition adapter_of (r : InputRef) (resource : URI) : IWorkingCopy :=
  {| wc_input := r;
     wc_resource := resource;
     wc_capabilities :=
       if String.eqb (scheme resource) SearchEditorScheme
       then WorkingCopyCapabilities_Untitled else 0%Z |}.

(** What the working copy service was told, and the resources of the
    inputs that exist. *)
Definition footprint (w : W) : list IWorkingCopy * list URI :=
  (registered (log w), resource <$> store w).

(** A computation that registers nothing and makes no input. *)
Definition fixes {A} (m : M A) : Prop := forall w, footprint (m w).2 = footprint w.

(** One working copy for each input, in the order of construction. *)
Definition one_working_copy_each (w : W) : Prop :=
  registered (log w) = imap adapter_of (resource <$> store w).

(** Inputs stay where they are, with their resource; working copies stay
    matched with the inputs. *)
Definition advances (w w' : W) : Prop :=
  (resource <$> store w) `prefix_of` (resource <$> store w')
  /\ (one_working_copy_each w -> one_working_copy_each w').

Definition steady {A} (m : M A) : Prop := forall w, advances w (m w).2.

(** The name that [suggestFileName] derives from a query. *)
Definition searchFileName (query : string) : string :=
  (if Js.truthy (Js.replace_runs false query)
   then Js.replace_runs false query else "Search") +:+ ".code-search".

(** The scheme that [suggestFileName] filters on. *)
Definition schemeFilter (h : Σ) : string :=
  match if_truthy (environmentService_remoteAuthority h) with
  | Some _ => Schemas_vscodeRemote
  | None => Schemas_file
  end.

(** The world in which [getModel] runs: after [Math.random], if that was
    called. *)
Definition before_getModel (d : ExistingData) (w : W) : W :=
  match existingData_uri d with
  | Some _ => w
  | None => set_host (Math_random (host w)).2 w
  end.

(** The input as the constructor and the registry leave it. *)
Definition fresh_input (d : ExistingData) (w : W) : SearchEditorInput :=
  {| resource := uri_of d w; dirty := false;
     model := (getModel d (uri_of d w) (starting_config d) (before_getModel d w)).1;
     input_query := Some (starting_config d); viewState := focused_input;
     _highlights := None; disposed := false;
     onDispose := [inputs_delete (URI_toString (uri_of d w))] |}.

(** The world once the dialog has answered and telemetry was logged. *)
Definition after_pick (name : URI) (fileSystems : option (list string)) (h2 : Σ) (w1 : W)
  : W :=
  tell (call_publicLog2 "searchEditor/saveSearchResults")
       (telemetryService_publicLog2 "searchEditor/saveSearchResults")
    (set_host h2 (record (call_pickFileToSave name fileSystems) w1)).

End Vocabulary_of_working_copies.

(** ** Variations of the small host *)

(** The small host with a text model for every uri, with a backup service
    that fails, or with a text file service that saves nothing. *)
Definition demo_services_with (existing : option ITextModel) (backup_error : option Error)
  (saves : bool) : Services DemoHost :=
  {| modelService_getModel := fun _ _ => existing;
     modelService_destroyModel := @modelService_destroyModel _ demo_services;
     backupService_resolve := fun u h =>
       match backup_error with
       | Some e => (Rejected e, h)
       | None => @backupService_resolve _ demo_services u h
       end;
     backupService_discardBackup := @backupService_discardBackup _ demo_services;
     textFileService_read := @textFileService_read _ demo_services;
     textFileService_write := @textFileService_write _ demo_services;
     textFileService_saveAs := fun source target options h =>
       if saves then @textFileService_saveAs _ demo_services source target options h
       else (Resolved None, h);
     fileDialogService_pickFileToSave := @fileDialogService_pickFileToSave _ demo_services;
     fileDialogService_defaultFilePath := @fileDialogService_defaultFilePath _ demo_services;
     telemetryService_publicLog2 := @telemetryService_publicLog2 _ demo_services;
     workingCopyService_registerWorkingCopy :=
       @workingCopyService_registerWorkingCopy _ demo_services;
     filesConfigurationService_getAutoSaveMode :=
       @filesConfigurationService_getAutoSaveMode _ demo_services;
     environmentService_remoteAuthority := @environmentService_remoteAuthority _ demo_services;
     Math_random := @Math_random _ demo_services;
     new_SearchEditorModel := @new_SearchEditorModel _ demo_services;
     model_isDisposed := @model_isDisposed _ demo_services;
     model_createSnapshot := @model_createSnapshot _ demo_services;
     model_searchConfig := @model_searchConfig _ demo_services;
     model_setConfig := @model_setConfig _ demo_services;
     model_getAllDecorations := @model_getAllDecorations _ demo_services;
     model_deltaDecorations := @model_deltaDecorations _ demo_services;
     model_dispose := @model_dispose _ demo_services;
     super_revert := @super_revert _ demo_services |}.

(** Where the user saves to, and hosts in which the dialog answers so. *)
Definition demo_target : URI := URI_from "file" "/searches/bar.code-search" "".

Definition demo_host_picking (target : URI) : DemoHost :=
  {| demo_models := [];
     demo_files := [("file:/searches/foo.code-search#", "# Query: foo")];
     demo_backups := [];
     demo_pick := Some target;
     demo_autoSave := AFTER_SHORT_DELAY;
     demo_seed := 0 |}.

Section MoreDemoWorlds.
#[local] Existing Instance demo_collaborators.
#[local] Existing Instance demo_services.

Abbreviation W := (World DemoHost).

(** The saved search opened on a host where the dialog answers [target]. *)
Definition demo_opened_picking (target : URI) : W :=
  run [do_getOrMake (with_uri demo_file None)] (init (demo_host_picking target)).

(** The input of the saved search, as opened and as reloaded. *)
Definition demo_opened_input : SearchEditorInput :=
  {| resource := demo_file; dirty := false; model := Resolved 0%nat;
     input_query := Some empty_config; viewState := focused_input;
     _highlights := None; disposed := false;
     onDispose := [inputs_delete (URI_toString demo_file)] |}.

Definition demo_reloaded_input : SearchEditorInput :=
  {| resource := demo_file; dirty := false; model := Resolved 0%nat;
     input_query := Some {| query := Some "foo"; settings := [] |};
     viewState := focused_input; _highlights := Some []; disposed := false;
     onDispose := [inputs_delete (URI_toString demo_file)] |}.

(** The name that the small host proposes for the saved search. *)
Definition demo_suggested : URI := URI_from "file" "foo.code-search" "".

(** An untitled search for a query with characters that no file name takes. *)
Definition demo_odd : W :=
  run [do_getOrMake (with_text "# Query: a/b: c??d")] (init demo_host).

(** The uri of the first untitled input that the small host makes. *)
Definition demo_untitled_0 : URI := URI_from "search-editor" "" "0.0".

(** An untitled input whose model could not be made: the text was empty. *)
Definition demo_broken : W :=
  run [do_getOrMake (with_text "")] (init demo_host).

(** The saved search opened and closed again. *)
Definition demo_closed : W :=
  run [do_getOrMake (with_uri demo_file None); do_dispose 0%nat] (init demo_host).

End MoreDemoWorlds.

(** * Properties *)

(** ** Strings *)

Lemma truthy_true (s : string) : Js.truthy s = true <-> s <> "".
Proof. destruct s; simpl; split; congruence. Qed.

Lemma truthy_false (s : string) : Js.truthy s = false <-> s = "".
Proof. destruct s; simpl; split; congruence. Qed.

Lemma if_truthy_Some (o : option string) (s : string) :
  if_truthy o = Some s <-> o = Some s /\ s <> "".
Proof.
  destruct o as [t|]; simpl; [|split; [congruence | intros [? _]; congruence]].
  destruct (Js.truthy t) eqn:E.
  - apply truthy_true in E. split; [intros [= ->]; auto | intros [[= ->] _]; auto].
  - apply truthy_false in E. subst t. split; [congruence | intros [[= <-] ?]; congruence].
Qed.

Lemma if_truthy_None (o : option string) :
  if_truthy o = None <-> o = None \/ o = Some "".
Proof.
  destruct o as [t|]; simpl; [|split; auto].
  destruct t; simpl; split; auto; intros [?|?]; congruence.
Qed.

Lemma length_substring_0 (n : nat) (s : string) :
  String.length (String.substring 0 n s) = Nat.min n (String.length s).
Proof.
  revert n. induction s as [|a s IH]; intros [|n]; simpl; auto.
Qed.

Lemma append_nil (t : string) : "" +:+ t = t.
Proof. reflexivity. Qed.

Lemma append_cons (a : ascii) (s t : string) : String a s +:+ t = String a (s +:+ t).
Proof. reflexivity. Qed.

Lemma length_append (s t : string) :
  String.length (s +:+ t) = (String.length s + String.length t)%nat.
Proof.
  induction s as [|a s IH]; [reflexivity |].
  rewrite append_cons. simpl. now rewrite IH.
Qed.

Lemma append_empty_r (s : string) : s +:+ "" = s.
Proof. induction s as [|a s IH]; [reflexivity |]. now rewrite append_cons, IH. Qed.

Lemma format_searchTitle (label : string) :
  localize "searchTitle.withQuery" "Search: {0}" (Some label) = "Search: " +:+ label.
Proof.
  unfold localize. cbn [Js.format0]. rewrite append_empty_r.
  now rewrite !append_cons, append_nil.
Qed.

Section TrimToMax.
Context `{Collaborators}.

Lemma trimToMax_short (label : string) :
  (String.length label < 12)%nat -> trimToMax 12 label = label.
Proof.
  intros Hl. unfold trimToMax.
  destruct (Z.ltb_spec (Z.of_nat (String.length label)) 12); [reflexivity | lia].
Qed.

Lemma trimToMax_long (label : string) :
  (12 <= String.length label)%nat ->
  trimToMax 12 label = String.substring 0 9 label +:+ "...".
Proof.
  intros Hl. unfold trimToMax, Js.slice0.
  destruct (Z.ltb_spec (Z.of_nat (String.length label)) 12); [lia |].
  replace (12 - 3)%Z with 9%Z by lia.
  destruct (Z.ltb_spec 9 0); [lia |].
  rewrite Z.min_l by lia. reflexivity.
Qed.

Lemma trimToMax_length (label : string) :
  (String.length (trimToMax 12 label) <= 12)%nat.
Proof.
  destruct (Nat.lt_ge_cases (String.length label) 12) as [Hl|Hl].
  - rewrite trimToMax_short by assumption. lia.
  - rewrite trimToMax_long by assumption.
    rewrite length_append, length_substring_0.
    change (String.length "...") with 3%nat. lia.
Qed.

End TrimToMax.

(** ** Names *)

Section Names.
Context `{Collaborators}.

(** C9. With the default [maxLength] of 12, the name of an untitled input
    with a query that does not trim to the empty string is "Search: "
    followed by a label of at most 12 characters: the trimmed query itself
    when it has fewer than 12 characters, and else (12 characters or more)
    its first 9 characters followed by "..."; an untitled input whose query
    is absent or trims to the empty string is named "Search". *)
Theorem getName_query_label (this : SearchEditorInput) :
  isUntitled this = true ->
  (forall c q,
      input_query this = Some c -> query c = Some q -> Js.trim q <> "" ->
      let label := trimToMax 12 (Js.trim q) in
      getName this None = "Search: " +:+ label
      /\ (String.length label <= 12)%nat
      /\ ((String.length (Js.trim q) < 12)%nat -> label = Js.trim q)
      /\ ((12 <= String.length (Js.trim q))%nat ->
          label = String.substring 0 9 (Js.trim q) +:+ "..."))
  /\ ((input_query this = None
       \/ (exists c, input_query this = Some c
                     /\ (query c = None
                         \/ exists q, query c = Some q /\ Js.trim q = ""))) ->
      getName this None = "Search").
Proof.
  intros Hu. split.
  - intros c q Hc Hq Ht label.
    split; [| split; [apply trimToMax_length | split]].
    + unfold getName. rewrite Hu. unfold trimmed_query. rewrite Hc, Hq.
      assert (if_truthy (Some (Js.trim q)) = Some (Js.trim q)) as ->
        by (apply if_truthy_Some; auto).
      simpl default. apply format_searchTitle.
    + apply trimToMax_short.
    + apply trimToMax_long.
  - intros Hq. unfold getName. rewrite Hu.
    assert (if_truthy (trimmed_query this) = None) as ->; [| reflexivity].
    apply if_truthy_None. unfold trimmed_query.
    destruct Hq as [-> | (c & -> & [-> | (q & -> & ->)])]; auto.
Qed.

End Names.

(** ** Saving state and matching *)

Section Queries.
Context `{Collaborators} {Σ : Type} `{Services Σ}.

(** C8. [isSaving] answers true only for an input that is dirty and not
    untitled while the files-configuration service reports the auto-save
    mode AFTER_SHORT_DELAY (and then it does); so [isSaving] implies
    [isDirty], and an untitled input is never reported as saving. *)
Theorem isSaving_only_when (this : SearchEditorInput) (h : Σ) :
  (isSaving this h = true <->
     isDirty this = true /\ isUntitled this = false
     /\ filesConfigurationService_getAutoSaveMode h = AFTER_SHORT_DELAY)
  /\ (isSaving this h = true -> isDirty this = true)
  /\ (isUntitled this = true -> isSaving this h = false).
Proof.
  unfold isSaving.
  destruct (isDirty this), (isUntitled this),
    (filesConfigurationService_getAutoSaveMode h); simpl;
    repeat split; intros; try congruence; intuition congruence.
Qed.

(** C10. [matches] is reflexive and symmetric on inputs, is false on every
    value that is not a [SearchEditorInput], and two distinct inputs match
    exactly when their resources have equal non-empty paths or equal
    non-empty fragments. *)
Theorem matches_relation (w : World Σ) (a b : InputRef)
  (this other : SearchEditorInput) :
  store w !! a = Some this ->
  store w !! b = Some other ->
  matches a (a_SearchEditorInput a) w = true
  /\ matches a (a_SearchEditorInput b) w = matches b (a_SearchEditorInput a) w
  /\ (forall v, matches a (another_value v) w = false)
  /\ (a <> b ->
      (matches a (a_SearchEditorInput b) w = true <->
         (path (resource this) = path (resource other)
          /\ path (resource this) <> "")
         \/ (fragment (resource this) = fragment (resource other)
             /\ fragment (resource this) <> ""))).
Proof.
  intros Ha Hb. unfold matches. simpl.
  rewrite Nat.eqb_refl, Ha, Hb.
  split; [reflexivity |]. split; [| split].
  - rewrite (Nat.eqb_sym b a). destruct (Nat.eqb a b); [reflexivity |].
    destruct (String.eqb_spec (path (resource other)) (path (resource this))) as [Ep|Ep],
      (String.eqb_spec (fragment (resource other)) (fragment (resource this))) as [Ef|Ef].
    + rewrite Ep, Ef. rewrite !String.eqb_refl. reflexivity.
    + rewrite Ep, String.eqb_refl.
      destruct (String.eqb_spec (fragment (resource this)) (fragment (resource other)));
        [congruence |]. now rewrite !andb_false_r.
    + rewrite Ef, String.eqb_refl.
      destruct (String.eqb_spec (path (resource this)) (path (resource other)));
        [congruence |]. now rewrite !andb_false_r.
    + destruct (String.eqb_spec (path (resource this)) (path (resource other)));
        [congruence |].
      destruct (String.eqb_spec (fragment (resource this)) (fragment (resource other)));
        [congruence |]. now rewrite !andb_false_r.
  - reflexivity.
  - intros Hne. apply Nat.eqb_neq in Hne. rewrite Hne.
    destruct (_ || _) eqn:E.
    + split; [intros _ | reflexivity].
      apply orb_true_iff in E.
      destruct E as [E|E]; apply andb_true_iff in E; destruct E as [E1 E2];
        apply truthy_true in E1; apply String.eqb_eq in E2;
        [left | right]; split; congruence.
    + split; [congruence |]. intros Hm. exfalso.
      apply orb_false_iff in E. destruct E as [E1 E2].
      apply andb_false_iff in E1. apply andb_false_iff in E2.
      destruct Hm as [[Hp Hn] | [Hf Hn]].
      * destruct E1 as [E1|E1];
          [apply truthy_false in E1 | apply String.eqb_neq in E1]; congruence.
      * destruct E2 as [E2|E2];
          [apply truthy_false in E2 | apply String.eqb_neq in E2]; congruence.
Qed.

End Queries.

(** ** Computations that leave the view alone *)

Section View.
Context `{Collaborators} {Σ : Type} `{Services Σ}.

Abbreviation W := (World Σ).
Abbreviation M := (M Σ).

Lemma view_modify (r : InputRef) (f : SearchEditorInput -> SearchEditorInput) (w : W) :
  (forall o, skeleton (f o) = skeleton o) -> view (modify r f w) = view w.
Proof.
  intros Hf. unfold view, modify. simpl. f_equal.
  rewrite (list_fmap_alter skeleton f id).
  - apply list_alter_id. reflexivity.
  - apply Forall_forall. intros o _. apply Hf.
Qed.

Lemma view_tell (c : Call) (f : Σ -> Σ) (w : W) : view (tell c f w) = view w.
Proof. reflexivity. Qed.

Lemma view_record (c : Call) (w : W) : view (record c w) = view w.
Proof. reflexivity. Qed.

Lemma view_set_host (h : Σ) (w : W) : view (set_host h w) = view w.
Proof. reflexivity. Qed.

Lemma keeps_ret {A} (a : A) : keeps (Σ := Σ) (ret a).
Proof. intros w. reflexivity. Qed.

Lemma keeps_throw {A} (e : Error) : keeps (Σ := Σ) (throw (A := A) e).
Proof. intros w. reflexivity. Qed.

Lemma keeps_bind {A B} (m : M A) (k : A -> M B) :
  keeps m -> (forall a, keeps (Σ := Σ) (k a)) -> keeps (Σ := Σ) (bind m k).
Proof.
  intros Hm Hk w. unfold bind. specialize (Hm w).
  destruct (m w) as [[a|e] w']; simpl in *; [| assumption].
  rewrite Hk. assumption.
Qed.

Lemma keeps_ask {A} (f : Σ -> A) : keeps (Σ := Σ) (ask f).
Proof. intros w. reflexivity. Qed.

Lemma keeps_request {A} (c : Call) (f : Σ -> Outcome A * Σ) : keeps (Σ := Σ) (request c f).
Proof. intros w. unfold request. destruct (f _). reflexivity. Qed.

Lemma keeps_effect (f : W -> W) : (forall w, view (f w) = view w) -> keeps (Σ := Σ) (effect f).
Proof. intros Hf w. apply Hf. Qed.

Lemma keeps_emit (c : Call) : keeps (Σ := Σ) (emit c).
Proof. apply keeps_effect, view_record. Qed.

Lemma keeps_drop {A} (m : M A) : keeps m -> keeps (Σ := Σ) (drop m).
Proof. intros Hm w. apply Hm. Qed.

Lemma keeps_read (this : InputRef) : keeps (Σ := Σ) (read this).
Proof. intros w. unfold read. destruct (store w !! this); reflexivity. Qed.

Lemma keeps_new_model (a : ModelArgs) (u : URI) :
  keeps (Σ := Σ) (createInstance_SearchEditorModel a u).
Proof.
  intros w. unfold createInstance_SearchEditorModel, step.
  destruct (new_SearchEditorModel _ _ _). reflexivity.
Qed.

Lemma keeps_host_only {A} (g : Σ -> Outcome A * Σ) :
  keeps (Σ := Σ) (fun w : W => let '(r, h) := g (host w) in (r, set_host h w)).
Proof. intros w. destruct (g _). reflexivity. Qed.

End View.

Create HintDb keeps.

#[global] Hint Resolve keeps_ret keeps_throw keeps_ask keeps_request keeps_emit
  keeps_read keeps_new_model keeps_host_only view_tell view_record view_set_host : keeps.

(** Splits a computation at its binds and case distinctions. *)
Ltac keeps_tac :=
  repeat
    match goal with
    | |- forall _, _ => intro
    | |- keeps (bind _ _) => apply keeps_bind
    | |- keeps (drop _) => apply keeps_drop
    | |- keeps (effect (modify _ _)) => apply keeps_effect; intro; apply view_modify; reflexivity
    | |- keeps (effect _) => apply keeps_effect
    | |- keeps (match ?x with _ => _ end) => destruct x
    | |- _ => solve [auto with keeps]
    end.

Section KeepsMembers.
Context `{Collaborators} {Σ : Type} `{Services Σ}.

Lemma keeps_await_model (this : InputRef) : keeps (Σ := Σ) (await_model this).
Proof. unfold await_model. keeps_tac. Qed.

Hint Resolve keeps_await_model : keeps.

Lemma keeps_setDirty (this : InputRef) (d : bool) : keeps (Σ := Σ) (setDirty this d).
Proof. unfold setDirty. keeps_tac. Qed.

Lemma keeps_reloadModel (this : InputRef) : keeps (Σ := Σ) (reloadModel this).
Proof. unfold reloadModel. keeps_tac. Qed.

Lemma keeps_setConfig (this : InputRef) (c : SearchConfiguration) :
  keeps (Σ := Σ) (setConfig this c).
Proof. unfold setConfig. keeps_tac. Qed.

Lemma keeps_setHighlights (this : InputRef) (v : list IModelDeltaDecoration) :
  keeps (Σ := Σ) (setHighlights this v).
Proof. unfold setHighlights. keeps_tac. Qed.

Hint Resolve keeps_setDirty keeps_reloadModel : keeps.

Lemma keeps_revert (this : InputRef) (g : GroupIdentifier) (o : option IRevertOptions) :
  keeps (Σ := Σ) (revert this g o).
Proof. unfold revert, EditorInput_revert. keeps_tac. Qed.

Lemma keeps_suggestFileName (this : InputRef) : keeps (Σ := Σ) (suggestFileName this).
Proof. unfold suggestFileName. keeps_tac. Qed.

Lemma keeps_getModel (d : ExistingData) (u : URI) (c : SearchConfiguration) :
  keeps (Σ := Σ) (getModel d u c).
Proof. unfold getModel. keeps_tac. Qed.

End KeepsMembers.

#[global] Hint Resolve keeps_await_model keeps_setDirty keeps_reloadModel
  keeps_setConfig keeps_setHighlights keeps_revert keeps_suggestFileName
  keeps_getModel : keeps.

(** ** The invariant of the registry *)

Section Invariant.
Context `{Collaborators}.

Lemma later_refl (v : View) : later v v.
Proof. intros r s Hs. eauto. Qed.

Lemma later_trans (v1 v2 v3 : View) : later v1 v2 -> later v2 v3 -> later v1 v3.
Proof.
  intros H12 H23 r s Hs.
  destruct (H12 r s Hs) as (s2 & Hs2 & E2).
  destruct (H23 r s2 Hs2) as (s3 & Hs3 & E3).
  exists s3. split; [assumption |].
  intros Hd. specialize (E3 Hd). subst s3. auto.
Qed.

Lemma evolves_refl (v : View) : evolves v v.
Proof. intros Hv. split; [assumption | apply later_refl]. Qed.

Lemma evolves_trans (v1 v2 v3 : View) : evolves v1 v2 -> evolves v2 v3 -> evolves v1 v3.
Proof.
  intros H12 H23 Hv. destruct (H12 Hv) as [Hv2 L12].
  destruct (H23 Hv2) as [Hv3 L23]. split; [assumption |].
  eapply later_trans; eassumption.
Qed.

Lemma Inv_empty : Inv (∅, []).
Proof.
  split.
  - intros key r Hk. cbn [fst snd] in Hk. rewrite lookup_empty in Hk. discriminate.
  - intros r u d ls key Hr. cbn [fst snd] in Hr. discriminate.
Qed.

(** A new object without listeners. *)
Lemma evolves_push (i : gmap string InputRef) (s : list Skeleton) (u : URI) :
  evolves (i, s) (i, (s ++ [(u, false, [])])%list).
Proof.
  intros [I1 I2]. split; [split |].
  - intros key r Hk. destruct (I1 key r Hk) as (u' & ls & Hr & Hkey & Hl).
    exists u', ls. cbn [fst snd] in *. rewrite lookup_app_l by (eapply lookup_lt_Some; eauto).
    auto.
  - intros r u' d ls key Hr Hl. cbn [fst snd] in *.
    apply lookup_snoc_Some in Hr. destruct Hr as [[_ Hr] | [_ Hr]].
    + eapply I2; eauto.
    + injection Hr as <- <- <-. inversion Hl.
  - intros r sk Hr. cbn [fst snd] in *. exists sk.
    rewrite lookup_app_l by (eapply lookup_lt_Some; eauto). auto.
Qed.

(** A new object entered under a free key. *)
Lemma evolves_enter (i : gmap string InputRef) (s : list Skeleton) (u : URI) :
  i !! URI_toString u = None ->
  evolves (i, s)
    (<[URI_toString u := length s]> i,
     (s ++ [(u, false, [inputs_delete (URI_toString u)])])%list).
Proof.
  intros Hfree [I1 I2]. split; [split |].
  - intros key r Hk. cbn [fst snd] in *.
    destruct (decide (URI_toString u = key)) as [<- | Hne].
    + rewrite lookup_insert_eq in Hk. injection Hk as <-.
      exists u, [inputs_delete (URI_toString u)].
      rewrite lookup_app_r by reflexivity. rewrite Nat.sub_diag. simpl.
      split; [reflexivity | split; [reflexivity | apply list_elem_of_here]].
    + rewrite lookup_insert_ne in Hk by assumption.
      destruct (I1 key r Hk) as (u' & ls & Hr & Hkey & Hl).
      exists u', ls. cbn [fst snd] in *.
      rewrite lookup_app_l by (eapply lookup_lt_Some; eauto). auto.
  - intros r u' d ls key Hr Hl. cbn [fst snd] in *.
    apply lookup_snoc_Some in Hr. destruct Hr as [[Hlt Hr] | [-> Hr]].
    + pose proof (I2 r u' d ls key Hr Hl) as Hk. cbn [fst snd] in Hk.
      rewrite lookup_insert_ne; [assumption |]. intros <-. congruence.
    + injection Hr as <- <- <-.
      apply list_elem_of_singleton in Hl. injection Hl as ->.
      apply lookup_insert_eq.
  - intros r sk Hr. cbn [fst snd] in *. exists sk.
    rewrite lookup_app_l by (eapply lookup_lt_Some; eauto). auto.
Qed.

Lemma delete_keys_lookup (ls : list DisposeListener) (i : gmap string InputRef)
  (key : string) :
  delete_keys ls i !! key
  = if decide (inputs_delete key ∈ ls) then None else i !! key.
Proof.
  revert i. induction ls as [|[k] ls IH]; intros i.
  - rewrite decide_False by apply not_elem_of_nil. reflexivity.
  - change (delete_keys (inputs_delete k :: ls) i) with (delete_keys ls (delete k i)).
    rewrite IH.
    destruct (decide (inputs_delete key ∈ ls)) as [Hin|Hnin].
    + rewrite decide_True by (now apply list_elem_of_further). reflexivity.
    + destruct (decide (k = key)) as [-> | Hne].
      * rewrite decide_True by apply list_elem_of_here. apply lookup_delete_eq.
      * rewrite decide_False.
        -- now apply lookup_delete_ne.
        -- intros Hin. apply elem_of_cons in Hin.
           destruct Hin as [Hin | Hin]; [congruence | contradiction].
Qed.

(** Disposing a live object. *)
Lemma evolves_dispose (i : gmap string InputRef) (s : list Skeleton) (r : InputRef)
  (u : URI) (ls : list DisposeListener) :
  s !! r = Some (u, false, ls) ->
  evolves (i, s) (delete_keys ls i, <[r := (u, true, [])]> s).
Proof.
  intros Hr [I1 I2]. split; [split |].
  - intros key r' Hk. cbn [fst snd] in *. rewrite delete_keys_lookup in Hk.
    destruct (decide _) as [|Hnin]; [discriminate |].
    destruct (I1 key r' Hk) as (u' & ls' & Hr' & Hkey & Hl). cbn [fst snd] in *.
    exists u', ls'. rewrite list_lookup_insert_ne; [auto |].
    intros <-. rewrite Hr in Hr'. injection Hr' as <- <-. contradiction.
  - intros r' u' d ls' key Hr' Hl. cbn [fst snd] in *.
    destruct (decide (r = r')) as [<- | Hne].
    + rewrite list_lookup_insert_eq in Hr' by (eapply lookup_lt_Some; eauto).
      injection Hr' as <- <- <-. inversion Hl.
    + rewrite list_lookup_insert_ne in Hr' by assumption.
      pose proof (I2 r' u' d ls' key Hr' Hl) as Hk. cbn [fst snd] in Hk.
      rewrite delete_keys_lookup, decide_False; [assumption |].
      intros Hin. pose proof (I2 r u false ls key Hr Hin) as Hk'. cbn [fst snd] in Hk'.
      congruence.
  - intros r' sk Hr'. cbn [fst snd] in *.
    destruct (decide (r = r')) as [<- | Hne].
    + exists (u, true, []).
      rewrite list_lookup_insert_eq by (eapply lookup_lt_Some; eauto).
      split; [reflexivity | discriminate].
    + exists sk. rewrite list_lookup_insert_ne by assumption. auto.
Qed.

End Invariant.

(** ** The view after the constructor, the registry and [dispose] *)

Lemma fmap_alter_insert {A B} (f : A -> B) (g : A -> A) (l : list A) (r : nat) (o : A) :
  l !! r = Some o -> f <$> alter g r l = <[r := f (g o)]> (f <$> l).
Proof.
  revert r. induction l as [|a l IH]; intros [|r] Hr; try discriminate.
  - injection Hr as ->. reflexivity.
  - cbn. f_equal. apply IH. exact Hr.
Qed.

Section ViewOfMembers.
Context `{Collaborators} {Σ : Type} `{Services Σ}.

Abbreviation W := (World Σ).
Abbreviation M := (M Σ).

Lemma view_new (u : URI) (g : M SearchEditorModel) (c : option SearchConfiguration)
  (w : W) :
  keeps g ->
  (new_SearchEditorInput u g c w).1 = length (store w)
  /\ view (new_SearchEditorInput u g c w).2
     = ((view w).1, ((view w).2 ++ [(u, false, [])])%list).
Proof.
  intros Hg. unfold new_SearchEditorInput.
  specialize (Hg w). destruct (g w) as [m w1]. cbn [snd] in Hg.
  assert (length (store w1) = length (store w)) as Hlen.
  { apply (f_equal snd) in Hg. apply (f_equal length) in Hg.
    cbn in Hg. now rewrite !length_fmap in Hg. }
  cbn [alloc fst snd]. split; [assumption |].
  rewrite view_modify by reflexivity. rewrite view_tell.
  rewrite <- Hg. unfold view. cbn. now rewrite fmap_app.
Qed.

Lemma getOrMake_existing (d : ExistingData) (w : W) (r : InputRef) :
  inputs w !! URI_toString (uri_of d w) = Some r ->
  (getOrMakeSearchEditorInput d w).1 = r
  /\ view (getOrMakeSearchEditorInput d w).2 = view w.
Proof.
  unfold getOrMakeSearchEditorInput, uri_of.
  destruct (existingData_uri d) as [uri|].
  - intros ->. auto.
  - destruct (Math_random (host w)) as [x h]. cbn. intros ->. auto.
Qed.

Lemma getOrMake_new (d : ExistingData) (w : W) :
  inputs w !! URI_toString (uri_of d w) = None ->
  (getOrMakeSearchEditorInput d w).1 = length (store w)
  /\ view (getOrMakeSearchEditorInput d w).2
     = (<[URI_toString (uri_of d w) := length (store w)]> (view w).1,
        ((view w).2
           ++ [(uri_of d w, false, [inputs_delete (URI_toString (uri_of d w))])])%list).
Proof.
  unfold getOrMakeSearchEditorInput, uri_of.
  assert (forall (w0 : W) uri,
    view w0 = view w -> length (store w0) = length (store w) ->
    inputs w0 !! URI_toString uri = None ->
    let r := (let '(input, w1) :=
                new_SearchEditorInput uri
                  (getModel d uri (starting_config d)) (Some (starting_config d)) w0 in
              let w2 := set_inputs (<[URI_toString uri := input]> (inputs w1)) w1 in
              let w3 := modify input
                   (fun o => set_onDispose
                               (onDispose o ++ [inputs_delete (URI_toString uri)]) o) w2 in
              (input, w3)) in
    r.1 = length (store w)
    /\ view r.2
       = (<[URI_toString uri := length (store w)]> (view w).1,
          ((view w).2 ++ [(uri, false, [inputs_delete (URI_toString uri)])])%list)) as Hnew.
  { intros w0 uri Hv Hlen Hfree.
    destruct (view_new uri (getModel d uri (starting_config d))
                (Some (starting_config d)) w0 (keeps_getModel _ _ _)) as [Hr Hv1].
    destruct (new_SearchEditorInput _ _ _ w0) as [input w1].
    cbn [fst snd] in *. subst input. rewrite Hlen. split; [reflexivity |].
    rewrite Hv in Hv1. unfold view in Hv1 |- *.
    injection Hv1 as Hi Hs. cbn. rewrite Hi. f_equal.
    rewrite (list_fmap_alter skeleton _
               (fun s : Skeleton =>
                  (s.1.1, s.1.2, (s.2 ++ [inputs_delete (URI_toString uri)])%list)))
      by (apply Forall_forall; intros o _; reflexivity).
    rewrite Hs. replace (length (store w)) with (length (skeleton <$> store w) + 0)%nat
      by (rewrite length_fmap; lia).
    rewrite alter_app_r. reflexivity. }
  destruct (existingData_uri d) as [uri|].
  - intros Hfree. rewrite Hfree. now apply Hnew.
  - destruct (Math_random (host w)) as [x h]. cbn [fst].
    change (inputs (set_host h w)) with (inputs w). intros Hfree. rewrite Hfree.
    now apply (Hnew (set_host h w)).
Qed.

Lemma evolves_getOrMake (d : ExistingData) (w : W) :
  evolves (view w) (view (getOrMakeSearchEditorInput d w).2).
Proof.
  destruct (inputs w !! URI_toString (uri_of d w)) as [r|] eqn:E.
  - destruct (getOrMake_existing d w r E) as [_ ->]. apply evolves_refl.
  - destruct (getOrMake_new d w E) as [_ ->].
    unfold view. cbn [fst snd].
    replace (length (store w)) with (length (skeleton <$> store w))
      by apply length_fmap.
    now apply evolves_enter.
Qed.

(** The listeners of a disposed input, run on the world. *)
Lemma run_listeners (ls : list DisposeListener) (w : W) :
  fold_left
    (fun (w : W) l => match l with
                      | inputs_delete key => set_inputs (delete key (inputs w)) w
                      end) ls w
  = set_inputs (delete_keys ls (inputs w)) w.
Proof.
  revert w. induction ls as [|[k] ls IH]; intros w.
  - destruct w. reflexivity.
  - cbn [fold_left]. rewrite IH. reflexivity.
Qed.

Lemma view_dispose (r : InputRef) (w : W) :
  view (dispose r w)
  = match (view w).2 !! r with
    | Some (u, false, ls) => (delete_keys ls (view w).1, <[r := (u, true, [])]> (view w).2)
    | _ => view w
    end.
Proof.
  unfold dispose, view at 2 3 4. cbn [fst snd]. rewrite list_lookup_fmap.
  destruct (store w !! r) as [o|] eqn:Hr; [| reflexivity].
  unfold EditorInput_dispose. cbn [tell set_host record store]. rewrite Hr.
  cbn [fmap option_fmap option_map skeleton].
  destruct (disposed o) eqn:Hd; [reflexivity |].
  rewrite run_listeners.
  destruct (model o); [rewrite view_tell |];
    (unfold view; cbn; f_equal; rewrite list_alter_alter_eq;
     now rewrite (fmap_alter_insert skeleton _ _ _ o Hr)).
Qed.

Lemma evolves_dispose_world (r : InputRef) (w : W) :
  evolves (view w) (view (dispose r w)).
Proof.
  rewrite view_dispose.
  destruct ((view w).2 !! r) as [[[u [|]] ls]|] eqn:E; try apply evolves_refl.
  destruct (view w) as [i s]. now apply evolves_dispose.
Qed.

End ViewOfMembers.

(** ** Reachable worlds *)

Section Reachability.
Context `{Collaborators} {Σ : Type} `{Services Σ}.

Abbreviation W := (World Σ).
Abbreviation M := (M Σ).

Lemma good_keeps {A} (m : M A) : keeps m -> good m.
Proof. intros Hm w. rewrite Hm. apply evolves_refl. Qed.

Lemma good_bind {A B} (m : M A) (k : A -> M B) :
  good m -> (forall a, good (k a)) -> good (bind m k).
Proof.
  intros Hm Hk w. unfold bind. specialize (Hm w).
  destruct (m w) as [[a|e] w']; cbn [snd] in *; [| assumption].
  eapply evolves_trans; [exact Hm | apply Hk].
Qed.

Lemma good_step {A} (f : W -> A * W) :
  (forall w, evolves (view w) (view (f w).2)) -> good (step f).
Proof. intros Hf w. unfold step. specialize (Hf w). now destruct (f w). Qed.

Lemma good_getOrMake (d : ExistingData) : good (step (getOrMakeSearchEditorInput d)).
Proof. apply good_step. intros w. apply evolves_getOrMake. Qed.

End Reachability.

Ltac good_tac :=
  repeat
    match goal with
    | |- forall _, _ => intro
    | |- good (bind _ _) => apply good_bind
    | |- good (step (getOrMakeSearchEditorInput _)) => apply good_getOrMake
    | |- good (match ?x with _ => _ end) => destruct x
    | |- good _ => solve [apply good_keeps; keeps_tac]
    end.

Section Runs.
Context `{Collaborators} {Σ : Type} `{Services Σ}.

Abbreviation W := (World Σ).

Lemma good_saveAs (this : InputRef) (g : GroupIdentifier)
  (o : option ITextFileSaveOptions) : good (Σ := Σ) (saveAs this g o).
Proof. unfold saveAs. cbv zeta. good_tac. Qed.

Lemma good_save (this : InputRef) (g : GroupIdentifier)
  (o : option ITextFileSaveOptions) : good (Σ := Σ) (save this g o).
Proof.
  unfold save. good_tac. apply good_saveAs.
Qed.

Lemma evolves_exec (a : Action) (w : W) : evolves (view w) (view (exec a w)).
Proof.
  destruct a; cbn [exec].
  - apply evolves_getOrMake.
  - match goal with
    | |- context [new_SearchEditorInput ?u ?g ?c w] =>
        destruct (view_new u g c w (keeps_host_only _)) as [_ ->]
    end.
    destruct (view w) as [i s]. apply evolves_push.
  - apply good_save.
  - apply good_saveAs.
  - rewrite keeps_reloadModel. apply evolves_refl.
  - rewrite keeps_setConfig. apply evolves_refl.
  - rewrite keeps_setDirty. apply evolves_refl.
  - rewrite keeps_setHighlights. apply evolves_refl.
  - rewrite keeps_revert. apply evolves_refl.
  - apply evolves_dispose_world.
  - rewrite view_modify by reflexivity. apply evolves_refl.
  - apply evolves_refl.
Qed.

Lemma evolves_run (l : list Action) (w : W) : evolves (view w) (view (run l w)).
Proof.
  revert w. induction l as [|a l IH]; intros w.
  - apply evolves_refl.
  - cbn [run fold_left]. eapply evolves_trans; [apply evolves_exec | apply IH].
Qed.

Lemma run_app (l1 l2 : list Action) (w : W) : run (l1 ++ l2) w = run l2 (run l1 w).
Proof. apply fold_left_app. Qed.

Lemma reachable_Inv (w : W) : reachable w -> Inv (view w).
Proof.
  intros (h & l & ->). apply (evolves_run l (init h)). apply Inv_empty.
Qed.

Lemma reachable_exec (a : Action) (w : W) : reachable w -> reachable (exec a w).
Proof.
  intros (h & l & ->). exists h, (l ++ [a])%list. now rewrite run_app.
Qed.

End Runs.

(** ** The registry *)

Section Registry.
Context `{Collaborators} {Σ : Type} `{Services Σ}.

Abbreviation W := (World Σ).

Lemma view_lookup (w : W) (r : InputRef) (s : Skeleton) :
  (view w).2 !! r = Some s <-> exists o, store w !! r = Some o /\ skeleton o = s.
Proof.
  unfold view. cbn [snd]. rewrite list_lookup_fmap.
  destruct (store w !! r) as [o|]; cbn; split.
  - intros [= <-]. eauto.
  - intros (o' & [= <-] & <-). reflexivity.
  - discriminate.
  - intros (o' & Ho & _). discriminate.
Qed.

Lemma getOrMake_enters (d : ExistingData) (w : W) :
  inputs (getOrMakeSearchEditorInput d w).2 !! URI_toString (uri_of d w)
  = Some (getOrMakeSearchEditorInput d w).1.
Proof.
  destruct (inputs w !! URI_toString (uri_of d w)) as [r|] eqn:E.
  - destruct (getOrMake_existing d w r E) as [-> Hv].
    apply (f_equal fst) in Hv. cbn in Hv. now rewrite Hv.
  - destruct (getOrMake_new d w E) as [-> Hv].
    apply (f_equal fst) in Hv. cbn in Hv. rewrite Hv. apply lookup_insert_eq.
Qed.

Lemma getOrMake_live (d : ExistingData) (w : W) :
  Inv (view w) ->
  exists o,
    store (getOrMakeSearchEditorInput d w).2 !! (getOrMakeSearchEditorInput d w).1 = Some o
    /\ disposed o = false.
Proof.
  intros Hw. destruct (evolves_getOrMake d w Hw) as [[I1 _] _].
  destruct (I1 _ _ (getOrMake_enters d w)) as (u & ls & Hr & _ & _).
  apply view_lookup in Hr. destruct Hr as (o & Ho & Hs).
  exists o. split; [assumption |]. now injection Hs.
Qed.

(** C1. Once [getOrMakeSearchEditorInput] was called with a uri, and as
    long as the input it returned is not disposed, whatever else happened
    in between, the map holds that input under the string of the uri and a
    call with the same uri returns that very object. *)
Theorem getOrMake_memoizes (h : Σ) (before between : list Action) (u : URI)
  (c1 c2 : option SearchConfiguration) :
  let w1 := run before (init h) in
  let made := getOrMakeSearchEditorInput (with_uri u c1) w1 in
  let w2 := run between made.2 in
  disposed <$> store w2 !! made.1 = Some false ->
  inputs w2 !! URI_toString u = Some made.1
  /\ (getOrMakeSearchEditorInput (with_uri u c2) w2).1 = made.1.
Proof.
  intros w1 made w2 Hlive.
  assert (Inv (view w1)) as Hw1 by (apply reachable_Inv; now exists h, before).
  destruct (evolves_getOrMake (with_uri u c1) w1 Hw1) as [Hmade _].
  fold made in Hmade.
  pose proof (getOrMake_enters (with_uri u c1) w1) as Hentry.
  fold made in Hentry. change (uri_of (with_uri u c1) w1) with u in Hentry.
  destruct (evolves_run between made.2 Hmade) as [[_ I2] Hlater]. fold w2 in I2, Hlater.
  destruct Hmade as [I1 _].
  destruct (I1 _ _ Hentry) as (u' & ls & Hr & _ & Hl).
  destruct (Hlater _ _ Hr) as (s' & Hr' & Hsame).
  assert (s'.1.2 = false) as Hd.
  { apply view_lookup in Hr'. destruct Hr' as (o & Ho & <-).
    rewrite Ho in Hlive. now injection Hlive. }
  specialize (Hsame Hd). subst s'.
  pose proof (I2 _ _ _ _ _ Hr' Hl) as Hk. cbn [view fst] in Hk.
  split; [exact Hk |].
  now apply (getOrMake_existing (with_uri u c2) w2).
Qed.

(** C7. In every reachable world, every entry of [inputs] names an input
    that is not disposed and sits under the string form of its own uri;
    disposing an input removes its entry, so that no key leads to it any
    more; and the input that [getOrMakeSearchEditorInput] returns is never
    a disposed one. *)
Theorem registry_only_open_inputs (w : W) :
  reachable w ->
  (forall key r,
      inputs w !! key = Some r ->
      exists o, store w !! r = Some o
                /\ key = URI_toString (resource o) /\ disposed o = false)
  /\ (forall key r,
        inputs w !! key = Some r ->
        inputs (dispose r w) !! key = None
        /\ forall key', inputs (dispose r w) !! key' <> Some r)
  /\ (forall d,
        exists o,
          store (getOrMakeSearchEditorInput d w).2
            !! (getOrMakeSearchEditorInput d w).1 = Some o
          /\ disposed o = false).
Proof.
  intros Hw. pose proof (reachable_Inv w Hw) as [I1 I2].
  split; [| split].
  - intros key r Hk. destruct (I1 key r Hk) as (u & ls & Hr & -> & _).
    apply view_lookup in Hr. destruct Hr as (o & Ho & Hs).
    exists o. injection Hs as <- Hd _. auto.
  - intros key r Hk. destruct (I1 key r Hk) as (u & ls & Hr & _ & Hl).
    pose proof (view_dispose r w) as Hv. rewrite Hr in Hv.
    split.
    + apply (f_equal fst) in Hv. cbn [view fst] in Hv. rewrite Hv.
      rewrite delete_keys_lookup. now rewrite decide_True.
    + intros key' Hk'.
      pose proof (reachable_Inv _ (reachable_exec (do_dispose r) w Hw)) as [I1' _].
      cbn [exec] in I1'. destruct (I1' key' r Hk') as (u' & ls' & Hr' & _).
      rewrite Hv in Hr'. cbn [snd] in Hr'.
      rewrite list_lookup_insert_eq in Hr' by (eapply lookup_lt_Some; eauto).
      discriminate.
  - intros d. apply getOrMake_live. now split.
Qed.

End Registry.

(** ** Saving *)

Section Saving.
Context `{Collaborators} {Σ : Type} `{Services Σ}.

Abbreviation W := (World Σ).

Lemma await_model_resolved (this : InputRef) (w : W) (o : SearchEditorInput)
  (m : SearchEditorModel) :
  store w !! this = Some o -> model o = Resolved m ->
  await_model this w = (Resolved m, w).
Proof.
  intros Ho Hm. unfold await_model, bind, read. rewrite Ho, Hm. reflexivity.
Qed.

(** [setDirty] on an input whose model is there. *)
Lemma setDirty_resolved (this : InputRef) (d : bool) (w : W) (o : SearchEditorInput)
  (m : SearchEditorModel) :
  store w !! this = Some o -> model o = Resolved m ->
  setDirty this d w
  = (Resolved tt,
     record (fire_onDidChangeDirty this)
       (record (fire_onDidChangeDirty this) (modify this (set_dirty d) w))).
Proof.
  intros Ho Hm. unfold setDirty, emit. unfold bind, effect. cbv beta iota.
  rewrite (await_model_resolved this _ (set_dirty d o) m); [reflexivity | | exact Hm].
  cbn. rewrite list_lookup_alter_eq, Ho. reflexivity.
Qed.

(** C5. On an input whose model is not disposed, [save] of an untitled
    input is [saveAs] with the same arguments; of any other input it writes
    the snapshot of the model to the resource of the input through the text
    file service and, once that write has succeeded, clears the dirty flag
    and returns the input itself. *)
Theorem save_behaviour (this : InputRef) (group : GroupIdentifier)
  (options : option ITextFileSaveOptions) (w : W) (o : SearchEditorInput)
  (m : SearchEditorModel) :
  store w !! this = Some o ->
  model o = Resolved m ->
  model_isDisposed m (host w) = false ->
  (isUntitled o = true -> save this group options w = saveAs this group options w)
  /\ (isUntitled o = false ->
      forall h',
        textFileService_write (resource o) (model_createSnapshot m (host w)) options
          (host w) = (Resolved tt, h') ->
        (save this group options w).1 = Resolved (Some this)
        /\ log (save this group options w).2
           = (log w ++ [call_write (resource o) (model_createSnapshot m (host w)) options;
                        fire_onDidChangeDirty this; fire_onDidChangeDirty this])%list
        /\ host (save this group options w).2 = h'
        /\ store (save this group options w).2 = alter (set_dirty false) this (store w)
        /\ isDirty <$> store (save this group options w).2 !! this = Some false
        /\ inputs (save this group options w).2 = inputs w).
Proof.
  intros Ho Hm Hd.
  assert (forall k : SearchEditorModel -> M Σ (option InputRef),
            bind (await_model this) k w = k m w) as Hawait.
  { intros k. unfold bind at 1. now rewrite (await_model_resolved this w o m). }
  split; intros Hu.
  - unfold save. rewrite Hawait. unfold bind at 1, ask. rewrite Hd.
    unfold bind at 1, read. rewrite Ho, Hu. reflexivity.
  - intros h' Hwrite.
    assert (save this group options w
            = (Resolved (Some this),
               record (fire_onDidChangeDirty this)
                 (record (fire_onDidChangeDirty this)
                    (modify this (set_dirty false)
                       (set_host h'
                          (record (call_write (resource o)
                                     (model_createSnapshot m (host w)) options) w))))))
      as ->.
    { unfold save. rewrite Hawait. unfold bind at 1, ask. rewrite Hd.
      unfold bind at 1, read at 1. rewrite Ho, Hu. rewrite Hawait.
      unfold bind at 1, ask. unfold bind at 1, request.
      change (host (record ?c w)) with (host w). rewrite Hwrite.
      unfold bind at 1, drop.
      erewrite setDirty_resolved by eassumption. reflexivity. }
    cbn. rewrite <- !app_assoc. repeat split.
    rewrite list_lookup_alter_eq, Ho. reflexivity.
Qed.

End Saving.

(** ** The working copy *)

Lemma registered_app (l l' : list Call) :
  registered (l ++ l') = (registered l ++ registered l')%list.
Proof.
  induction l as [|c l IH]; [reflexivity |].
  cbn. destruct c; cbn; now rewrite IH.
Qed.

Section WorkingCopy.
Context `{Collaborators} {Σ : Type} `{Services Σ}.

Abbreviation W := (World Σ).
Abbreviation M := (M Σ).

(** C3. The constructor registers exactly one working copy: the working
    copies registered once the input is made are those that were registered
    before or by [getModel], and one more, wherever the calls of [getModel]
    fall. The working copy it registers has the resource of the new input;
    its name and dirty state are, at any time, those of the input; its
    backup, save and revert are those of the input (save and revert for
    group 0, save answering whether an editor came back); and, [Untitled]
    being a non-zero flag, it has the Untitled capability exactly when the
    resource has the search-editor scheme. *)
Theorem constructor_registers_working_copy (u : URI) (getModel : M SearchEditorModel)
  (startingConfig : option SearchConfiguration) (w : W) :
  WorkingCopyCapabilities_Untitled <> 0%Z ->
  let made := new_SearchEditorInput u getModel startingConfig w in
  let input := made.1 in
  exists (a : IWorkingCopy) (o : SearchEditorInput),
    registered (log made.2) ≡ₚ a :: registered (log (getModel w).2)
    /\ store made.2 !! input = Some o
    /\ wc_input a = input
    /\ wc_resource a = resource o
    /\ (forall w' : W, WorkingCopyAdapter_name a w'
                   = (fun i => getName i None) <$> store w' !! input)
    /\ (forall w' : W, WorkingCopyAdapter_isDirty a w' = isDirty <$> store w' !! input)
    /\ WorkingCopyAdapter_backup a = backup input
    /\ (forall options,
          WorkingCopyAdapter_save a options
          = (let* editor := save input 0%Z options in
             ret (bool_decide (is_Some editor)))%wb)
    /\ (forall options,
          WorkingCopyAdapter_revert (Σ := Σ) a options = revert input 0%Z options)
    /\ (Z.land (wc_capabilities a) WorkingCopyCapabilities_Untitled <> 0%Z
        <-> scheme (resource o) = SearchEditorScheme).
Proof.
  intros Hflag made input. subst input made. unfold new_SearchEditorInput.
  destruct (getModel w) as [m w1]. cbn [alloc fst snd].
  eexists. eexists. split.
  { cbn [modify set_store tell set_host record log]. rewrite registered_app.
    cbn [registered]. symmetry. apply Permutation_cons_append. }
  split.
  { cbn. rewrite list_lookup_alter_eq.
    rewrite lookup_app_r by reflexivity. rewrite Nat.sub_diag. reflexivity. }
  repeat (split; [reflexivity |]).
  cbn. unfold isUntitled. cbn.
  destruct (String.eqb_spec (scheme u) SearchEditorScheme) as [E|E].
  - rewrite Z.land_diag. tauto.
  - rewrite Z.land_0_l. tauto.
Qed.

End WorkingCopy.

(** ** The model of a new input *)

Section InitialContents.
Context `{Collaborators} {Σ : Type} `{Services Σ}.

Abbreviation W := (World Σ).

Lemma getModel_after_backup (d : ExistingData) (uri : URI) (config : SearchConfiguration)
  (w : W) (backup : option IResolvedBackup) (h1 : Σ) :
  modelService_getModel uri (host w) = None ->
  backupService_resolve uri (host w) = (Resolved backup, h1) ->
  getModel d uri config w
  = bind
      match backup with
      | Some backup => ret (of_factory (value backup))
      | None =>
          if negb (String.eqb (scheme uri) SearchEditorScheme) then
            (let* file := request (call_read uri) (textFileService_read uri) in
             ret (of_string file))%wb
          else
            match if_truthy (existingData_text d) with
            | Some text => ret (of_string text)
            | None =>
                match existingData_config d with
                | Some config => ret (of_string (serializeSearchConfiguration config))
                | None => throw "no initial contents for search editor"
                end
            end
      end
      (fun contents => createInstance_SearchEditorModel (rawTextModel contents) uri)
      (after_backup uri h1 w).
Proof.
  intros Hnone Hbackup. unfold getModel.
  unfold bind at 1, ask. rewrite Hnone.
  unfold bind at 1, request. change (host (record ?c w)) with (host w).
  rewrite Hbackup. unfold bind at 1, effect. reflexivity.
Qed.

(** C2, as amended. When no text model exists for the uri, the backup
    service is asked first, and the backup is discarded whatever the
    answer. A backup, if there is one, gives the contents; failing that,
    the file behind a uri that is not of the search-editor scheme; failing
    that, the text that was passed, provided it is not empty; failing that,
    the serialized config that was passed; and failing all of these the
    error 'no initial contents for search editor' is thrown. An empty text
    counts as no text. *)
Theorem getModel_initial_contents (d : ExistingData) (uri : URI)
  (config : SearchConfiguration) (w : W) (backup : option IResolvedBackup) (h1 : Σ) :
  modelService_getModel uri (host w) = None ->
  backupService_resolve uri (host w) = (Resolved backup, h1) ->
  let w1 := after_backup uri h1 w in
  (forall b,
      backup = Some b ->
      getModel d uri config w
      = createInstance_SearchEditorModel (rawTextModel (of_factory (value b))) uri w1)
  /\ (backup = None ->
      scheme uri <> SearchEditorScheme ->
      forall text h2,
        textFileService_read uri (host w1) = (Resolved text, h2) ->
        getModel d uri config w
        = createInstance_SearchEditorModel (rawTextModel (of_string text)) uri
            (set_host h2 (record (call_read uri) w1)))
  /\ (backup = None ->
      scheme uri = SearchEditorScheme ->
      forall text,
        existingData_text d = Some text -> text <> "" ->
        getModel d uri config w
        = createInstance_SearchEditorModel (rawTextModel (of_string text)) uri w1)
  /\ (backup = None ->
      scheme uri = SearchEditorScheme ->
      existingData_text d = None \/ existingData_text d = Some "" ->
      forall c,
        existingData_config d = Some c ->
        getModel d uri config w
        = createInstance_SearchEditorModel
            (rawTextModel (of_string (serializeSearchConfiguration c))) uri w1)
  /\ (backup = None ->
      scheme uri = SearchEditorScheme ->
      existingData_text d = None \/ existingData_text d = Some "" ->
      existingData_config d = None ->
      getModel d uri config w
      = (Rejected "no initial contents for search editor", w1)).
Proof.
  intros Hnone Hbackup w1.
  rewrite (getModel_after_backup d uri config w backup h1 Hnone Hbackup). fold w1.
  repeat split.
  - intros b ->. reflexivity.
  - intros -> Hs text h2 Hread.
    apply String.eqb_neq in Hs. rewrite Hs. cbn [negb].
    unfold bind at 1. unfold bind at 1, request.
    change (host (record ?c w1)) with (host w1). rewrite Hread. reflexivity.
  - intros -> Hs text Ht Hne.
    apply String.eqb_eq in Hs. rewrite Hs. cbn [negb].
    assert (if_truthy (existingData_text d) = Some text) as ->
      by (apply if_truthy_Some; auto).
    reflexivity.
  - intros -> Hs Ht c Hc.
    apply String.eqb_eq in Hs. rewrite Hs. cbn [negb].
    apply if_truthy_None in Ht. rewrite Ht, Hc. reflexivity.
  - intros -> Hs Ht Hc.
    apply String.eqb_eq in Hs. rewrite Hs. cbn [negb].
    apply if_truthy_None in Ht. rewrite Ht, Hc. reflexivity.
Qed.

(** The object that [getOrMakeSearchEditorInput] makes under a free key. *)
Lemma getOrMake_new_object (d : ExistingData) (w : W) :
  inputs w !! URI_toString (uri_of d w) = None ->
  let w0 := match existingData_uri d with
            | Some _ => w
            | None => set_host (Math_random (host w)).2 w
            end in
  let uri := uri_of d w in
  let made := getOrMakeSearchEditorInput d w in
  store made.2 !! made.1
  = Some {| resource := uri; dirty := false;
            model := (getModel d uri (starting_config d) w0).1;
            input_query := Some (starting_config d); viewState := focused_input;
            _highlights := None; disposed := false;
            onDispose := [inputs_delete (URI_toString uri)] |}
  /\ exists a,
      log made.2
      = (log (getModel d uri (starting_config d) w0).2 ++ [call_registerWorkingCopy a])%list.
Proof.
  unfold uri_of, getOrMakeSearchEditorInput.
  assert (forall (w0 : W) uri,
    inputs w0 !! URI_toString uri = None ->
    let made := (let '(input, w1) :=
                new_SearchEditorInput uri
                  (getModel d uri (starting_config d)) (Some (starting_config d)) w0 in
              let w2 := set_inputs (<[URI_toString uri := input]> (inputs w1)) w1 in
              let w3 := modify input
                   (fun o => set_onDispose
                               (onDispose o ++ [inputs_delete (URI_toString uri)]) o) w2 in
              (input, w3)) in
    store made.2 !! made.1
    = Some {| resource := uri; dirty := false;
              model := (getModel d uri (starting_config d) w0).1;
              input_query := Some (starting_config d); viewState := focused_input;
              _highlights := None; disposed := false;
              onDispose := [inputs_delete (URI_toString uri)] |}
    /\ exists a,
        log made.2
        = (log (getModel d uri (starting_config d) w0).2
             ++ [call_registerWorkingCopy a])%list) as Hnew.
  { intros w0 uri Hfree. unfold new_SearchEditorInput.
    destruct (getModel d uri (starting_config d) w0) as [m w1].
    cbn [alloc fst snd]. split; [| eexists; reflexivity].
    cbn. rewrite !list_lookup_alter_eq.
    rewrite lookup_app_r by reflexivity. rewrite Nat.sub_diag. reflexivity. }
  destruct (existingData_uri d) as [uri|].
  - intros Hfree. rewrite Hfree. now apply Hnew.
  - destruct (Math_random (host w)) as [x h]. cbn [fst snd].
    change (inputs (set_host h w)) with (inputs w). intros Hfree. rewrite Hfree.
    now apply (Hnew (set_host h w)).
Qed.

(** C4, as amended. Called with a text that is not empty, and making a new
    input, [getOrMakeSearchEditorInput] starts the input from
    [extractSearchQuery] of the text; with the empty text it starts from
    the empty configuration. Called with a config only, making a new input,
    with no text model and no backup for the uri, it creates the model from
    [serializeSearchConfiguration] of the config. *)
Theorem getOrMake_uses_serialization (w : W) :
  (forall text,
      let d := with_text text in
      let made := getOrMakeSearchEditorInput d w in
      inputs w !! URI_toString (uri_of d w) = None ->
      (text <> "" ->
       input_query <$> store made.2 !! made.1 = Some (Some (extractSearchQuery text)))
      /\ (text = "" ->
          input_query <$> store made.2 !! made.1 = Some (Some empty_config)))
  /\ (forall config,
        let d := with_config config in
        let uri := uri_of d w in
        let w0 := set_host (Math_random (host w)).2 w in
        let made := getOrMakeSearchEditorInput d w in
        inputs w !! URI_toString uri = None ->
        modelService_getModel uri (host w0) = None ->
        forall h1,
          backupService_resolve uri (host w0) = (Resolved None, h1) ->
          let created :=
            createInstance_SearchEditorModel
              (rawTextModel (of_string (serializeSearchConfiguration config))) uri
              (after_backup uri h1 w0) in
          model <$> store made.2 !! made.1 = Some created.1
          /\ input_query <$> store made.2 !! made.1 = Some (Some config)
          /\ call_new_SearchEditorModel
               (rawTextModel (of_string (serializeSearchConfiguration config))) uri
             ∈ log made.2).
Proof.
  split.
  - intros text d made Hfree.
    destruct (getOrMake_new_object d w Hfree) as [Hobj _]. fold made in Hobj.
    rewrite Hobj. cbn [fmap option_fmap option_map input_query].
    unfold starting_config. cbn [d existingData_config existingData_text if_truthy].
    split.
    + intros Hne. apply truthy_true in Hne. now rewrite Hne.
    + intros ->. reflexivity.
  - intros config d uri w0 made Hfree Hnone h1 Hbackup created.
    destruct (getOrMake_new_object d w Hfree) as [Hobj [a Hlog]].
    fold made in Hobj, Hlog. cbn [d existingData_uri] in Hobj, Hlog.
    fold w0 uri in Hobj, Hlog.
    assert (getModel d uri (starting_config d) w0 = created) as Hcfg.
    { rewrite (getModel_after_backup d uri _ w0 None h1 Hnone Hbackup).
      change (scheme uri) with SearchEditorScheme. rewrite String.eqb_refl.
      reflexivity. }
    rewrite Hcfg in Hobj, Hlog.
    rewrite Hobj. cbn [fmap option_fmap option_map input_query model].
    split; [reflexivity |]. split; [reflexivity |].
    rewrite Hlog. apply elem_of_app. left.
    subst created. unfold createInstance_SearchEditorModel, step.
    destruct (new_SearchEditorModel _ _ _) as [m h2]. cbn.
    apply elem_of_app. right. apply list_elem_of_here.
Qed.

End InitialContents.

(** ** Save as, without a path *)

Section Cancel.
Context `{Collaborators} {Σ : Type} `{Services Σ}.

Abbreviation W := (World Σ).

Lemma reloadModel_resolved (this : InputRef) (w : W) (o : SearchEditorInput)
  (m : SearchEditorModel) :
  store w !! this = Some o -> model o = Resolved m ->
  reloadModel this w
  = (Resolved m,
     record (fire_onDidChangeLabel this)
       (modify this (set_highlights (Some (model_getAllDecorations m (host w))))
          (modify this (set_query (Some (model_searchConfig m (host w)))) w))).
Proof.
  intros Ho Hm. unfold reloadModel. unfold bind at 1.
  rewrite (await_model_resolved this w o m Ho Hm). reflexivity.
Qed.

Lemma reloadModel_rejected (this : InputRef) (w : W) :
  (forall o m, store w !! this = Some o -> model o <> Resolved m) ->
  exists e, reloadModel this w = (Rejected e, w).
Proof.
  intros Hno. unfold reloadModel, await_model, read. unfold bind at 1. unfold bind at 1.
  destruct (store w !! this) as [o|] eqn:Ho; [| eauto].
  destruct (model o) as [m|e] eqn:Hm; [| eauto].
  exfalso. exact (Hno o m eq_refl Hm).
Qed.

(** [reloadModel] changes the query and the highlights of [this], fires
    one label event, and nothing else. *)
Lemma reloadModel_effect (this : InputRef) (w : W) :
  host (reloadModel this w).2 = host w
  /\ inputs (reloadModel this w).2 = inputs w
  /\ (forall x, dirty <$> store (reloadModel this w).2 !! x = dirty <$> store w !! x)
  /\ match (reloadModel this w).1 with
     | Resolved _ =>
         log (reloadModel this w).2 = (log w ++ [fire_onDidChangeLabel this])%list
     | Rejected _ => (reloadModel this w).2 = w
     end.
Proof.
  destruct (store w !! this) as [o|] eqn:Ho.
  - destruct (model o) as [m|e] eqn:Hm.
    + rewrite (reloadModel_resolved this w o m Ho Hm). cbn. repeat split.
      intros x. destruct (decide (this = x)) as [<-|Hne].
      * rewrite !list_lookup_alter_eq, Ho. reflexivity.
      * rewrite !list_lookup_alter_ne by assumption. reflexivity.
    + destruct (reloadModel_rejected this w) as [e' ->]; [| cbn; auto].
      intros o' m' Ho' Hm'. congruence.
  - destruct (reloadModel_rejected this w) as [e' ->]; [| cbn; auto].
    intros o' m' Ho' Hm'. congruence.
Qed.

(** [suggestFileName] does to the world what its [reloadModel] does. *)
Lemma suggestFileName_world (this : InputRef) (w : W) :
  (suggestFileName this w).2 = (reloadModel this w).2
  /\ (forall name, (suggestFileName this w).1 = Resolved name ->
                   exists m, (reloadModel this w).1 = Resolved m).
Proof.
  destruct (reloadModel this w) as [[m|e] w1] eqn:E.
  - assert (exists r, suggestFileName this w = (r, w1)) as [r ->].
    { unfold suggestFileName. unfold bind at 1. rewrite E.
      unfold bind, ask, ret, throw.
      destruct (query _); [| eauto].
      destruct (fileDialogService_defaultFilePath _ _); eauto. }
    split; eauto.
  - assert (suggestFileName this w = (Rejected e, w1)) as ->.
    { unfold suggestFileName. unfold bind at 1. rewrite E. reflexivity. }
    split; [reflexivity |]. intros name Hname. discriminate Hname.
Qed.

(** C6, as amended. When the file dialog yields no path, [saveAs] returns
    undefined; the dirty flag of every input keeps its value, the map of
    inputs is as it was, and nothing is written through the text file
    service nor logged as telemetry. What did happen is the computation of
    the suggested name, which reloads the query and the highlights of the
    input from its model and fires one label event, and the dialog itself.
    And whenever [saveAs] ends without a path from the dialog, by a
    cancellation or by an error before, no write and no telemetry is among
    its calls. *)
Theorem saveAs_without_path (this : InputRef) (group : GroupIdentifier)
  (options : option ITextFileSaveOptions) (w : W) :
  let fileSystems := options ≫= availableFileSystems in
  let result := saveAs this group options w in
  (forall name w1 h2,
      suggestFileName this w = (Resolved name, w1) ->
      fileDialogService_pickFileToSave name fileSystems (host w1) = (Resolved None, h2) ->
      result = (Resolved None, set_host h2 (record (call_pickFileToSave name fileSystems) w1))
      /\ store result.2 = store (reloadModel this w).2
      /\ (forall x, dirty <$> store result.2 !! x = dirty <$> store w !! x)
      /\ inputs result.2 = inputs w
      /\ log result.2
         = (log w ++ [fire_onDidChangeLabel this;
                      call_pickFileToSave name fileSystems])%list)
  /\ ((forall name w1 path h2,
          suggestFileName this w = (Resolved name, w1) ->
          fileDialogService_pickFileToSave name fileSystems (host w1)
          <> (Resolved (Some path), h2)) ->
      exists calls,
        log result.2 = (log w ++ calls)%list
        /\ forallb (fun c => negb (writes_or_logs c)) calls = true).
Proof.
  intros fileSystems result.
  destruct (suggestFileName_world this w) as [Hworld Hresolved].
  pose proof (reloadModel_effect this w) as (Hhost & Hinputs & Hdirty & Hlog).
  split.
  - intros name w1 h2 Hname Hpick.
    assert (result
            = (Resolved None,
               set_host h2 (record (call_pickFileToSave name fileSystems) w1))) as ->.
    { subst result. unfold saveAs. unfold bind at 1. rewrite Hname.
      fold fileSystems. unfold bind at 1, request.
      change (host (record ?c w1)) with (host w1). rewrite Hpick. reflexivity. }
    rewrite Hname in Hworld, Hresolved. cbn [fst snd] in Hworld, Hresolved.
    destruct (Hresolved name eq_refl) as [m Hm]. rewrite Hm in Hlog.
    subst w1. cbn [snd set_host record store inputs log].
    repeat split; try assumption.
    rewrite Hlog, <- app_assoc. reflexivity.
  - intros Hnopath. subst result. unfold saveAs. unfold bind at 1.
    destruct (suggestFileName this w) as [[name|e] w1] eqn:Hname.
    + cbn [fst snd] in Hworld, Hresolved.
      destruct (Hresolved name eq_refl) as [m Hm]. rewrite Hm in Hlog.
      fold fileSystems. unfold bind at 1, request.
      change (host (record ?c w1)) with (host w1).
      destruct (fileDialogService_pickFileToSave name fileSystems (host w1))
        as [[[path|]|e] h2] eqn:Hpick.
      * exfalso. exact (Hnopath name w1 path h2 eq_refl Hpick).
      * exists [fire_onDidChangeLabel this; call_pickFileToSave name fileSystems].
        subst w1. cbv beta iota. unfold ret.
        cbn [snd set_host record log]. rewrite Hlog, <- app_assoc.
        split; reflexivity.
      * exists [fire_onDidChangeLabel this; call_pickFileToSave name fileSystems].
        subst w1. cbv beta iota. unfold ret.
        cbn [snd set_host record log]. rewrite Hlog, <- app_assoc.
        split; reflexivity.
    + cbn [fst snd] in Hworld. subst w1. cbn [snd].
      destruct (reloadModel this w).1.
      * exists [fire_onDidChangeLabel this]. split; [assumption | reflexivity].
      * exists []. rewrite Hlog, app_nil_r. split; reflexivity.
Qed.

End Cancel.

(** * Further properties of the members *)

(** ** When the model is missing or disposed *)

Section BrokenModel.
Context `{Collaborators} {Σ : Type} `{Services Σ}.

Abbreviation W := (World Σ).

Lemma await_model_rejected (this : InputRef) (w : W) (o : SearchEditorInput) (e : Error) :
  store w !! this = Some o -> model o = Rejected e ->
  await_model this w = (Rejected e, w).
Proof.
  intros Ho Hm. unfold await_model, bind, read. rewrite Ho, Hm. reflexivity.
Qed.

Lemma setDirty_rejected (this : InputRef) (d : bool) (w : W) (o : SearchEditorInput)
  (e : Error) :
  store w !! this = Some o -> model o = Rejected e ->
  setDirty this d w
  = (Rejected e, record (fire_onDidChangeDirty this) (modify this (set_dirty d) w)).
Proof.
  intros Ho Hm. unfold setDirty, emit. unfold bind, effect. cbv beta iota.
  rewrite (await_model_rejected this _ (set_dirty d o) e); [reflexivity | | exact Hm].
  cbn. rewrite list_lookup_alter_eq, Ho. reflexivity.
Qed.

Lemma setDirty_dangling (this : InputRef) (d : bool) (w : W) :
  store w !! this = None ->
  setDirty this d w
  = (Rejected "ReferenceError",
     record (fire_onDidChangeDirty this) (modify this (set_dirty d) w)).
Proof.
  intros Ho. unfold setDirty, emit. unfold bind, effect. cbv beta iota.
  unfold await_model, bind, read. cbn. rewrite list_lookup_alter_eq, Ho. reflexivity.
Qed.

(** X1. [save] on an input whose model is disposed returns undefined and
    does nothing at all: no write, no dialog, the dirty flag stays. *)
Theorem save_of_disposed_model (this : InputRef) (group : GroupIdentifier)
  (options : option ITextFileSaveOptions) (w : W) (o : SearchEditorInput)
  (m : SearchEditorModel) :
  store w !! this = Some o ->
  model o = Resolved m ->
  model_isDisposed m (host w) = true ->
  save this group options w = (Resolved None, w).
Proof.
  intros Ho Hm Hd. unfold save. unfold bind at 1.
  rewrite (await_model_resolved this w o m Ho Hm).
  unfold bind at 1, ask. rewrite Hd. reflexivity.
Qed.

(** X2. When the model of an input was rejected, every member that awaits
    it rejects with the error of the model and leaves the world as it was:
    [save], [saveAs], [backup], [setConfig], [reloadModel], [setHighlights]
    and [suggestFileName]. *)
Theorem rejected_model_rejects (this : InputRef) (w : W) (o : SearchEditorInput)
  (e : Error) :
  store w !! this = Some o ->
  model o = Rejected e ->
  (forall group options, save this group options w = (Rejected e, w))
  /\ (forall group options, saveAs this group options w = (Rejected e, w))
  /\ backup this w = (Rejected e, w)
  /\ (forall config, setConfig this config w = (Rejected e, w))
  /\ reloadModel this w = (Rejected e, w)
  /\ (forall value, setHighlights this value w = (Rejected e, w))
  /\ suggestFileName this w = (Rejected e, w).
Proof.
  intros Ho Hm.
  pose proof (await_model_rejected this w o e Ho Hm) as Hawait.
  assert (reloadModel this w = (Rejected e, w)) as Hreload
    by (unfold reloadModel; unfold bind at 1; now rewrite Hawait).
  assert (suggestFileName this w = (Rejected e, w)) as Hsuggest
    by (unfold suggestFileName; unfold bind at 1; now rewrite Hreload).
  repeat split; try assumption.
  - intros group options. unfold save. unfold bind at 1. now rewrite Hawait.
  - intros group options. unfold saveAs. unfold bind at 1. now rewrite Hsuggest.
  - unfold backup. unfold bind at 1. now rewrite Hawait.
  - intros config. unfold setConfig. unfold bind at 1. now rewrite Hawait.
  - intros value. unfold setHighlights. unfold bind at 1. now rewrite Hawait.
Qed.

(** X3. [setDirty] sets the flag of the input to the value it is given,
    whatever the state of the model, and touches no other input. With the
    model there it resolves after firing the dirty event twice; with the
    model rejected it fires once and rejects with the error of the model. *)
Theorem setDirty_sets_the_flag (this : InputRef) (d : bool) (w : W)
  (o : SearchEditorInput) :
  store w !! this = Some o ->
  isDirty <$> store (setDirty this d w).2 !! this = Some d
  /\ (forall r, r <> this -> store (setDirty this d w).2 !! r = store w !! r)
  /\ match model o with
     | Resolved _ =>
         (setDirty this d w).1 = Resolved tt
         /\ log (setDirty this d w).2
            = (log w ++ [fire_onDidChangeDirty this; fire_onDidChangeDirty this])%list
     | Rejected e =>
         (setDirty this d w).1 = Rejected e
         /\ log (setDirty this d w).2 = (log w ++ [fire_onDidChangeDirty this])%list
     end.
Proof.
  intros Ho. destruct (model o) as [m|e] eqn:Hm.
  - rewrite (setDirty_resolved this d w o m Ho Hm). cbn.
    rewrite list_lookup_alter_eq, Ho, <- app_assoc. repeat split.
    intros r Hr. now apply list_lookup_alter_ne.
  - rewrite (setDirty_rejected this d w o e Ho Hm). cbn.
    rewrite list_lookup_alter_eq, Ho. repeat split.
    intros r Hr. now apply list_lookup_alter_ne.
Qed.

(** X4. [revert] always answers true, also for an input without a model
    and whatever becomes of the base class's [revert]. It calls the base
    class with its own group and options, then clears the dirty flag and
    fires the dirty event; it calls nothing else, and the registry and the
    other fields of the input stay as they are. *)
Theorem revert_only_clears_dirty (this : InputRef) (group : GroupIdentifier)
  (options : option IRevertOptions) (w : W) :
  (revert this group options w).1 = Resolved true
  /\ host (revert this group options w).2 = (super_revert this group options (host w)).2
  /\ inputs (revert this group options w).2 = inputs w
  /\ store (revert this group options w).2 = alter (set_dirty false) this (store w)
  /\ exists n,
       (1 <= n <= 2)%nat
       /\ log (revert this group options w).2
          = (log w ++ call_super_revert this group options
                   :: replicate n (fire_onDidChangeDirty this))%list.
Proof.
  pose (w1 := (EditorInput_revert this group options w).2).
  assert (revert this group options w = (Resolved true, (setDirty this false w1).2)) as ->
    by reflexivity.
  assert (host w1 = (super_revert this group options (host w)).2
          /\ inputs w1 = inputs w /\ store w1 = store w
          /\ log w1 = (log w ++ [call_super_revert this group options])%list)
    as (Hh & Hi & Hs & Hl).
  { subst w1. unfold EditorInput_revert, request. cbn [host record].
    destruct (super_revert this group options (host w)) as [r h]. now cbn. }
  destruct (store w1 !! this) as [o|] eqn:Ho.
  - destruct (model o) as [m|e] eqn:Hm.
    + rewrite (setDirty_resolved this false w1 o m Ho Hm). cbn.
      rewrite Hh, Hi, Hs, Hl, <- !app_assoc. repeat split.
      exists 2%nat. split; [lia | reflexivity].
    + rewrite (setDirty_rejected this false w1 o e Ho Hm). cbn.
      rewrite Hh, Hi, Hs, Hl, <- !app_assoc. repeat split.
      exists 1%nat. split; [lia | reflexivity].
  - rewrite (setDirty_dangling this false w1 Ho). cbn.
    rewrite Hh, Hi, Hs, Hl, <- !app_assoc. repeat split.
    exists 1%nat. split; [lia | reflexivity].
Qed.

End BrokenModel.

(** ** Highlights, configuration, names *)

Lemma copy_decorations (l : list IModelDeltaDecoration) :
  map (fun d => {| range := range d; options := options d |}) l = l.
Proof.
  induction l as [|[r o] l IH]; [reflexivity |]. cbn. now rewrite IH.
Qed.

Lemma replace_runs_safe (b : bool) (s : string) :
  all_chars Js.is_file_name_char (Js.replace_runs b s) = true.
Proof.
  revert b. induction s as [|a s IH]; intros b; [reflexivity |].
  cbn [Js.replace_runs]. destruct (Js.is_file_name_char a) eqn:Ea.
  - cbn [all_chars]. now rewrite Ea, IH.
  - destruct b; [apply IH |]. cbn [all_chars]. now rewrite IH.
Qed.

Lemma replace_runs_nonempty (a : ascii) (s : string) :
  Js.replace_runs false (String a s) <> "".
Proof.
  cbn [Js.replace_runs]. destruct (Js.is_file_name_char a); discriminate.
Qed.

Lemma replace_runs_id (b : bool) (s : string) :
  all_chars Js.is_file_name_char s = true -> Js.replace_runs b s = s.
Proof.
  revert b. induction s as [|a s IH]; intros b Hs; [reflexivity |].
  cbn [all_chars] in Hs. apply andb_true_iff in Hs. destruct Hs as [Ha Hs].
  cbn [Js.replace_runs]. rewrite Ha. now rewrite IH.
Qed.

Section Names_and_highlights.
Context `{Collaborators} {Σ : Type} `{Services Σ}.

Abbreviation W := (World Σ).

(** X5. After [setHighlights] on an input whose model is there, the getter
    [highlights] returns the decorations that were set, and the model was
    given exactly these to add. *)
Theorem setHighlights_then_highlights (this : InputRef)
  (value : list IModelDeltaDecoration) (w : W) (o : SearchEditorInput)
  (m : SearchEditorModel) :
  store w !! this = Some o ->
  model o = Resolved m ->
  (setHighlights this value w).1 = Resolved tt
  /\ highlights <$> store (setHighlights this value w).2 !! this = Some value
  /\ log (setHighlights this value w).2 = (log w ++ [call_deltaDecorations m value])%list
  /\ host (setHighlights this value w).2 = model_deltaDecorations m value (host w).
Proof.
  intros Ho Hm.
  assert (setHighlights this value w
          = (Resolved tt,
             modify this (set_highlights (Some value))
               (tell (call_deltaDecorations m value)
                     (model_deltaDecorations m value) w))) as ->.
  { unfold setHighlights. unfold bind at 1.
    now rewrite (await_model_resolved this w o m Ho Hm). }
  cbn. rewrite list_lookup_alter_eq, Ho. cbn.
  unfold highlights. cbn. rewrite copy_decorations. auto.
Qed.

(** X6. [setConfig] hands the configuration to the model and leaves the
    input alone, so [getConfigSync] keeps answering what it did; it is
    [reloadModel] that brings the configuration and the decorations of the
    model into the input. *)
Theorem setConfig_then_reloadModel (this : InputRef) (config : SearchConfiguration)
  (w : W) (o : SearchEditorInput) (m : SearchEditorModel) :
  store w !! this = Some o ->
  model o = Resolved m ->
  (setConfig this config w).1 = Resolved tt
  /\ store (setConfig this config w).2 = store w
  /\ host (setConfig this config w).2 = model_setConfig m config (host w)
  /\ (reloadModel this (setConfig this config w).2).1 = Resolved m
  /\ getConfigSync <$> store (reloadModel this (setConfig this config w).2).2 !! this
     = Some (Some (model_searchConfig m (model_setConfig m config (host w))))
  /\ highlights <$> store (reloadModel this (setConfig this config w).2).2 !! this
     = Some (model_getAllDecorations m (model_setConfig m config (host w)))
  /\ host (reloadModel this (setConfig this config w).2).2
     = model_setConfig m config (host w).
Proof.
  intros Ho Hm.
  assert (setConfig this config w
          = (Resolved tt,
             tell (call_model_setConfig m config) (model_setConfig m config) w)) as ->.
  { unfold setConfig. unfold bind at 1.
    now rewrite (await_model_resolved this w o m Ho Hm). }
  cbn [fst snd].
  rewrite (reloadModel_resolved this _ o m) by assumption.
  cbn. rewrite !list_lookup_alter_eq, Ho. cbn.
  unfold highlights. cbn. rewrite copy_decorations. auto 10.
Qed.

(** X7. The label cut by [getName] for any [maxLength]: a label shorter
    than [maxLength] is kept; otherwise, from [maxLength] 3 on, the result
    is the first [maxLength - 3] characters and "...", exactly [maxLength]
    long; below 3 the end of the slice is negative and counts from the end
    of the label, so that the result is longer than [maxLength]. *)
Theorem trimToMax_any_length (maxLength : Z) (label : string) :
  let len := Z.of_nat (String.length label) in
  ((len < maxLength)%Z -> trimToMax maxLength label = label)
  /\ ((maxLength <= len)%Z -> (3 <= maxLength)%Z ->
      trimToMax maxLength label
      = String.substring 0 (Z.to_nat (maxLength - 3)) label +:+ "..."
      /\ Z.of_nat (String.length (trimToMax maxLength label)) = maxLength)
  /\ ((maxLength <= len)%Z -> (maxLength < 3)%Z ->
      trimToMax maxLength label
      = String.substring 0 (Z.to_nat (len + (maxLength - 3))) label +:+ "..."
      /\ (maxLength < Z.of_nat (String.length (trimToMax maxLength label)))%Z).
Proof.
  intros len. unfold trimToMax, Js.slice0. fold len.
  split; [| split].
  - intros Hl. now destruct (Z.ltb_spec len maxLength); [| lia].
  - intros Hl H3. destruct (Z.ltb_spec len maxLength); [lia |].
    destruct (Z.ltb_spec (maxLength - 3) 0); [lia |].
    rewrite Z.min_l by lia. split; [reflexivity |].
    rewrite length_append, length_substring_0.
    change (String.length "...") with 3%nat. lia.
  - intros Hl H3. destruct (Z.ltb_spec len maxLength); [lia |].
    destruct (Z.ltb_spec (maxLength - 3) 0); [| lia].
    assert (Z.to_nat (Z.max (len + (maxLength - 3)) 0)
            = Z.to_nat (len + (maxLength - 3))) as -> by lia.
    split; [reflexivity |].
    rewrite length_append. change (String.length "...") with 3%nat. lia.
Qed.

(** X8. The name of an input that is not untitled is "Search: " followed
    by the base name of its path without the extension '.code-search': it
    depends neither on the query nor on [maxLength], and is never cut. *)
Theorem getName_of_a_file (this : SearchEditorInput) (maxLength : option Z) :
  isUntitled this = false ->
  getName this maxLength
  = "Search: " +:+ basename (path (resource this)) ".code-search".
Proof.
  intros Hu. unfold getName. rewrite Hu. apply format_searchTitle.
Qed.

Lemma all_chars_append (p : ascii -> bool) (s t : string) :
  all_chars p (s +:+ t) = all_chars p s && all_chars p t.
Proof.
  induction s as [|a s IH]; [reflexivity |].
  rewrite append_cons. cbn [all_chars]. now rewrite IH, andb_assoc.
Qed.

Lemma append_assoc (r s t : string) : (r +:+ s) +:+ t = r +:+ (s +:+ t).
Proof.
  induction r as [|a r IH]; [reflexivity |]. now rewrite !append_cons, IH.
Qed.

Lemma append_not_empty (r s : string) : r <> "" -> r +:+ s <> "".
Proof. destruct r; [congruence |]. now rewrite append_cons. Qed.

(** The loop yields what the pattern asks for, outside a run and inside one. *)
Lemma replace_runs_collapsed (s : string) :
  collapsed s (Js.replace_runs false s)
  /\ forall r,
       r <> "" ->
       all_chars (fun a => negb (Js.is_file_name_char a)) r = true ->
       collapsed (r +:+ s) (String "_" (Js.replace_runs true s)).
Proof.
  induction s as [|a s [IH1 IH2]].
  - split; [constructor |]. intros r Hr Ha.
    apply collapsed_run; [assumption | assumption | exact I | constructor].
  - cbn [Js.replace_runs]. destruct (Js.is_file_name_char a) eqn:Ea.
    + split; [now constructor |]. intros r Hr Ha.
      apply collapsed_run; [assumption | assumption | exact Ea | now constructor].
    + split.
      * change (String a s) with (String a "" +:+ s).
        apply IH2; [discriminate |]. cbn [all_chars]. now rewrite Ea.
      * intros r Hr Ha.
        change (String a s) with (String a "" +:+ s). rewrite <- append_assoc.
        apply IH2; [now apply append_not_empty |].
        rewrite all_chars_append, Ha. cbn [all_chars]. now rewrite Ea.
Qed.

Lemma replace_runs_over_run (r s : string) :
  all_chars (fun a => negb (Js.is_file_name_char a)) r = true ->
  starts_kept s ->
  Js.replace_runs true (r +:+ s) = Js.replace_runs false s.
Proof.
  intros Hr Hs. induction r as [|a r IH].
  - rewrite append_nil. destruct s as [|b s]; [reflexivity |].
    cbn [starts_kept] in Hs. cbn [Js.replace_runs]. now rewrite Hs.
  - cbn [all_chars] in Hr. apply andb_true_iff in Hr. destruct Hr as [Ha Hr].
    apply negb_true_iff in Ha.
    rewrite append_cons. cbn [Js.replace_runs]. rewrite Ha. now apply IH.
Qed.

(** The pattern leaves no choice. *)
Lemma collapsed_unique (q t : string) : collapsed q t -> t = Js.replace_runs false q.
Proof.
  induction 1 as [|a s t Ha _ IH|r s t Hne Hr Hs _ IH].
  - reflexivity.
  - cbn [Js.replace_runs]. rewrite Ha. now rewrite IH.
  - destruct r as [|a r]; [congruence |].
    cbn [all_chars] in Hr. apply andb_true_iff in Hr. destruct Hr as [Ha Hr].
    apply negb_true_iff in Ha.
    rewrite append_cons. cbn [Js.replace_runs]. rewrite Ha.
    now rewrite (replace_runs_over_run r s Hr Hs), IH.
Qed.

Lemma path_URI_from (scheme name : string) :
  starts_kept name ->
  name <> "" ->
  path (URI_from scheme name "")
  = if has_absolute_path scheme then "/" +:+ name else name.
Proof.
  intros Hk Hn. cbn [URI_from path]. unfold referenceResolution, has_absolute_path.
  destruct (_ || _); [| reflexivity].
  destruct name as [|a name]; [congruence |].
  cbn [starts_kept] in Hk.
  destruct (Ascii.eqb_spec a "/") as [->|_]; [discriminate Hk | reflexivity].
Qed.

(** X9. The file that [suggestFileName] proposes for the query of the
    model: under the default path of the dialog when there is one, and else
    a local resource of the scheme filtered on, which is the remote scheme
    exactly when a remote authority is configured, with the name as its
    path, made absolute under the schemes file, http and https. The name is
    the query with the characters that are letters, digits, underscore,
    space or hyphen kept and every maximal run of other characters replaced
    by one underscore, followed by '.code-search'; the empty query gives
    'Search.code-search', any other query a name that is not empty, and a
    query made of allowed characters only is kept as it is. *)
Theorem suggestFileName_name (this : InputRef) (w : W) (o : SearchEditorInput)
  (m : SearchEditorModel) (q : string) :
  store w !! this = Some o ->
  model o = Resolved m ->
  query (model_searchConfig m (host w)) = Some q ->
  exists base scheme,
    (suggestFileName this w).1
    = Resolved
        match fileDialogService_defaultFilePath scheme (host w) with
        | Some defaultFilePath => joinPath defaultFilePath (base +:+ ".code-search")
        | None =>
            toLocalResource (URI_from scheme (base +:+ ".code-search") "")
              (environmentService_remoteAuthority (host w))
        end
    /\ scheme
       = match environmentService_remoteAuthority (host w) with
         | Some (String _ _) => Schemas_vscodeRemote
         | _ => Schemas_file
         end
    /\ path (URI_from scheme (base +:+ ".code-search") "")
       = (if has_absolute_path scheme then "/" +:+ base +:+ ".code-search"
          else base +:+ ".code-search")
    /\ base <> ""
    /\ all_chars Js.is_file_name_char base = true
    /\ (q = "" -> base = "Search")
    /\ (q <> "" -> forall t, collapsed q t <-> t = base)
    /\ (all_chars Js.is_file_name_char q = true -> q <> "" -> base = q).
Proof.
  intros Ho Hm Hq.
  assert (exists base,
             searchFileName q = base +:+ ".code-search"
             /\ base <> ""
             /\ all_chars Js.is_file_name_char base = true
             /\ (q = "" -> base = "Search")
             /\ (q <> "" -> base = Js.replace_runs false q))
    as (base & Hname & Hne & Hsafe & Hempty & Hbase).
  { unfold searchFileName. destruct q as [|a q].
    - exists "Search". repeat split; try discriminate; congruence.
    - exists (Js.replace_runs false (String a q)).
      pose proof (replace_runs_nonempty a q) as Hne.
      apply truthy_true in Hne. rewrite Hne.
      split; [reflexivity |]. split; [now apply truthy_true |].
      split; [apply replace_runs_safe |]. split; [discriminate | reflexivity]. }
  exists base, (schemeFilter (host w)). split; [| split; [| split]].
  - rewrite <- Hname.
    unfold suggestFileName. unfold bind at 1.
    rewrite (reloadModel_resolved this w o m Ho Hm).
    unfold bind at 1, ask. cbn [host record modify set_store]. rewrite Hq.
    unfold bind at 1. unfold bind at 1.
    cbn [host record modify set_store].
    fold (schemeFilter (host w)). unfold searchFileName.
    destruct (fileDialogService_defaultFilePath _ _); reflexivity.
  - unfold schemeFilter, if_truthy.
    destruct (environmentService_remoteAuthority (host w)) as [[|a r]|]; reflexivity.
  - apply path_URI_from.
    + destruct base as [|a base]; [congruence |].
      rewrite append_cons. cbn [starts_kept].
      cbn [all_chars] in Hsafe. now apply andb_true_iff in Hsafe.
    + now apply append_not_empty.
  - split; [assumption |]. split; [assumption |]. split; [assumption |]. split.
    + intros Hq0 t. rewrite (Hbase Hq0). split.
      * apply collapsed_unique.
      * intros ->. apply replace_runs_collapsed.
    + intros Hall Hq0. rewrite (Hbase Hq0). now apply replace_runs_id.
Qed.

End Names_and_highlights.

(** ** Making an input *)

Section Making.
Context `{Collaborators} {Σ : Type} `{Services Σ}.

Abbreviation W := (World Σ).

Lemma getModel_store (d : ExistingData) (uri : URI) (c : SearchConfiguration) (w : W) :
  store (getModel d uri c w).2 = store w /\ inputs (getModel d uri c w).2 = inputs w.
Proof.
  unfold getModel, createInstance_SearchEditorModel, bind, ask, request, effect, step,
    ret, throw.
  destruct (modelService_getModel uri (host w)).
  - destruct (new_SearchEditorModel _ _ _). auto.
  - destruct (backupService_resolve _ _) as [[[b|]|e] h1]; cbn; auto.
    + destruct (new_SearchEditorModel _ _ _). auto.
    + destruct (negb _).
      * destruct (textFileService_read _ _) as [[t|e] h2]; cbn; auto.
        destruct (new_SearchEditorModel _ _ _). auto.
      * destruct (if_truthy _); cbn.
        -- destruct (new_SearchEditorModel _ _ _). auto.
        -- destruct (existingData_config d); cbn; auto.
           destruct (new_SearchEditorModel _ _ _). auto.
Qed.

Lemma getOrMake_new_exact (d : ExistingData) (w : W) :
  inputs w !! URI_toString (uri_of d w) = None ->
  let uri := uri_of d w in
  let g := getModel d uri (starting_config d) (before_getModel d w) in
  let n := length (store w) in
  getOrMakeSearchEditorInput d w
  = (n,
     modify n
       (fun o => set_onDispose (onDispose o ++ [inputs_delete (URI_toString uri)]) o)
       (set_inputs (<[URI_toString uri := n]> (inputs w))
          (modify n (set_query (Some (starting_config d)))
             (tell (call_registerWorkingCopy (adapter_of n uri))
                   (workingCopyService_registerWorkingCopy (adapter_of n uri))
                (set_store
                   (store w
                      ++ [{| resource := uri; dirty := false; model := g.1;
                             input_query := None; viewState := focused_input;
                             _highlights := None; disposed := false;
                             onDispose := [] |}])%list g.2))))).
Proof.
  intros Hfree uri g n. subst uri g n.
  unfold getOrMakeSearchEditorInput, uri_of, before_getModel in *.
  destruct (existingData_uri d) as [uri|].
  - rewrite Hfree. unfold new_SearchEditorInput.
    destruct (getModel_store d uri (starting_config d) w) as [Hs Hi].
    destruct (getModel d uri (starting_config d) w) as [m w1].
    cbn [fst snd alloc] in *. rewrite Hs. cbn [inputs modify tell set_host record set_store].
    rewrite Hi. reflexivity.
  - destruct (Math_random (host w)) as [x h]. cbn [fst snd] in *.
    change (inputs (set_host h w)) with (inputs w). rewrite Hfree.
    unfold new_SearchEditorInput.
    destruct (getModel_store d (URI_from SearchEditorScheme "" x) (starting_config d)
                (set_host h w)) as [Hs Hi].
    destruct (getModel d _ (starting_config d) (set_host h w)) as [m w1].
    cbn [fst snd alloc] in *. rewrite Hs. cbn [inputs modify tell set_host record set_store].
    rewrite Hi. reflexivity.
Qed.

Lemma fresh_input_made (d : ExistingData) (w : W) :
  inputs w !! URI_toString (uri_of d w) = None ->
  (getOrMakeSearchEditorInput d w).1 = length (store w)
  /\ store (getOrMakeSearchEditorInput d w).2 !! (getOrMakeSearchEditorInput d w).1
     = Some (fresh_input d w)
  /\ log (getOrMakeSearchEditorInput d w).2
     = (log (getModel d (uri_of d w) (starting_config d) (before_getModel d w)).2
          ++ [call_registerWorkingCopy
                (adapter_of (getOrMakeSearchEditorInput d w).1 (uri_of d w))])%list.
Proof.
  intros Hfree. rewrite (getOrMake_new_exact d w Hfree).
  cbn. rewrite !list_lookup_alter_eq.
  rewrite lookup_app_r by reflexivity. rewrite Nat.sub_diag. auto.
Qed.

(** The world after [getOrMakeSearchEditorInput]: as it was, when the input
    was found, and else with the new input. *)
Lemma getOrMake_world (d : ExistingData) (w : W) :
  (is_Some (inputs w !! URI_toString (uri_of d w))
   /\ (getOrMakeSearchEditorInput d w).2 = before_getModel d w)
  \/ (inputs w !! URI_toString (uri_of d w) = None
      /\ (getOrMakeSearchEditorInput d w).2
         = modify (length (store w))
             (fun o => set_onDispose
                         (onDispose o ++ [inputs_delete (URI_toString (uri_of d w))]) o)
             (set_inputs (<[URI_toString (uri_of d w) := length (store w)]> (inputs w))
                (modify (length (store w)) (set_query (Some (starting_config d)))
                   (tell (call_registerWorkingCopy
                            (adapter_of (length (store w)) (uri_of d w)))
                         (workingCopyService_registerWorkingCopy
                            (adapter_of (length (store w)) (uri_of d w)))
                      (set_store
                         (store w
                            ++ [{| resource := uri_of d w; dirty := false;
                                   model := (getModel d (uri_of d w) (starting_config d)
                                               (before_getModel d w)).1;
                                   input_query := None; viewState := focused_input;
                                   _highlights := None; disposed := false;
                                   onDispose := [] |}])%list
                         (getModel d (uri_of d w) (starting_config d)
                            (before_getModel d w)).2))))).
Proof.
  destruct (inputs w !! URI_toString (uri_of d w)) as [r0|] eqn:E.
  - left. split; [eauto |].
    unfold getOrMakeSearchEditorInput, uri_of, before_getModel in *.
    destruct (existingData_uri d) as [uri|].
    + now rewrite E.
    + destruct (Math_random (host w)) as [x h]. cbn [fst snd] in *.
      change (inputs (set_host h w)) with (inputs w). now rewrite E.
  - right. split; [reflexivity |]. now rewrite (getOrMake_new_exact d w E).
Qed.

Lemma getOrMake_frame (d : ExistingData) (w : W) (r : InputRef) (o : SearchEditorInput) :
  store w !! r = Some o -> store (getOrMakeSearchEditorInput d w).2 !! r = Some o.
Proof.
  intros Hr. destruct (getOrMake_world d w) as [[_ ->] | [E ->]].
  - unfold before_getModel. now destruct (existingData_uri d).
  - cbn. pose proof (lookup_lt_Some _ _ _ Hr) as Hlt.
    rewrite !list_lookup_alter_ne by lia. now rewrite lookup_app_l.
Qed.

(** X11. Making or finding an input changes no input that exists and no
    entry of the map, and adds at most one object to the store. *)
Theorem getOrMake_leaves_the_others (d : ExistingData) (w : W) :
  let made := getOrMakeSearchEditorInput d w in
  (forall r o, store w !! r = Some o -> store made.2 !! r = Some o)
  /\ (forall key r, inputs w !! key = Some r -> inputs made.2 !! key = Some r)
  /\ (length (store made.2) <= S (length (store w)))%nat.
Proof.
  intros made. subst made.
  destruct (getOrMake_world d w) as [[_ ->] | [E ->]].
  - unfold before_getModel. destruct (existingData_uri d); cbn; auto.
  - cbn. repeat split.
    + intros r o Hr. pose proof (lookup_lt_Some _ _ _ Hr) as Hlt.
      rewrite !list_lookup_alter_ne by lia. now rewrite lookup_app_l.
    + intros key r Hk. rewrite lookup_insert_ne; [assumption | congruence].
    + rewrite !length_alter, length_app. cbn. lia.
Qed.

(** X12. A second call with the same uri, right after the first, returns
    the same input and changes nothing: no second input, no second working
    copy, no call of a service. *)
Theorem getOrMake_again_does_nothing (u : URI) (c c' : option SearchConfiguration)
  (w : W) :
  getOrMakeSearchEditorInput (with_uri u c')
    (getOrMakeSearchEditorInput (with_uri u c) w).2
  = getOrMakeSearchEditorInput (with_uri u c) w.
Proof.
  pose proof (getOrMake_enters (with_uri u c) w) as Hentry.
  change (uri_of (with_uri u c) w) with u in Hentry.
  unfold getOrMakeSearchEditorInput at 1. cbn [existingData_uri].
  rewrite Hentry. now destruct (getOrMakeSearchEditorInput (with_uri u c) w).
Qed.

(** X13. An input made without a uri is untitled: its resource has the
    search-editor scheme, the random number as fragment and no path, and
    its working copy is registered with the Untitled capability. *)
Theorem getOrMake_without_uri_is_untitled (d : ExistingData) (w : W) :
  existingData_uri d = None ->
  inputs w !! URI_toString (uri_of d w) = None ->
  let made := getOrMakeSearchEditorInput d w in
  exists o,
    store made.2 !! made.1 = Some o
    /\ resource o = URI_from SearchEditorScheme "" (Math_random (host w)).1
    /\ isUntitled o = true
    /\ last (registered (log made.2))
       = Some {| wc_input := made.1; wc_resource := resource o;
                 wc_capabilities := WorkingCopyCapabilities_Untitled |}.
Proof.
  intros Hd Hfree made.
  destruct (fresh_input_made d w Hfree) as (Hn & Ho & Hlog).
  fold made in Hn, Ho, Hlog.
  exists (fresh_input d w). split; [exact Ho |].
  assert (uri_of d w = URI_from SearchEditorScheme "" (Math_random (host w)).1) as Hu
    by (unfold uri_of; now rewrite Hd).
  split; [exact Hu |]. split.
  - unfold isUntitled. cbn [fresh_input resource]. rewrite Hu. cbn.
    apply String.eqb_refl.
  - rewrite Hlog, registered_app. cbn [registered]. rewrite last_snoc.
    unfold adapter_of. cbn [fresh_input resource]. rewrite Hu. cbn.
    now rewrite String.eqb_refl.
Qed.

End Making.

(** ** The model of an input, continued *)

Section ModelFailures.
Context `{Collaborators} {Σ : Type} `{Services Σ}.

Abbreviation W := (World Σ).

(** X14. When no text model exists for the uri and the backup service
    rejects, [getModel] rejects with that error and the backup is not
    discarded. When there is no backup and the file of a uri outside the
    search-editor scheme cannot be read, [getModel] rejects with the error
    of the read, after the backup service was told to discard. In both
    cases no model is created. *)
Theorem getModel_failures (d : ExistingData) (uri : URI) (config : SearchConfiguration)
  (w : W) :
  modelService_getModel uri (host w) = None ->
  (forall e h1,
      backupService_resolve uri (host w) = (Rejected e, h1) ->
      getModel d uri config w
      = (Rejected e, set_host h1 (record (call_backup_resolve uri) w)))
  /\ (forall h1 e h2,
        backupService_resolve uri (host w) = (Resolved None, h1) ->
        scheme uri <> SearchEditorScheme ->
        textFileService_read uri (host (after_backup uri h1 w)) = (Rejected e, h2) ->
        getModel d uri config w
        = (Rejected e, set_host h2 (record (call_read uri) (after_backup uri h1 w)))).
Proof.
  intros Hnone. split.
  - intros e h1 Hbackup. unfold getModel. unfold bind at 1, ask. rewrite Hnone.
    unfold bind at 1, request. change (host (record ?c w)) with (host w).
    now rewrite Hbackup.
  - intros h1 e h2 Hbackup Hs Hread.
    rewrite (getModel_after_backup d uri config w None h1 Hnone Hbackup).
    apply String.eqb_neq in Hs. rewrite Hs. cbn [negb].
    unfold bind at 1. unfold bind at 1, request.
    change (host (record ?c (after_backup uri h1 w))) with (host (after_backup uri h1 w)).
    now rewrite Hread.
Qed.

(** X15. When a text model exists for the uri, [getModel] builds the model
    over it with the starting config and does nothing else: the backup
    service is not asked, no backup is discarded, no file is read, whatever
    [existingData] holds. *)
Theorem getModel_over_existing_text_model (d : ExistingData) (uri : URI)
  (config : SearchConfiguration) (w : W) (existing : ITextModel) :
  modelService_getModel uri (host w) = Some existing ->
  getModel d uri config w
  = (Resolved
       (new_SearchEditorModel (resultsTextModel_searchConfig existing config) uri
          (host w)).1,
     set_host
       (new_SearchEditorModel (resultsTextModel_searchConfig existing config) uri
          (host w)).2
       (record
          (call_new_SearchEditorModel (resultsTextModel_searchConfig existing config) uri)
          w)).
Proof.
  intros Hsome. unfold getModel. unfold bind, ask. rewrite Hsome.
  unfold createInstance_SearchEditorModel, step.
  now destruct (new_SearchEditorModel _ _ _).
Qed.

End ModelFailures.

(** ** Save as, with a path *)

Section SaveAs.
Context `{Collaborators} {Σ : Type} `{Services Σ}.

Abbreviation W := (World Σ).

Lemma saveAs_picked (this : InputRef) (group : GroupIdentifier)
  (options : option ITextFileSaveOptions) (w : W) (name : URI) (w1 : W) (path : URI)
  (h2 : Σ) (o1 : SearchEditorInput) :
  suggestFileName this w = (Resolved name, w1) ->
  fileDialogService_pickFileToSave name (options ≫= availableFileSystems) (host w1)
  = (Resolved (Some path), h2) ->
  store w1 !! this = Some o1 ->
  saveAs this group options w
  = bind (request (call_saveAs (resource o1) path options)
            (textFileService_saveAs (resource o1) path options))
      (fun saved =>
         match saved with
         | Some _ =>
             (let* _ := drop (setDirty this false) in
              if negb (isEqual path (resource o1)) then
                let* o := read this in
                let* input :=
                  step (getOrMakeSearchEditorInput
                          (with_uri path (Some (default empty_config (input_query o))))) in
                let* o := read this in
                let* _ := drop (setHighlights input (highlights o)) in
                ret (Some input)
              else ret (Some this))%wb
         | None => ret None
         end)
      (after_pick name (options ≫= availableFileSystems) h2 w1).
Proof.
  intros Hname Hpick Ho1. unfold saveAs. unfold bind at 1. rewrite Hname.
  unfold bind at 1, request. change (host (record ?c w1)) with (host w1).
  rewrite Hpick. unfold bind at 1, effect. unfold bind at 1, read.
  change (store (tell ?c ?f ?w')) with (store w'). cbn [store set_host record].
  rewrite Ho1. reflexivity.
Qed.

(** X16. The user picked a path but the text file service saved nothing:
    [saveAs] returns undefined and the input is as the suggestion of the
    name left it, dirty flag included. The telemetry event was logged all
    the same, before the write was tried. *)
Theorem saveAs_not_saved (this : InputRef) (group : GroupIdentifier)
  (options : option ITextFileSaveOptions) (w : W) (name : URI) (w1 : W) (path : URI)
  (h2 h3 : Σ) (o1 : SearchEditorInput) :
  suggestFileName this w = (Resolved name, w1) ->
  fileDialogService_pickFileToSave name (options ≫= availableFileSystems) (host w1)
  = (Resolved (Some path), h2) ->
  store w1 !! this = Some o1 ->
  textFileService_saveAs (resource o1) path options
    (telemetryService_publicLog2 "searchEditor/saveSearchResults" h2)
  = (Resolved None, h3) ->
  (saveAs this group options w).1 = Resolved None
  /\ store (saveAs this group options w).2 = store w1
  /\ inputs (saveAs this group options w).2 = inputs w1
  /\ log (saveAs this group options w).2
     = (log w1 ++ [call_pickFileToSave name (options ≫= availableFileSystems);
                   call_publicLog2 "searchEditor/saveSearchResults";
                   call_saveAs (resource o1) path options])%list.
Proof.
  intros Hname Hpick Ho1 Hsave.
  assert (saveAs this group options w
          = (Resolved None,
             set_host h3
               (record (call_saveAs (resource o1) path options)
                  (after_pick name (options ≫= availableFileSystems) h2 w1)))) as ->.
  { rewrite (saveAs_picked this group options w name w1 path h2 o1 Hname Hpick Ho1).
    unfold bind at 1, request.
    change (host (record ?c (after_pick ?n ?f h2 w1)))
      with (telemetryService_publicLog2 "searchEditor/saveSearchResults" h2).
    now rewrite Hsave. }
  cbn. rewrite <- !app_assoc. auto.
Qed.

(** X17. The user picked the resource of the input itself and the text
    file service saved: [saveAs] returns the input itself, with the dirty
    flag cleared, and makes no other input. *)
Theorem saveAs_to_the_same_resource (this : InputRef) (group : GroupIdentifier)
  (options : option ITextFileSaveOptions) (w : W) (name : URI) (w1 : W) (path : URI)
  (h2 h3 : Σ) (o1 : SearchEditorInput) (saved : URI) :
  suggestFileName this w = (Resolved name, w1) ->
  fileDialogService_pickFileToSave name (options ≫= availableFileSystems) (host w1)
  = (Resolved (Some path), h2) ->
  store w1 !! this = Some o1 ->
  textFileService_saveAs (resource o1) path options
    (telemetryService_publicLog2 "searchEditor/saveSearchResults" h2)
  = (Resolved (Some saved), h3) ->
  isEqual path (resource o1) = true ->
  (saveAs this group options w).1 = Resolved (Some this)
  /\ store (saveAs this group options w).2 = alter (set_dirty false) this (store w1)
  /\ isDirty <$> store (saveAs this group options w).2 !! this = Some false
  /\ inputs (saveAs this group options w).2 = inputs w1.
Proof.
  intros Hname Hpick Ho1 Hsave Heq.
  assert (saveAs this group options w
          = (Resolved (Some this),
             (setDirty this false
                (set_host h3
                   (record (call_saveAs (resource o1) path options)
                      (after_pick name (options ≫= availableFileSystems) h2 w1)))).2))
    as ->.
  { rewrite (saveAs_picked this group options w name w1 path h2 o1 Hname Hpick Ho1).
    unfold bind at 1, request.
    change (host (record ?c (after_pick ?n ?f h2 w1)))
      with (telemetryService_publicLog2 "searchEditor/saveSearchResults" h2).
    rewrite Hsave. rewrite Heq. reflexivity. }
  cbn [fst snd].
  match goal with
  | |- context [setDirty this false ?w'] =>
      assert (store (setDirty this false w').2 = alter (set_dirty false) this (store w1)
              /\ inputs (setDirty this false w').2 = inputs w1) as [Hs Hi]
  end.
  { destruct (model o1) as [m|e] eqn:Hm.
    - erewrite setDirty_resolved; [| exact Ho1 | exact Hm]. cbn. auto.
    - erewrite setDirty_rejected; [| exact Ho1 | exact Hm]. cbn. auto. }
  rewrite Hs, Hi. repeat split.
  rewrite list_lookup_alter_eq, Ho1. reflexivity.
Qed.

Lemma setHighlights_resolved (r : InputRef) (v : list IModelDeltaDecoration) (w : W)
  (o : SearchEditorInput) (m : SearchEditorModel) :
  store w !! r = Some o -> model o = Resolved m ->
  setHighlights r v w
  = (Resolved tt,
     modify r (set_highlights (Some v))
       (tell (call_deltaDecorations m v) (model_deltaDecorations m v) w)).
Proof.
  intros Ho Hm. unfold setHighlights. unfold bind at 1.
  now rewrite (await_model_resolved r w o m Ho Hm).
Qed.

Lemma setHighlights_unresolved (r : InputRef) (v : list IModelDeltaDecoration) (w : W) :
  (forall o m, store w !! r = Some o -> model o <> Resolved m) ->
  exists e, setHighlights r v w = (Rejected e, w).
Proof.
  intros Hno. unfold setHighlights, await_model, read. unfold bind at 1. unfold bind at 1.
  destruct (store w !! r) as [o|] eqn:Ho; [| eauto].
  destruct (model o) as [m|e] eqn:Hm; [| eauto].
  exfalso. exact (Hno o m eq_refl Hm).
Qed.

Lemma setHighlights_store (r : InputRef) (v : list IModelDeltaDecoration) (w : W)
  (x : InputRef) (o : SearchEditorInput) :
  store w !! x = Some o ->
  inputs (setHighlights r v w).2 = inputs w
  /\ exists o',
       store (setHighlights r v w).2 !! x = Some o'
       /\ resource o' = resource o /\ input_query o' = input_query o
       /\ dirty o' = dirty o /\ disposed o' = disposed o.
Proof.
  intros Hx.
  assert ((exists o0 m, store w !! r = Some o0 /\ model o0 = Resolved m)
          \/ (forall o0 m, store w !! r = Some o0 -> model o0 <> Resolved m))
    as [(o0 & m & Hr & Hm) | Hno].
  { destruct (store w !! r) as [o0|]; [| right; congruence].
    destruct (model o0) as [m|e] eqn:Hm; [left; eauto | right].
    intros o1 m1 [= <-]. congruence. }
  - rewrite (setHighlights_resolved r v w o0 m Hr Hm).
    cbn [fst snd store modify set_store tell set_host record inputs].
    split; [reflexivity |].
    destruct (decide (r = x)) as [<-|Hne].
    + rewrite list_lookup_alter_eq, Hx. cbn. eauto 10.
    + rewrite list_lookup_alter_ne by assumption. eauto 10.
  - destruct (setHighlights_unresolved r v w Hno) as [e ->]. cbn. eauto 10.
Qed.

(** X18. The user picked another resource, for which no input is open,
    and the text file service saved: [saveAs] returns a new input for the
    picked path, entered in the map under the string of that path, clean,
    starting from a copy of the query that this input holds after the
    reload; this input stays open, with its dirty flag cleared. *)
Theorem saveAs_to_another_resource (this : InputRef) (group : GroupIdentifier)
  (options : option ITextFileSaveOptions) (w : W) (name : URI) (w1 : W) (path : URI)
  (h2 h3 : Σ) (o1 : SearchEditorInput) (saved : URI) :
  suggestFileName this w = (Resolved name, w1) ->
  fileDialogService_pickFileToSave name (options ≫= availableFileSystems) (host w1)
  = (Resolved (Some path), h2) ->
  store w1 !! this = Some o1 ->
  textFileService_saveAs (resource o1) path options
    (telemetryService_publicLog2 "searchEditor/saveSearchResults" h2)
  = (Resolved (Some saved), h3) ->
  isEqual path (resource o1) = false ->
  inputs w1 !! URI_toString path = None ->
  let input := length (store w1) in
  (saveAs this group options w).1 = Resolved (Some input)
  /\ input <> this
  /\ inputs (saveAs this group options w).2 = <[URI_toString path := input]> (inputs w1)
  /\ (exists o',
         store (saveAs this group options w).2 !! input = Some o'
         /\ resource o' = path
         /\ input_query o' = Some (default empty_config (input_query o1))
         /\ dirty o' = false /\ disposed o' = false)
  /\ (exists o,
         store (saveAs this group options w).2 !! this = Some o
         /\ resource o = resource o1 /\ dirty o = false /\ disposed o = disposed o1).
Proof.
  intros Hname Hpick Ho1 Hsave Hneq Hfree input.
  set (w3 := set_host h3
               (record (call_saveAs (resource o1) path options)
                  (after_pick name (options ≫= availableFileSystems) h2 w1))).
  set (w4 := (setDirty this false w3).2).
  assert (store w4 = alter (set_dirty false) this (store w1)
          /\ inputs w4 = inputs w1) as [Hs4 Hi4].
  { subst w4. destruct (model o1) as [m|e] eqn:Hm.
    - erewrite setDirty_resolved; [| exact Ho1 | exact Hm]. cbn. auto.
    - erewrite setDirty_rejected; [| exact Ho1 | exact Hm]. cbn. auto. }
  assert (store w4 !! this = Some (set_dirty false o1)) as Ho4
    by (rewrite Hs4, list_lookup_alter_eq, Ho1; reflexivity).
  set (d := with_uri path (Some (default empty_config (input_query o1)))).
  set (made := getOrMakeSearchEditorInput d w4).
  assert (inputs w4 !! URI_toString (uri_of d w4) = None) as Hfree4
    by (rewrite Hi4; exact Hfree).
  destruct (fresh_input_made d w4 Hfree4) as (Hn & Hnew & _).
  fold made in Hn, Hnew.
  assert (made.1 = input) as Hinput
    by (rewrite Hn, Hs4, length_alter; reflexivity).
  pose proof (getOrMake_frame d w4 this _ Ho4) as Hthis. fold made in Hthis.
  assert (inputs made.2 = <[URI_toString path := input]> (inputs w1)) as Hi5.
  { subst made. rewrite (getOrMake_new_exact d w4 Hfree4). cbn.
    rewrite Hi4, Hs4, length_alter. reflexivity. }
  assert (saveAs this group options w
          = (Resolved (Some made.1),
             (setHighlights made.1 (highlights (set_dirty false o1)) made.2).2)) as ->.
  { rewrite (saveAs_picked this group options w name w1 path h2 o1 Hname Hpick Ho1).
    unfold bind at 1, request.
    change (host (record ?c (after_pick ?n ?f h2 w1)))
      with (telemetryService_publicLog2 "searchEditor/saveSearchResults" h2).
    rewrite Hsave. fold w3. rewrite Hneq. cbn [negb].
    unfold bind at 1, drop. fold w4. cbn [snd].
    unfold bind at 1, read. rewrite Ho4.
    unfold bind at 1, step. cbn [set_dirty input_query]. fold d. fold made.
    destruct made as [i w5] eqn:Emade. cbn [fst snd] in *.
    unfold bind at 1, read. rewrite Hthis.
    unfold bind at 1, drop. reflexivity. }
  cbn [fst snd].
  destruct (setHighlights_store made.1 (highlights (set_dirty false o1)) made.2
              made.1 _ Hnew) as (Hi6 & o' & Ho' & Hr' & Hq' & Hd' & Hx').
  destruct (setHighlights_store made.1 (highlights (set_dirty false o1)) made.2
              this _ Hthis) as (_ & o & Ho & Hr & _ & Hd & Hx).
  rewrite Hinput in *.
  split; [reflexivity |].
  split; [apply lookup_lt_Some in Ho1; subst input; lia |].
  split; [now rewrite Hi6 |].
  split; [exists o'; auto 10 | exists o; auto 10].
Qed.

End SaveAs.

(** ** Closing and opening again *)

Section Closing.
Context `{Collaborators} {Σ : Type} `{Services Σ}.

Abbreviation W := (World Σ).

(** [dispose] of an input that is not disposed. *)
Lemma dispose_live (r : InputRef) (w : W) (o : SearchEditorInput) :
  store w !! r = Some o -> disposed o = false ->
  let w1 := set_inputs (delete_keys (onDispose o) (inputs w))
              (record (fire_onDispose r)
                 (modify r (set_disposed true)
                    (tell (call_destroyModel (resource o))
                          (modelService_destroyModel (resource o)) w))) in
  dispose r w
  = match model o with
    | Resolved m =>
        tell (call_model_dispose m) (model_dispose m) (modify r (set_onDispose []) w1)
    | Rejected _ => modify r (set_onDispose []) w1
    end.
Proof.
  intros Ho Hd w1. subst w1. unfold dispose. rewrite Ho.
  unfold EditorInput_dispose. cbn [tell set_host record store]. rewrite Ho, Hd.
  rewrite run_listeners. reflexivity.
Qed.

(** [dispose] of an input that is disposed already. *)
Lemma dispose_disposed (r : InputRef) (w : W) (o : SearchEditorInput) :
  store w !! r = Some o -> disposed o = true ->
  dispose r w
  = tell (call_destroyModel (resource o)) (modelService_destroyModel (resource o)) w.
Proof.
  intros Ho Hd. unfold dispose. rewrite Ho.
  unfold EditorInput_dispose. cbn [tell set_host record store]. now rewrite Ho, Hd.
Qed.

Lemma dispose_store (r : InputRef) (w : W) (o : SearchEditorInput) :
  store w !! r = Some o ->
  (exists o', store (dispose r w) !! r = Some o'
              /\ disposed o' = true /\ resource o' = resource o)
  /\ (forall x, x <> r -> store (dispose r w) !! x = store w !! x).
Proof.
  intros Ho. destruct (disposed o) eqn:Hd.
  - rewrite (dispose_disposed r w o Ho Hd). cbn. eauto.
  - rewrite (dispose_live r w o Ho Hd).
    destruct (model o); cbn; rewrite !list_lookup_alter_eq, Ho; cbn;
      (split; [eauto |]); intros x Hx; now rewrite !list_lookup_alter_ne by congruence.
Qed.

(** X19. In a world that the module can reach, disposing an input removes
    no entry but its own and changes no other input. *)
Theorem dispose_leaves_the_others (w : W) (r : InputRef) :
  reachable w ->
  (forall key r', inputs w !! key = Some r' -> r' <> r ->
                  inputs (dispose r w) !! key = Some r')
  /\ (forall x, x <> r -> store (dispose r w) !! x = store w !! x).
Proof.
  intros Hw. pose proof (reachable_Inv w Hw) as [I1 I2]. split.
  - intros key r' Hk Hne.
    pose proof (view_dispose r w) as Hv.
    destruct ((view w).2 !! r) as [[[u [|]] ls]|] eqn:Hr.
    + apply (f_equal fst) in Hv. cbn [view fst] in Hv. now rewrite Hv.
    + apply (f_equal fst) in Hv. cbn [view fst] in Hv. rewrite Hv.
      rewrite delete_keys_lookup, decide_False; [assumption |].
      intros Hin. pose proof (I2 r u false ls key Hr Hin) as Hk'.
      cbn [view fst] in Hk'. congruence.
    + apply (f_equal fst) in Hv. cbn [view fst] in Hv. now rewrite Hv.
  - intros x Hx. destruct (store w !! r) as [o|] eqn:Ho.
    + now apply (dispose_store r w o Ho).
    + unfold dispose. now rewrite Ho.
Qed.

(** X20. Disposing an input a second time only asks the model service
    once more to destroy the model: the map, the store and the model are
    not touched again. *)
Theorem dispose_twice (w : W) (r : InputRef) (o : SearchEditorInput) :
  store w !! r = Some o ->
  dispose r (dispose r w)
  = tell (call_destroyModel (resource o)) (modelService_destroyModel (resource o))
      (dispose r w).
Proof.
  intros Ho. destruct (dispose_store r w o Ho) as [(o' & Ho' & Hd' & <-) _].
  now apply dispose_disposed.
Qed.

(** X21. After the input of a uri was disposed, a call with that uri makes
    a new input: another object than the disposed one, which stays
    disposed, and the new one is not disposed. *)
Theorem getOrMake_after_dispose (w : W) (u : URI) (c : option SearchConfiguration)
  (r : InputRef) :
  reachable w ->
  inputs w !! URI_toString u = Some r ->
  let made := getOrMakeSearchEditorInput (with_uri u c) (dispose r w) in
  made.1 = length (store w)
  /\ made.1 <> r
  /\ disposed <$> store made.2 !! r = Some true
  /\ disposed <$> store made.2 !! made.1 = Some false.
Proof.
  intros Hw Hk made. pose proof (reachable_Inv w Hw) as [I1 I2].
  destruct (I1 _ _ Hk) as (u' & ls & Hr & _ & Hl).
  pose proof Hr as Hr'. apply view_lookup in Hr'. destruct Hr' as (o & Ho & Hsk).
  pose proof (view_dispose r w) as Hv. rewrite Hr in Hv.
  assert (inputs (dispose r w) !! URI_toString u = None) as Hfree.
  { apply (f_equal fst) in Hv. cbn [view fst] in Hv. rewrite Hv.
    rewrite delete_keys_lookup. now rewrite decide_True. }
  assert (length (store (dispose r w)) = length (store w)) as Hlen.
  { apply (f_equal snd) in Hv. apply (f_equal length) in Hv. cbn [view snd] in Hv.
    now rewrite length_insert, !length_fmap in Hv. }
  destruct (fresh_input_made (with_uri u c) (dispose r w) Hfree)
    as (Hn & Hnew & _).
  fold made in Hn, Hnew. rewrite Hlen in Hn.
  destruct (dispose_store r w o Ho) as [(o' & Ho' & Hd' & _) _].
  pose proof (getOrMake_frame (with_uri u c) (dispose r w) r o' Ho') as Hold.
  fold made in Hold.
  split; [exact Hn |].
  split; [apply lookup_lt_Some in Ho; lia |].
  split; [now rewrite Hold; cbn; rewrite Hd' |].
  rewrite Hnew. reflexivity.
Qed.

(** X22. In a world that the module can reach no input is entered twice:
    two keys of the map that lead to the same input are the same key. *)
Theorem registry_is_injective (w : W) (key key' : string) (r : InputRef) :
  reachable w ->
  inputs w !! key = Some r ->
  inputs w !! key' = Some r ->
  key = key'.
Proof.
  intros Hw Hk Hk'. pose proof (reachable_Inv w Hw) as [I1 _].
  destruct (I1 _ _ Hk) as (u & ls & Hr & -> & _).
  destruct (I1 _ _ Hk') as (u' & ls' & Hr' & -> & _).
  rewrite Hr in Hr'. now injection Hr' as <- _.
Qed.

End Closing.

(** ** Working copies and resources along a run *)

Section Footprint.
Context `{Collaborators} {Σ : Type} `{Services Σ}.

Abbreviation W := (World Σ).
Abbreviation M := (M Σ).

Lemma footprint_modify (r : InputRef) (f : SearchEditorInput -> SearchEditorInput) (w : W) :
  (forall o, resource (f o) = resource o) -> footprint (modify r f w) = footprint w.
Proof.
  intros Hf. unfold footprint, modify. cbn. f_equal.
  rewrite (list_fmap_alter resource f id).
  - apply list_alter_id. reflexivity.
  - apply Forall_forall. intros o _. apply Hf.
Qed.

Lemma footprint_record (c : Call) (w : W) :
  registered [c] = [] -> footprint (record c w) = footprint w.
Proof.
  intros Hc. unfold footprint. cbn. now rewrite registered_app, Hc, app_nil_r.
Qed.

Lemma footprint_tell (c : Call) (f : Σ -> Σ) (w : W) :
  registered [c] = [] -> footprint (tell c f w) = footprint w.
Proof. intros Hc. unfold tell. now rewrite <- (footprint_record c w Hc). Qed.

Lemma fixes_ret {A} (a : A) : fixes (Σ := Σ) (ret a).
Proof. intros w. reflexivity. Qed.

Lemma fixes_throw {A} (e : Error) : fixes (Σ := Σ) (throw (A := A) e).
Proof. intros w. reflexivity. Qed.

Lemma fixes_bind {A B} (m : M A) (k : A -> M B) :
  fixes m -> (forall a, fixes (k a)) -> fixes (bind m k).
Proof.
  intros Hm Hk w. unfold bind. specialize (Hm w).
  destruct (m w) as [[a|e] w']; cbn [snd] in *; [| assumption].
  rewrite Hk. assumption.
Qed.

Lemma fixes_ask {A} (f : Σ -> A) : fixes (Σ := Σ) (ask f).
Proof. intros w. reflexivity. Qed.

Lemma fixes_request {A} (c : Call) (f : Σ -> Outcome A * Σ) :
  registered [c] = [] -> fixes (Σ := Σ) (request c f).
Proof.
  intros Hc w. unfold request. destruct (f _). cbn [snd].
  now rewrite <- (footprint_record c w Hc).
Qed.

Lemma fixes_effect (f : W -> W) :
  (forall w, footprint (f w) = footprint w) -> fixes (Σ := Σ) (effect f).
Proof. intros Hf w. apply Hf. Qed.

Lemma fixes_emit (c : Call) : registered [c] = [] -> fixes (Σ := Σ) (emit c).
Proof. intros Hc. apply fixes_effect. intros w. now apply footprint_record. Qed.

Lemma fixes_drop {A} (m : M A) : fixes m -> fixes (drop m).
Proof. intros Hm w. apply Hm. Qed.

Lemma fixes_read (this : InputRef) : fixes (Σ := Σ) (read this).
Proof. intros w. unfold read. destruct (store w !! this); reflexivity. Qed.

Lemma fixes_new_model (a : ModelArgs) (u : URI) :
  fixes (Σ := Σ) (createInstance_SearchEditorModel a u).
Proof.
  intros w. unfold createInstance_SearchEditorModel, step.
  destruct (new_SearchEditorModel _ _ _). cbn [snd].
  now rewrite <- (footprint_record (call_new_SearchEditorModel a u) w eq_refl).
Qed.

Lemma fixes_host_only {A} (g : Σ -> Outcome A * Σ) :
  fixes (Σ := Σ) (fun w : W => let '(r, h) := g (host w) in (r, set_host h w)).
Proof. intros w. destruct (g _). reflexivity. Qed.

End Footprint.

Create HintDb fixes.

#[global] Hint Resolve fixes_ret fixes_throw fixes_ask fixes_read fixes_new_model
  fixes_host_only : fixes.

(** Splits a computation as [keeps_tac] does, for [fixes]. *)
Ltac fixes_tac :=
  repeat
    match goal with
    | |- forall _, _ => intro
    | |- fixes (bind _ _) => apply fixes_bind
    | |- fixes (drop _) => apply fixes_drop
    | |- fixes (request _ _) => apply fixes_request; reflexivity
    | |- fixes (emit _) => apply fixes_emit; reflexivity
    | |- fixes (effect (modify _ _)) =>
        apply fixes_effect; intro; apply footprint_modify; reflexivity
    | |- fixes (effect (tell _ _)) =>
        apply fixes_effect; intro; apply footprint_tell; reflexivity
    | |- fixes (match ?x with _ => _ end) => destruct x
    | |- _ => solve [auto with fixes]
    end.

Section FixesMembers.
Context `{Collaborators} {Σ : Type} `{Services Σ}.

Lemma fixes_await_model (this : InputRef) : fixes (Σ := Σ) (await_model this).
Proof. unfold await_model. fixes_tac. Qed.

Hint Resolve fixes_await_model : fixes.

Lemma fixes_setDirty (this : InputRef) (d : bool) : fixes (Σ := Σ) (setDirty this d).
Proof. unfold setDirty. fixes_tac. Qed.

Lemma fixes_reloadModel (this : InputRef) : fixes (Σ := Σ) (reloadModel this).
Proof. unfold reloadModel. fixes_tac. Qed.

Lemma fixes_setConfig (this : InputRef) (c : SearchConfiguration) :
  fixes (Σ := Σ) (setConfig this c).
Proof. unfold setConfig. fixes_tac. Qed.

Lemma fixes_setHighlights (this : InputRef) (v : list IModelDeltaDecoration) :
  fixes (Σ := Σ) (setHighlights this v).
Proof. unfold setHighlights. fixes_tac. Qed.

Hint Resolve fixes_setDirty fixes_reloadModel : fixes.

Lemma fixes_revert (this : InputRef) (g : GroupIdentifier) (o : option IRevertOptions) :
  fixes (Σ := Σ) (revert this g o).
Proof. unfold revert, EditorInput_revert. fixes_tac. Qed.

Lemma fixes_suggestFileName (this : InputRef) : fixes (Σ := Σ) (suggestFileName this).
Proof. unfold suggestFileName. fixes_tac. Qed.

Lemma fixes_getModel (d : ExistingData) (u : URI) (c : SearchConfiguration) :
  fixes (Σ := Σ) (getModel d u c).
Proof. unfold getModel. fixes_tac. Qed.

End FixesMembers.

#[global] Hint Resolve fixes_await_model fixes_setDirty fixes_reloadModel
  fixes_setConfig fixes_setHighlights fixes_revert fixes_suggestFileName
  fixes_getModel : fixes.

Section Made.
Context `{Collaborators} {Σ : Type} `{Services Σ}.

Abbreviation W := (World Σ).

(** X10. Under a key that is free, [getOrMakeSearchEditorInput] makes an
    input whatever becomes of its model. The input is the one new object of
    the store; it has the uri as its resource, is clean, not disposed,
    without highlights, starts from the starting config and has the one
    listener that removes its entry; it is entered under the string of its
    uri; and one working copy is registered for it, none else. *)
Theorem getOrMake_makes_the_input (d : ExistingData) (w : W) :
  inputs w !! URI_toString (uri_of d w) = None ->
  let made := getOrMakeSearchEditorInput d w in
  made.1 = length (store w)
  /\ inputs made.2 = <[URI_toString (uri_of d w) := made.1]> (inputs w)
  /\ registered (log made.2)
     = (registered (log w) ++ [adapter_of made.1 (uri_of d w)])%list
  /\ exists o,
       store made.2 = (store w ++ [o])%list
       /\ resource o = uri_of d w
       /\ dirty o = false
       /\ disposed o = false
       /\ input_query o = Some (starting_config d)
       /\ viewState o = focused_input
       /\ _highlights o = None
       /\ onDispose o = [inputs_delete (URI_toString (uri_of d w))].
Proof.
  intros Hfree made. subst made.
  pose proof (fixes_getModel d (uri_of d w) (starting_config d) (before_getModel d w))
    as Hg.
  assert (footprint (before_getModel d w) = footprint w) as Hb
    by (unfold before_getModel; now destruct (existingData_uri d)).
  rewrite Hb in Hg. injection Hg as Hreg _.
  rewrite (getOrMake_new_exact d w Hfree). cbn [fst snd].
  split; [reflexivity |]. split; [reflexivity |]. split.
  - cbn [modify set_store set_inputs tell set_host record log].
    now rewrite registered_app, Hreg.
  - cbn [modify set_store set_inputs tell set_host record store].
    rewrite !alter_app_r_alt by reflexivity. rewrite Nat.sub_diag. cbn.
    eexists. split; [reflexivity |]. cbn. repeat split.
Qed.

End Made.

Section Steady.
Context `{Collaborators} {Σ : Type} `{Services Σ}.

Abbreviation W := (World Σ).
Abbreviation M := (M Σ).

Lemma advances_refl (w : W) : advances w w.
Proof. split; [reflexivity | auto]. Qed.

Lemma advances_trans (w1 w2 w3 : W) : advances w1 w2 -> advances w2 w3 -> advances w1 w3.
Proof. intros [P12 I12] [P23 I23]. split; [now transitivity (resource <$> store w2) | auto]. Qed.

Lemma advances_same (w w' : W) : footprint w' = footprint w -> advances w w'.
Proof.
  intros Hf. unfold advances, one_working_copy_each.
  injection Hf as Hreg Hres. rewrite Hreg, Hres. split; [reflexivity | auto].
Qed.

(** One more input, with its working copy. *)
Lemma advances_push (w w' : W) (u : URI) :
  footprint w'
  = ((registered (log w) ++ [adapter_of (length (store w)) u])%list,
     ((resource <$> store w) ++ [u])%list) ->
  advances w w'.
Proof.
  intros Hf. unfold advances, one_working_copy_each.
  injection Hf as Hreg Hres. rewrite Hreg, Hres. split.
  - now apply prefix_app_r.
  - intros ->. rewrite imap_app. cbn. rewrite length_fmap, Nat.add_0_r. reflexivity.
Qed.

Lemma steady_fixes {A} (m : M A) : fixes m -> steady m.
Proof. intros Hm w. apply advances_same, Hm. Qed.

Lemma steady_bind {A B} (m : M A) (k : A -> M B) :
  steady m -> (forall a, steady (k a)) -> steady (bind m k).
Proof.
  intros Hm Hk w. unfold bind. specialize (Hm w).
  destruct (m w) as [[a|e] w']; cbn [snd] in *; [| assumption].
  eapply advances_trans; [exact Hm | apply Hk].
Qed.

Lemma advances_getOrMake (d : ExistingData) (w : W) :
  advances w (getOrMakeSearchEditorInput d w).2.
Proof.
  assert (footprint (before_getModel d w) = footprint w) as Hb
    by (unfold before_getModel; now destruct (existingData_uri d)).
  destruct (getOrMake_world d w) as [[_ ->] | [E ->]].
  - now apply advances_same.
  - apply (advances_push _ _ (uri_of d w)).
    pose proof (fixes_getModel d (uri_of d w) (starting_config d) (before_getModel d w))
      as Hg.
    rewrite Hb in Hg. injection Hg as Hreg Hres.
    destruct (getModel_store d (uri_of d w) (starting_config d) (before_getModel d w))
      as [Hs _].
    rewrite footprint_modify by reflexivity.
    change (footprint (set_inputs ?i ?x)) with (footprint x).
    rewrite footprint_modify by reflexivity.
    unfold footprint. cbn [tell set_host record set_store log store].
    rewrite registered_app, Hreg, fmap_app. reflexivity.
Qed.

Lemma steady_getOrMake (d : ExistingData) : steady (step (getOrMakeSearchEditorInput d)).
Proof.
  intros w. unfold step. pose proof (advances_getOrMake d w) as Ha.
  now destruct (getOrMakeSearchEditorInput d w).
Qed.

End Steady.

Ltac steady_tac :=
  repeat
    match goal with
    | |- forall _, _ => intro
    | |- steady (bind _ _) => apply steady_bind
    | |- steady (step (getOrMakeSearchEditorInput _)) => apply steady_getOrMake
    | |- steady (match ?x with _ => _ end) => destruct x
    | |- steady _ => solve [apply steady_fixes; fixes_tac]
    end.

Section Along_a_run.
Context `{Collaborators} {Σ : Type} `{Services Σ}.

Abbreviation W := (World Σ).

Lemma steady_saveAs (this : InputRef) (g : GroupIdentifier)
  (o : option ITextFileSaveOptions) : steady (Σ := Σ) (saveAs this g o).
Proof. unfold saveAs. cbv zeta. steady_tac. Qed.

Lemma steady_save (this : InputRef) (g : GroupIdentifier)
  (o : option ITextFileSaveOptions) : steady (Σ := Σ) (save this g o).
Proof. unfold save. steady_tac. apply steady_saveAs. Qed.

Lemma footprint_dispose (r : InputRef) (w : W) : footprint (dispose r w) = footprint w.
Proof.
  destruct (store w !! r) as [o|] eqn:Ho; [| unfold dispose; now rewrite Ho].
  destruct (disposed o) eqn:Hd.
  - rewrite (dispose_disposed r w o Ho Hd). now apply footprint_tell.
  - rewrite (dispose_live r w o Ho Hd).
    assert (footprint
              (modify r (set_onDispose [])
                 (set_inputs (delete_keys (onDispose o) (inputs w))
                    (record (fire_onDispose r)
                       (modify r (set_disposed true)
                          (tell (call_destroyModel (resource o))
                                (modelService_destroyModel (resource o)) w)))))
            = footprint w) as Hf.
    { rewrite footprint_modify by reflexivity.
      change (footprint (set_inputs ?i ?x)) with (footprint x).
      rewrite footprint_record by reflexivity.
      rewrite footprint_modify by reflexivity.
      now apply footprint_tell. }
    destruct (model o); [rewrite footprint_tell by reflexivity |]; exact Hf.
Qed.

Lemma footprint_new (u : URI) (g : M Σ SearchEditorModel) (c : option SearchConfiguration)
  (w : W) :
  fixes g ->
  (forall w, store (g w).2 = store w) ->
  footprint (new_SearchEditorInput u g c w).2
  = ((registered (log w) ++ [adapter_of (length (store w)) u])%list,
     ((resource <$> store w) ++ [u])%list).
Proof.
  intros Hg Hs. unfold new_SearchEditorInput.
  specialize (Hg w). specialize (Hs w). destruct (g w) as [m w1]. cbn [snd] in Hg, Hs.
  cbn [alloc fst snd]. rewrite footprint_modify by reflexivity.
  injection Hg as Hreg _.
  unfold footprint. cbn [tell set_host record set_store log store].
  rewrite registered_app, Hreg, Hs, fmap_app. reflexivity.
Qed.

Lemma advances_exec (a : Action) (w : W) : advances w (exec a w).
Proof.
  destruct a as [d | u g c | | | | | | | | | |]; cbn [exec].
  - apply advances_getOrMake.
  - apply (advances_push _ _ u). apply footprint_new.
    + apply fixes_host_only.
    + intros w'. now destruct (g (host w')).
  - apply steady_save.
  - apply steady_saveAs.
  - apply advances_same, fixes_reloadModel.
  - apply advances_same, fixes_setConfig.
  - apply advances_same, fixes_setDirty.
  - apply advances_same, fixes_setHighlights.
  - apply advances_same, fixes_revert.
  - apply advances_same, footprint_dispose.
  - apply advances_same. now apply footprint_modify.
  - now apply advances_same.
Qed.

Lemma advances_run (l : list Action) (w : W) : advances w (run l w).
Proof.
  revert w. induction l as [|a l IH]; intros w.
  - apply advances_refl.
  - cbn [run fold_left]. eapply advances_trans; [apply advances_exec | apply IH].
Qed.

(** X23. In every world that the module can reach, the working copies
    registered with the working copy service are, in order, one for each
    input ever constructed: the working copy of the input at [i] names that
    input, has its resource, and is Untitled exactly as the input is. None
    is registered twice and none is registered for anything else. *)
Theorem one_working_copy_for_each_input (w : W) :
  reachable w ->
  length (registered (log w)) = length (store w)
  /\ forall i o,
       store w !! i = Some o ->
       registered (log w) !! i
       = Some {| wc_input := i; wc_resource := resource o;
                 wc_capabilities :=
                   if isUntitled o then WorkingCopyCapabilities_Untitled else 0%Z |}.
Proof.
  intros (h & l & ->).
  assert (one_working_copy_each (run l (init h))) as Hwc
    by (apply (advances_run l (init h)); reflexivity).
  unfold one_working_copy_each in Hwc. rewrite Hwc. split.
  - now rewrite length_imap, length_fmap.
  - intros i o Ho. rewrite list_lookup_imap, list_lookup_fmap, Ho. reflexivity.
Qed.

(** X24. Whatever happens, an input stays in the store under its reference
    and keeps its resource: no operation removes an object, moves it, or
    changes the uri it stands for. *)
Theorem resource_never_changes (l : list Action) (w : W) (r : InputRef)
  (o : SearchEditorInput) :
  store w !! r = Some o ->
  exists o', store (run l w) !! r = Some o' /\ resource o' = resource o.
Proof.
  intros Ho. destruct (advances_run l w) as [Hprefix _].
  assert ((resource <$> store w) !! r = Some (resource o)) as Hr
    by (rewrite list_lookup_fmap, Ho; reflexivity).
  pose proof (prefix_lookup_Some _ _ _ _ Hr Hprefix) as Hr'.
  rewrite list_lookup_fmap in Hr'.
  destruct (store (run l w) !! r) as [o'|]; [| discriminate].
  exists o'. split; [reflexivity |]. now injection Hr'.
Qed.

End Along_a_run.

(** ** Flags along a run, backups and the working copy *)

Section Flags.
Context `{Collaborators} {Σ : Type} `{Services Σ}.

Abbreviation W := (World Σ).

Lemma dispose_dirty (r : InputRef) (w : W) (x : InputRef) :
  dirty <$> store (dispose r w) !! x = dirty <$> store w !! x.
Proof.
  destruct (store w !! r) as [o|] eqn:Ho; [| unfold dispose; now rewrite Ho].
  destruct (decide (x = r)) as [->|Hne].
  - destruct (disposed o) eqn:Hd.
    + now rewrite (dispose_disposed r w o Ho Hd).
    + rewrite (dispose_live r w o Ho Hd).
      destruct (model o); cbn; now rewrite !list_lookup_alter_eq, Ho.
  - destruct (dispose_store r w o Ho) as [_ Hother]. now rewrite Hother.
Qed.

Lemma setConfig_store (this : InputRef) (c : SearchConfiguration) (w : W) :
  store (setConfig this c w).2 = store w.
Proof.
  unfold setConfig, await_model, read. unfold bind at 1. unfold bind at 1.
  destruct (store w !! this) as [o|]; [| reflexivity].
  destruct (model o); reflexivity.
Qed.

(** X25. The dirty flag of an input changes only through [setDirty],
    [save], [saveAs] and [revert]: making or finding an input, constructing
    one, reloading the model, setting the config or the highlights,
    disposing, assigning the view state and changes of the host leave the
    dirty flag of every input as it was. *)
Theorem dirty_changes_only_by_saving (a : Action) (w : W) (r : InputRef)
  (o : SearchEditorInput) :
  match a with
  | do_setDirty _ _ | do_save _ _ _ | do_saveAs _ _ _ | do_revert _ _ _ => False
  | _ => True
  end ->
  store w !! r = Some o ->
  dirty <$> store (exec a w) !! r = Some (dirty o).
Proof.
  intros Ha Ho.
  destruct a as [d | u g c | | | this | this c | | this v | | this | this v | f];
    cbn [exec]; try contradiction.
  - now rewrite (getOrMake_frame d w r o Ho).
  - unfold new_SearchEditorInput.
    destruct (g (host w)) as [m h]. cbn.
    pose proof (lookup_lt_Some _ _ _ Ho) as Hlt.
    rewrite list_lookup_alter_ne by lia. now rewrite lookup_app_l, Ho.
  - destruct (reloadModel_effect this w) as (_ & _ & Hd & _). now rewrite Hd, Ho.
  - now rewrite setConfig_store, Ho.
  - destruct (setHighlights_store this v w r o Ho) as (_ & o' & Ho' & _ & _ & Hd & _).
    rewrite Ho'. cbn. now rewrite Hd.
  - now rewrite dispose_dirty, Ho.
  - cbn. destruct (decide (this = r)) as [->|Hne].
    + now rewrite list_lookup_alter_eq, Ho.
    + now rewrite list_lookup_alter_ne, Ho.
  - cbn. now rewrite Ho.
Qed.

(** X26. In a world that the module can reach, an input that is disposed
    stays disposed whatever happens next. *)
Theorem disposed_stays_disposed (w : W) (l : list Action) (r : InputRef)
  (o : SearchEditorInput) :
  reachable w ->
  store w !! r = Some o ->
  disposed o = true ->
  exists o', store (run l w) !! r = Some o' /\ disposed o' = true.
Proof.
  intros Hw Ho Hd.
  destruct (evolves_run l w (reachable_Inv w Hw)) as [_ Hlater].
  assert ((view w).2 !! r = Some (skeleton o)) as Hr by (apply view_lookup; eauto).
  destruct (Hlater _ _ Hr) as (s' & Hr' & Hsame).
  apply view_lookup in Hr'. destruct Hr' as (o' & Ho' & <-).
  exists o'. split; [assumption |].
  destruct (disposed o') eqn:Hd'; [reflexivity |].
  specialize (Hsame Hd'). apply (f_equal (fun s : Skeleton => s.1.2)) in Hsame.
  cbn in Hsame. congruence.
Qed.

(** X27. What [backup] hands out is what [save] writes: for an input with
    a resource of its own whose model is there and not disposed, [backup]
    resolves to the snapshot of the model without changing anything, and
    [save] calls the text file service with that same snapshot, for the
    resource of the input, whether the write succeeds or not. *)
Theorem backup_is_what_save_writes (this : InputRef) (group : GroupIdentifier)
  (options : option ITextFileSaveOptions) (w : W) (o : SearchEditorInput)
  (m : SearchEditorModel) :
  store w !! this = Some o ->
  model o = Resolved m ->
  model_isDisposed m (host w) = false ->
  isUntitled o = false ->
  backup this w = (Resolved {| content := model_createSnapshot m (host w) |}, w)
  /\ call_write (resource o) (model_createSnapshot m (host w)) options
     ∈ log (save this group options w).2.
Proof.
  intros Ho Hm Hd Hu. split.
  - unfold backup. unfold bind at 1.
    now rewrite (await_model_resolved this w o m Ho Hm).
  - destruct (textFileService_write (resource o) (model_createSnapshot m (host w))
                options (host w)) as [r h] eqn:Hwrite.
    set (w2 := set_host h
                 (record (call_write (resource o) (model_createSnapshot m (host w))
                            options) w)).
    assert (save this group options w
            = match r with
              | Resolved _ => (Resolved (Some this), (setDirty this false w2).2)
              | Rejected e => (Rejected e, w2)
              end) as ->.
    { unfold save. unfold bind at 1.
      rewrite (await_model_resolved this w o m Ho Hm).
      unfold bind at 1, ask. rewrite Hd.
      unfold bind at 1, read at 1. rewrite Ho, Hu.
      unfold bind at 1. rewrite (await_model_resolved this w o m Ho Hm).
      unfold bind at 1, ask. unfold bind at 1, request.
      change (host (record ?c w)) with (host w). rewrite Hwrite.
      fold w2. now destruct r. }
    destruct r as [[]|e]; cbn [snd].
    + erewrite setDirty_resolved; [| subst w2; cbn; exact Ho | exact Hm].
      subst w2. cbn. rewrite <- !app_assoc.
      apply elem_of_app. right. apply list_elem_of_here.
    + subst w2. cbn. apply elem_of_app. right. apply list_elem_of_here.
Qed.

(** X28. The save of the working copy answers whether an editor came
    back: false, without any effect, when the model of the input is
    disposed; true once the text file service has written an input with a
    resource of its own. *)
Theorem working_copy_save_answers (a : IWorkingCopy)
  (options : option ITextFileSaveOptions) (w : W) (o : SearchEditorInput)
  (m : SearchEditorModel) :
  store w !! wc_input a = Some o ->
  model o = Resolved m ->
  (model_isDisposed m (host w) = true ->
   WorkingCopyAdapter_save a options w = (Resolved false, w))
  /\ (model_isDisposed m (host w) = false ->
      isUntitled o = false ->
      forall h',
        textFileService_write (resource o) (model_createSnapshot m (host w)) options
          (host w) = (Resolved tt, h') ->
        (WorkingCopyAdapter_save a options w).1 = Resolved true
        /\ WorkingCopyAdapter_isDirty a (WorkingCopyAdapter_save a options w).2
           = Some false).
Proof.
  intros Ho Hm. unfold WorkingCopyAdapter_save. split.
  - intros Hd. unfold bind at 1. unfold save. unfold bind at 1.
    rewrite (await_model_resolved _ w o m Ho Hm).
    unfold bind at 1, ask. rewrite Hd. reflexivity.
  - intros Hd Hu h' Hwrite.
    assert (save (wc_input a) 0%Z options w
            = (Resolved (Some (wc_input a)),
               (setDirty (wc_input a) false
                  (set_host h'
                     (record (call_write (resource o)
                                (model_createSnapshot m (host w)) options) w))).2)) as Hsave.
    { unfold save. unfold bind at 1.
      rewrite (await_model_resolved _ w o m Ho Hm).
      unfold bind at 1, ask. rewrite Hd.
      unfold bind at 1, read at 1. rewrite Ho, Hu.
      unfold bind at 1. rewrite (await_model_resolved _ w o m Ho Hm).
      unfold bind at 1, ask. unfold bind at 1, request.
      change (host (record ?c w)) with (host w). rewrite Hwrite.
      reflexivity. }
    unfold bind at 1 2. rewrite Hsave. cbn [fst snd ret].
    split; [reflexivity |].
    unfold WorkingCopyAdapter_isDirty.
    erewrite setDirty_resolved; [| cbn; exact Ho | exact Hm].
    cbn. now rewrite list_lookup_alter_eq, Ho.
Qed.

End Flags.

(** * The small host at work *)

Section Demo.
#[local] Existing Instance demo_collaborators.
#[local] Existing Instance demo_services.

Abbreviation W := (World DemoHost).

Example opened_is_input_0 :
  (getOrMakeSearchEditorInput (with_uri demo_file None) (init demo_host)).1 = 0%nat
  /\ (fun o => getName o None) <$> store demo_opened !! 0%nat
     = Some "Search: /searches/foo.code-search".
Proof. split; vm_compute; reflexivity. Qed.

Example untitled_names :
  (fun o => getName o None)
    <$> store (run [do_getOrMake (with_text "# Query: a rather long query")]
                 (init demo_host)) !! 0%nat
  = Some "Search: a rather ...".
Proof. vm_compute. reflexivity. Qed.

(** *** The theorems at work on the small host *)

Lemma getOrMake_memoizes_witness :
  disposed
    <$> store (run demo_between
                 (getOrMakeSearchEditorInput (with_uri demo_file None)
                    (run [] (init demo_host))).2) !! 0%nat
  = Some false
  /\ (getOrMakeSearchEditorInput
        (with_uri demo_file (Some empty_config))
        (run demo_between
           (getOrMakeSearchEditorInput (with_uri demo_file None)
              (run [] (init demo_host))).2)).1
     = 0%nat.
Proof.
  split; [vm_compute; reflexivity |].
  refine (eq_trans
            (proj2 (getOrMake_memoizes demo_host [] demo_between demo_file None
                      (Some empty_config) _)) _).
  - vm_compute. reflexivity.
  - vm_compute. reflexivity.
Defined.

Lemma registry_only_open_inputs_witness :
  reachable demo_opened
  /\ forall key r,
       inputs demo_opened !! key = Some r ->
       exists o, store demo_opened !! r = Some o
                 /\ key = URI_toString (resource o) /\ disposed o = false.
Proof.
  assert (reachable demo_opened) as Hr
    by (exists demo_host, [do_getOrMake (with_uri demo_file None)]; reflexivity).
  split; [exact Hr |].
  exact (proj1 (registry_only_open_inputs demo_opened Hr)).
Defined.

Lemma getModel_initial_contents_witness :
  modelService_getModel demo_untitled (host (init demo_host)) = None
  /\ backupService_resolve demo_untitled (host (init demo_host))
     = (Resolved None, demo_host)
  /\ getModel (with_text "# Query: foo") demo_untitled empty_config (init demo_host)
     = createInstance_SearchEditorModel (rawTextModel (of_string "# Query: foo"))
         demo_untitled (after_backup demo_untitled demo_host (init demo_host)).
Proof.
  split; [reflexivity |]. split; [reflexivity |].
  refine (proj1 (proj2 (proj2
            (getModel_initial_contents (with_text "# Query: foo") demo_untitled
               empty_config (init demo_host) None demo_host eq_refl eq_refl)))
            eq_refl eq_refl "# Query: foo" eq_refl _).
  discriminate.
Defined.

Lemma constructor_registers_working_copy_witness :
  WorkingCopyCapabilities_Untitled <> 0%Z
  /\ exists a,
       registered
         (log (new_SearchEditorInput demo_untitled
                 (getModel (with_text "# Query: foo") demo_untitled empty_config)
                 (Some empty_config) (init demo_host)).2)
       = [a]
       /\ wc_input a = 0%nat
       /\ wc_resource a = demo_untitled
       /\ Z.land (wc_capabilities a) WorkingCopyCapabilities_Untitled <> 0%Z.
Proof.
  assert (WorkingCopyCapabilities_Untitled <> 0%Z) as Hflag by discriminate.
  split; [exact Hflag |].
  destruct (constructor_registers_working_copy demo_untitled
              (getModel (with_text "# Query: foo") demo_untitled empty_config)
              (Some empty_config) (init demo_host) Hflag)
    as (a & o & Hreg & Ho & Hin & Hres & _ & _ & _ & _ & _ & Hcap).
  exists a.
  assert (registered
            (log (getModel (with_text "# Query: foo") demo_untitled empty_config
                    (init demo_host)).2) = []) as Hnone
    by (vm_compute; reflexivity).
  rewrite Hnone in Hreg. apply Permutation_singleton_r in Hreg.
  split; [exact Hreg |]. split; [exact Hin |].
  assert (resource o = demo_untitled) as Hu
    by (vm_compute in Ho; injection Ho as <-; reflexivity).
  split; [congruence |].
  apply Hcap. rewrite Hu. reflexivity.
Defined.

Lemma save_behaviour_witness :
  (exists o,
      store demo_opened !! 0%nat = Some o
      /\ model o = Resolved 0%nat
      /\ model_isDisposed 0%nat (host demo_opened) = false
      /\ isUntitled o = false)
  /\ (save 0%nat 0%Z None demo_opened).1 = Resolved (Some 0%nat)
  /\ isDirty <$> store (save 0%nat 0%Z None demo_opened).2 !! 0%nat = Some false.
Proof.
  pose (o := {| resource := demo_file; dirty := false; model := Resolved 0%nat;
                input_query := Some empty_config; viewState := focused_input;
                _highlights := None; disposed := false;
                onDispose := [inputs_delete (URI_toString demo_file)] |}).
  assert (store demo_opened !! 0%nat = Some o) as Ho by (vm_compute; reflexivity).
  split; [exists o; repeat split; vm_compute; reflexivity |].
  assert (model_isDisposed 0%nat (host demo_opened) = false) as Hd
    by (vm_compute; reflexivity).
  refine (let H := proj2 (save_behaviour 0%nat 0%Z None demo_opened o 0%nat
                            Ho eq_refl Hd) eq_refl _ _ in
          conj (proj1 H) (proj1 (proj2 (proj2 (proj2 (proj2 H)))))).
  vm_compute. reflexivity.
Defined.

Lemma getName_query_label_witness :
  isUntitled demo_untitled_input = true
  /\ getName demo_untitled_input None = "Search: a rather ...".
Proof.
  assert (isUntitled demo_untitled_input = true) as Hu by reflexivity.
  split; [exact Hu |].
  refine (eq_trans
            (proj1 (proj1 (getName_query_label demo_untitled_input Hu)
                      {| query := Some "  a rather long query "; settings := [] |}
                      "  a rather long query " eq_refl eq_refl _)) _).
  - vm_compute. discriminate.
  - vm_compute. reflexivity.
Defined.

Lemma matches_relation_witness :
  (exists this other,
      store demo_two !! 0%nat = Some this /\ store demo_two !! 1%nat = Some other)
  /\ matches 0%nat (a_SearchEditorInput 1%nat) demo_two
     = matches 1%nat (a_SearchEditorInput 0%nat) demo_two
  /\ matches 0%nat (a_SearchEditorInput 1%nat) demo_two = true
  /\ matches 0%nat (a_SearchEditorInput 2%nat) demo_two = false.
Proof.
  split; [eexists; eexists; split; vm_compute; reflexivity |].
  split; [| split; vm_compute; reflexivity].
  refine (proj1 (proj2 (matches_relation demo_two 0%nat 1%nat _ _ _ _))).
  - vm_compute. reflexivity.
  - vm_compute. reflexivity.
Defined.

Lemma getOrMake_uses_serialization_witness :
  inputs (init demo_host)
    !! URI_toString (uri_of (with_config {| query := Some "foo"; settings := [] |})
                       (init demo_host)) = None
  /\ input_query
       <$> store (getOrMakeSearchEditorInput (with_text "# Query: foo") (init demo_host)).2
             !! (getOrMakeSearchEditorInput (with_text "# Query: foo") (init demo_host)).1
     = Some (Some (extractSearchQuery "# Query: foo"))
  /\ call_new_SearchEditorModel
       (rawTextModel
          (of_string
             (serializeSearchConfiguration {| query := Some "foo"; settings := [] |})))
       (uri_of (with_config {| query := Some "foo"; settings := [] |}) (init demo_host))
     ∈ log (getOrMakeSearchEditorInput
              (with_config {| query := Some "foo"; settings := [] |}) (init demo_host)).2.
Proof.
  split; [reflexivity |]. split.
  - refine (proj1 (proj1 (getOrMake_uses_serialization (init demo_host))
                     "# Query: foo" eq_refl) _).
    discriminate.
  - refine (proj2 (proj2 (proj2 (getOrMake_uses_serialization (init demo_host))
                            {| query := Some "foo"; settings := [] |}
                            eq_refl eq_refl _ eq_refl))).
Defined.

Lemma saveAs_without_path_witness :
  (suggestFileName 0%nat demo_opened).1 = Resolved (URI_from "file" "foo.code-search" "")
  /\ fileDialogService_pickFileToSave (URI_from "file" "foo.code-search" "") None
       (host (suggestFileName 0%nat demo_opened).2)
     = (Resolved None, host (suggestFileName 0%nat demo_opened).2)
  /\ saveAs 0%nat 0%Z None demo_opened
     = (Resolved None,
        set_host (host (suggestFileName 0%nat demo_opened).2)
          (record (call_pickFileToSave (URI_from "file" "foo.code-search" "") None)
             (suggestFileName 0%nat demo_opened).2)).
Proof.
  assert (suggestFileName 0%nat demo_opened
          = (Resolved (URI_from "file" "foo.code-search" ""),
             (suggestFileName 0%nat demo_opened).2)) as Hname
    by (vm_compute; reflexivity).
  assert (fileDialogService_pickFileToSave (URI_from "file" "foo.code-search" "") None
            (host (suggestFileName 0%nat demo_opened).2)
          = (Resolved None, host (suggestFileName 0%nat demo_opened).2)) as Hpick
    by (vm_compute; reflexivity).
  split; [vm_compute; reflexivity |]. split; [exact Hpick |].
  exact (proj1 (proj1 (saveAs_without_path 0%nat 0%Z None demo_opened) _ _ _ Hname Hpick)).
Defined.

(** *** Where the spec and the code part *)

(** C2. An empty text was passed, and there is nothing else: the claim has
    the text used as the contents, the code throws. *)
Lemma provided_text_is_used_fails :
  existingData_text (with_text "") = Some ""
  /\ (getModel (with_text "") demo_untitled empty_config (init demo_host)).1
     = Rejected "no initial contents for search editor"
  /\ ~ provided_text_is_used (Σ := DemoHost).
Proof.
  split; [reflexivity |]. split; [vm_compute; reflexivity |].
  intros Hclaim.
  specialize (Hclaim (with_text "") demo_untitled empty_config (init demo_host)
                demo_host "" eq_refl eq_refl eq_refl eq_refl).
  vm_compute in Hclaim. discriminate Hclaim.
Qed.

(** C4. With the empty text the code never calls [extractSearchQuery]: the
    input starts from the empty configuration, which is not what this
    parser, that always fills in the query, makes of the empty text. *)
Lemma text_config_is_extracted_fails :
  input_query
    <$> store (getOrMakeSearchEditorInput (with_text "") (init demo_host)).2
          !! (getOrMakeSearchEditorInput (with_text "") (init demo_host)).1
  = Some (Some empty_config)
  /\ extractSearchQuery "" <> empty_config
  /\ ~ text_config_is_extracted (Σ := DemoHost).
Proof.
  split; [vm_compute; reflexivity |]. split; [discriminate |].
  intros Hclaim. specialize (Hclaim (init demo_host) "" eq_refl).
  vm_compute in Hclaim. discriminate Hclaim.
Qed.

(** C6. The saved search was opened from its uri, so the input started
    from the empty configuration while its model read the query from the
    file. The user cancels the dialog of [saveAs]: the input now has the
    query of the model. *)
Lemma cancelled_saveAs_leaves_input_fails :
  (saveAs 0%nat 0%Z None demo_opened).1 = Resolved None
  /\ input_query <$> store demo_opened !! 0%nat = Some (Some empty_config)
  /\ input_query <$> store (saveAs 0%nat 0%Z None demo_opened).2 !! 0%nat
     = Some (Some {| query := Some "foo"; settings := [] |})
  /\ ~ cancelled_saveAs_leaves_input (Σ := DemoHost).
Proof.
  split; [vm_compute; reflexivity |]. split; [vm_compute; reflexivity |].
  split; [vm_compute; reflexivity |].
  intros Hclaim.
  destruct (Hclaim 0%nat 0%Z None demo_opened
              (URI_from "file" "foo.code-search" "")
              (suggestFileName 0%nat demo_opened).2
              (host (suggestFileName 0%nat demo_opened).2)) as [_ Hsame].
  - vm_compute. reflexivity.
  - vm_compute. reflexivity.
  - vm_compute in Hsame. discriminate Hsame.
Qed.

End Demo.

(** * The small host at work, continued *)

Section MoreDemo.
#[local] Existing Instance demo_collaborators.
#[local] Existing Instance demo_services.

Abbreviation W := (World DemoHost).

Lemma demo_opened_at_0 : store demo_opened !! 0%nat = Some demo_opened_input.
Proof. vm_compute. reflexivity. Qed.

Lemma save_of_disposed_model_witness :
  (exists o m,
      store demo_closed !! 0%nat = Some o /\ model o = Resolved m
      /\ model_isDisposed m (host demo_closed) = true)
  /\ save 0%nat 0%Z None demo_closed = (Resolved None, demo_closed).
Proof.
  assert (store demo_closed !! 0%nat
          = Some {| resource := demo_file; dirty := false; model := Resolved 0%nat;
                    input_query := Some empty_config; viewState := focused_input;
                    _highlights := None; disposed := true; onDispose := [] |}) as Ho
    by (vm_compute; reflexivity).
  assert (model_isDisposed 0%nat (host demo_closed) = true) as Hd
    by (vm_compute; reflexivity).
  split; [eauto 6 |].
  exact (save_of_disposed_model 0%nat 0%Z None demo_closed _ 0%nat Ho eq_refl Hd).
Defined.

Lemma rejected_model_rejects_witness :
  (exists o,
      store demo_broken !! 0%nat = Some o
      /\ model o = Rejected "no initial contents for search editor")
  /\ backup 0%nat demo_broken
     = (Rejected "no initial contents for search editor", demo_broken).
Proof.
  assert (store demo_broken !! 0%nat
          = Some {| resource := URI_from "search-editor" "" "0.0"; dirty := false;
                    model := Rejected "no initial contents for search editor";
                    input_query := Some empty_config; viewState := focused_input;
                    _highlights := None; disposed := false;
                    onDispose := [inputs_delete "search-editor:#0.0"] |}) as Ho
    by (vm_compute; reflexivity).
  split; [eauto |].
  exact (proj1 (proj2 (proj2 (rejected_model_rejects 0%nat demo_broken _ _ Ho eq_refl)))).
Defined.

Lemma setDirty_sets_the_flag_witness :
  store demo_opened !! 0%nat = Some demo_opened_input
  /\ isDirty <$> store (setDirty 0%nat true demo_opened).2 !! 0%nat = Some true.
Proof.
  split; [exact demo_opened_at_0 |].
  exact (proj1 (setDirty_sets_the_flag 0%nat true demo_opened _ demo_opened_at_0)).
Defined.

Lemma setHighlights_then_highlights_witness :
  store demo_opened !! 0%nat = Some demo_opened_input
  /\ model demo_opened_input = Resolved 0%nat
  /\ highlights
       <$> store (setHighlights 0%nat [{| range := (1, 1, 1, 4)%Z; options := "match" |}]
                    demo_opened).2 !! 0%nat
     = Some [{| range := (1, 1, 1, 4)%Z; options := "match" |}].
Proof.
  split; [exact demo_opened_at_0 |]. split; [reflexivity |].
  exact (proj1 (proj2 (setHighlights_then_highlights 0%nat _ demo_opened _ 0%nat
                         demo_opened_at_0 eq_refl))).
Defined.

Lemma setConfig_then_reloadModel_witness :
  store demo_opened !! 0%nat = Some demo_opened_input
  /\ model demo_opened_input = Resolved 0%nat
  /\ store (setConfig 0%nat {| query := Some "bar"; settings := [] |} demo_opened).2
     = store demo_opened
  /\ getConfigSync
       <$> store (reloadModel 0%nat
                    (setConfig 0%nat {| query := Some "bar"; settings := [] |}
                       demo_opened).2).2 !! 0%nat
     = Some (Some {| query := Some "bar"; settings := [] |}).
Proof.
  split; [exact demo_opened_at_0 |]. split; [reflexivity |].
  pose proof (setConfig_then_reloadModel 0%nat {| query := Some "bar"; settings := [] |}
                demo_opened _ 0%nat demo_opened_at_0 eq_refl)
    as (_ & Hstore & _ & _ & Hconfig & _).
  split; [exact Hstore |].
  refine (eq_trans Hconfig _). vm_compute. reflexivity.
Defined.

Lemma trimToMax_any_length_witness :
  trimToMax 2 "abcdef" = "abcde..." /\ trimToMax 5 "abcdef" = "ab...".
Proof.
  split.
  - refine (eq_trans (proj1 (proj2 (proj2 (trimToMax_any_length 2 "abcdef")) _ _)) _);
      [vm_compute; discriminate | reflexivity | vm_compute; reflexivity].
  - refine (eq_trans (proj1 (proj1 (proj2 (trimToMax_any_length 5 "abcdef")) _ _)) _);
      [vm_compute; discriminate | vm_compute; discriminate | vm_compute; reflexivity].
Defined.

Lemma getName_of_a_file_witness :
  isUntitled demo_opened_input = false
  /\ getName demo_opened_input (Some 3%Z) = "Search: /searches/foo.code-search".
Proof.
  assert (isUntitled demo_opened_input = false) as Hu by reflexivity.
  split; [exact Hu |].
  refine (eq_trans (getName_of_a_file demo_opened_input (Some 3%Z) Hu) _).
  vm_compute. reflexivity.
Defined.

Lemma suggestFileName_name_witness :
  (exists o, store demo_odd !! 0%nat = Some o /\ model o = Resolved 0%nat)
  /\ query (model_searchConfig 0%nat (host demo_odd)) = Some "a/b: c??d"
  /\ (suggestFileName 0%nat demo_odd).1
     = Resolved {| scheme := "file"; authority := ""; path := "/a_b_ c_d.code-search";
                   uri_query := ""; fragment := "" |}.
Proof.
  assert (exists o, store demo_odd !! 0%nat = Some o /\ model o = Resolved 0%nat)
    as (o & Ho & Hm) by (eexists; split; vm_compute; reflexivity).
  assert (query (model_searchConfig 0%nat (host demo_odd)) = Some "a/b: c??d") as Hq
    by (vm_compute; reflexivity).
  split; [now exists o |]. split; [exact Hq |].
  destruct (suggestFileName_name 0%nat demo_odd o 0%nat "a/b: c??d" Ho Hm Hq)
    as (base & scheme & Hres & Hs & _ & _ & _ & _ & Hc & _).
  assert (base = "a_b_ c_d") as ->.
  { assert ("a/b: c??d" <> "") as Hne by discriminate.
    apply (collapsed_unique "a/b: c??d"), (Hc Hne). reflexivity. }
  rewrite Hs in Hres. rewrite Hres. vm_compute. reflexivity.
Defined.

Lemma getOrMake_makes_the_input_witness :
  inputs (init demo_host) !! URI_toString (uri_of (with_text "") (init demo_host)) = None
  /\ exists o,
       store (getOrMakeSearchEditorInput (with_text "") (init demo_host)).2 = [o]
       /\ model o = Rejected "no initial contents for search editor"
       /\ resource o = demo_untitled_0
       /\ registered (log (getOrMakeSearchEditorInput (with_text "") (init demo_host)).2)
          = [{| wc_input := 0%nat; wc_resource := demo_untitled_0;
                wc_capabilities := 2 |}].
Proof.
  split; [reflexivity |].
  destruct (getOrMake_makes_the_input (with_text "") (init demo_host) eq_refl)
    as (_ & _ & Hreg & o & Hs & Hr & _).
  exists o. split; [exact Hs |]. split.
  - vm_compute in Hs. injection Hs as <-. reflexivity.
  - split; [rewrite Hr; vm_compute; reflexivity |].
    rewrite Hreg. vm_compute. reflexivity.
Defined.

Lemma getOrMake_without_uri_is_untitled_witness :
  existingData_uri (with_text "# Query: foo") = None
  /\ inputs (init demo_host)
       !! URI_toString (uri_of (with_text "# Query: foo") (init demo_host)) = None
  /\ exists o,
       store (getOrMakeSearchEditorInput (with_text "# Query: foo") (init demo_host)).2
         !! (getOrMakeSearchEditorInput (with_text "# Query: foo") (init demo_host)).1
       = Some o
       /\ isUntitled o = true.
Proof.
  split; [reflexivity |]. split; [reflexivity |].
  destruct (getOrMake_without_uri_is_untitled (with_text "# Query: foo") (init demo_host)
              eq_refl eq_refl) as (o & Ho & _ & Hu & _).
  exists o. split; assumption.
Defined.

Lemma getModel_failures_witness :
  modelService_getModel demo_target (host (init demo_host)) = None
  /\ (getModel (with_uri demo_target None) demo_target empty_config (init demo_host)).1
     = Rejected "file not found"
  /\ (@getModel demo_collaborators DemoHost
        (demo_services_with None (Some "backup failed") true)
        (with_uri demo_target None) demo_target empty_config (init demo_host)).1
     = Rejected "backup failed".
Proof.
  split; [reflexivity |]. split.
  - refine (eq_trans
              (f_equal fst
                 (proj2 (getModel_failures (with_uri demo_target None) demo_target
                           empty_config (init demo_host) eq_refl)
                    demo_host "file not found" demo_host eq_refl _ eq_refl)) _).
    + discriminate.
    + reflexivity.
  - exact (f_equal fst
             (proj1 (@getModel_failures demo_collaborators DemoHost
                       (demo_services_with None (Some "backup failed") true)
                       (with_uri demo_target None) demo_target empty_config
                       (init demo_host) eq_refl)
                "backup failed" demo_host eq_refl)).
Defined.

Lemma getModel_over_existing_text_model_witness :
  @modelService_getModel DemoHost (demo_services_with (Some 7%nat) None true)
    demo_file (host (init demo_host)) = Some 7%nat
  /\ log (@getModel demo_collaborators DemoHost
            (demo_services_with (Some 7%nat) None true)
            (with_uri demo_file None) demo_file empty_config (init demo_host)).2
     = [call_new_SearchEditorModel (resultsTextModel_searchConfig 7%nat empty_config)
          demo_file].
Proof.
  split; [reflexivity |].
  exact (f_equal (fun r => log r.2)
           (@getModel_over_existing_text_model demo_collaborators DemoHost
              (demo_services_with (Some 7%nat) None true)
              (with_uri demo_file None) demo_file empty_config (init demo_host)
              7%nat eq_refl)).
Defined.

End MoreDemo.

Section SavingDemo.
#[local] Existing Instance demo_collaborators.
#[local] Existing Instance demo_services.

Abbreviation W := (World DemoHost).

Lemma saveAs_to_the_same_resource_witness :
  suggestFileName 0%nat (demo_opened_picking demo_file)
  = (Resolved demo_suggested, (suggestFileName 0%nat (demo_opened_picking demo_file)).2)
  /\ store (suggestFileName 0%nat (demo_opened_picking demo_file)).2 !! 0%nat
     = Some demo_reloaded_input
  /\ isEqual demo_file (resource demo_reloaded_input) = true
  /\ (saveAs 0%nat 0%Z None (demo_opened_picking demo_file)).1 = Resolved (Some 0%nat).
Proof.
  assert (suggestFileName 0%nat (demo_opened_picking demo_file)
          = (Resolved demo_suggested,
             (suggestFileName 0%nat (demo_opened_picking demo_file)).2)) as Hname
    by (vm_compute; reflexivity).
  assert (store (suggestFileName 0%nat (demo_opened_picking demo_file)).2 !! 0%nat
          = Some demo_reloaded_input) as Ho1 by (vm_compute; reflexivity).
  assert (isEqual demo_file (resource demo_reloaded_input) = true) as Heq
    by (vm_compute; reflexivity).
  split; [exact Hname |]. split; [exact Ho1 |]. split; [exact Heq |].
  refine (proj1 (saveAs_to_the_same_resource 0%nat 0%Z None (demo_opened_picking demo_file)
                   demo_suggested _ demo_file _ _ demo_reloaded_input demo_file
                   Hname _ Ho1 _ Heq)).
  - vm_compute. reflexivity.
  - vm_compute. reflexivity.
Defined.

Lemma saveAs_to_another_resource_witness :
  suggestFileName 0%nat (demo_opened_picking demo_target)
  = (Resolved demo_suggested, (suggestFileName 0%nat (demo_opened_picking demo_target)).2)
  /\ store (suggestFileName 0%nat (demo_opened_picking demo_target)).2 !! 0%nat
     = Some demo_reloaded_input
  /\ isEqual demo_target (resource demo_reloaded_input) = false
  /\ inputs (suggestFileName 0%nat (demo_opened_picking demo_target)).2
       !! URI_toString demo_target = None
  /\ (saveAs 0%nat 0%Z None (demo_opened_picking demo_target)).1 = Resolved (Some 1%nat).
Proof.
  assert (suggestFileName 0%nat (demo_opened_picking demo_target)
          = (Resolved demo_suggested,
             (suggestFileName 0%nat (demo_opened_picking demo_target)).2)) as Hname
    by (vm_compute; reflexivity).
  assert (store (suggestFileName 0%nat (demo_opened_picking demo_target)).2 !! 0%nat
          = Some demo_reloaded_input) as Ho1 by (vm_compute; reflexivity).
  assert (isEqual demo_target (resource demo_reloaded_input) = false) as Hneq
    by (vm_compute; reflexivity).
  assert (inputs (suggestFileName 0%nat (demo_opened_picking demo_target)).2
            !! URI_toString demo_target = None) as Hfree by (vm_compute; reflexivity).
  split; [exact Hname |]. split; [exact Ho1 |]. split; [exact Hneq |].
  split; [exact Hfree |].
  refine (eq_trans
            (proj1 (saveAs_to_another_resource 0%nat 0%Z None
                      (demo_opened_picking demo_target) demo_suggested _ demo_target _ _
                      demo_reloaded_input demo_target Hname _ Ho1 _ Hneq Hfree)) _).
  - vm_compute. reflexivity.
  - vm_compute. reflexivity.
  - vm_compute. reflexivity.
Defined.

Lemma dispose_leaves_the_others_witness :
  reachable demo_two
  /\ inputs demo_two !! "file:/searches/foo.code-search#" = Some 0%nat
  /\ inputs (dispose 2%nat demo_two) !! "file:/searches/foo.code-search#" = Some 0%nat.
Proof.
  assert (reachable demo_two) as Hr by (eexists _, _; reflexivity).
  assert (inputs demo_two !! "file:/searches/foo.code-search#" = Some 0%nat) as Hk
    by (vm_compute; reflexivity).
  split; [exact Hr |]. split; [exact Hk |].
  refine (proj1 (dispose_leaves_the_others demo_two 2%nat Hr) _ _ Hk _). discriminate.
Defined.

Lemma dispose_twice_witness :
  store demo_opened !! 0%nat = Some demo_opened_input
  /\ store (dispose 0%nat (dispose 0%nat demo_opened)) = store (dispose 0%nat demo_opened).
Proof.
  split; [exact demo_opened_at_0 |].
  exact (f_equal store (dispose_twice demo_opened 0%nat _ demo_opened_at_0)).
Defined.

Lemma getOrMake_after_dispose_witness :
  reachable demo_opened
  /\ inputs demo_opened !! URI_toString demo_file = Some 0%nat
  /\ (getOrMakeSearchEditorInput (with_uri demo_file None) (dispose 0%nat demo_opened)).1
     = 1%nat.
Proof.
  assert (reachable demo_opened) as Hr by (eexists _, _; reflexivity).
  assert (inputs demo_opened !! URI_toString demo_file = Some 0%nat) as Hk
    by (vm_compute; reflexivity).
  split; [exact Hr |]. split; [exact Hk |].
  refine (eq_trans (proj1 (getOrMake_after_dispose demo_opened demo_file None 0%nat Hr Hk)) _).
  vm_compute. reflexivity.
Defined.

Lemma registry_is_injective_witness :
  reachable demo_two
  /\ inputs demo_two !! "search-editor:#0.0" = Some 2%nat
  /\ inputs demo_two !! URI_toString (URI_from "search-editor" "" "0.0") = Some 2%nat
  /\ "search-editor:#0.0" = URI_toString (URI_from "search-editor" "" "0.0").
Proof.
  assert (reachable demo_two) as Hr by (eexists _, _; reflexivity).
  assert (inputs demo_two !! "search-editor:#0.0" = Some 2%nat) as Hk
    by (vm_compute; reflexivity).
  assert (inputs demo_two !! URI_toString (URI_from "search-editor" "" "0.0")
          = Some 2%nat) as Hk' by (vm_compute; reflexivity).
  split; [exact Hr |]. split; [exact Hk |]. split; [exact Hk' |].
  exact (registry_is_injective demo_two _ _ 2%nat Hr Hk Hk').
Defined.

Lemma one_working_copy_for_each_input_witness :
  reachable demo_two /\ length (registered (log demo_two)) = length (store demo_two).
Proof.
  assert (reachable demo_two) as Hr by (eexists _, _; reflexivity).
  split; [exact Hr |].
  exact (proj1 (one_working_copy_for_each_input demo_two Hr)).
Defined.

Lemma resource_never_changes_witness :
  store demo_opened !! 0%nat = Some demo_opened_input
  /\ exists o',
       store (run [do_dispose 0%nat; do_getOrMake (with_uri demo_file None)] demo_opened)
         !! 0%nat = Some o'
       /\ resource o' = resource demo_opened_input.
Proof.
  split; [exact demo_opened_at_0 |].
  exact (resource_never_changes _ demo_opened 0%nat _ demo_opened_at_0).
Defined.

Lemma dirty_changes_only_by_saving_witness :
  store demo_opened !! 0%nat = Some demo_opened_input
  /\ dirty <$> store (exec (do_dispose 0%nat) demo_opened) !! 0%nat
     = Some (dirty demo_opened_input).
Proof.
  split; [exact demo_opened_at_0 |].
  exact (dirty_changes_only_by_saving (do_dispose 0%nat) demo_opened 0%nat _ I
           demo_opened_at_0).
Defined.

Lemma disposed_stays_disposed_witness :
  reachable demo_closed
  /\ (exists o, store demo_closed !! 0%nat = Some o /\ disposed o = true)
  /\ exists o',
       store (run [do_getOrMake (with_uri demo_file None); do_setDirty 0%nat true]
                demo_closed) !! 0%nat = Some o'
       /\ disposed o' = true.
Proof.
  assert (reachable demo_closed) as Hr by (eexists _, _; reflexivity).
  assert (store demo_closed !! 0%nat
          = Some {| resource := demo_file; dirty := false; model := Resolved 0%nat;
                    input_query := Some empty_config; viewState := focused_input;
                    _highlights := None; disposed := true; onDispose := [] |}) as Ho
    by (vm_compute; reflexivity).
  split; [exact Hr |]. split; [eauto |].
  exact (disposed_stays_disposed demo_closed _ 0%nat _ Hr Ho eq_refl).
Defined.

Lemma backup_is_what_save_writes_witness :
  store demo_opened !! 0%nat = Some demo_opened_input
  /\ model_isDisposed 0%nat (host demo_opened) = false
  /\ isUntitled demo_opened_input = false
  /\ backup 0%nat demo_opened = (Resolved {| content := "# Query: foo" |}, demo_opened).
Proof.
  assert (model_isDisposed 0%nat (host demo_opened) = false) as Hd
    by (vm_compute; reflexivity).
  assert (isUntitled demo_opened_input = false) as Hu by reflexivity.
  split; [exact demo_opened_at_0 |]. split; [exact Hd |]. split; [exact Hu |].
  refine (eq_trans
            (proj1 (backup_is_what_save_writes 0%nat 0%Z None demo_opened _ 0%nat
                      demo_opened_at_0 eq_refl Hd Hu)) _).
  vm_compute. reflexivity.
Defined.

Lemma working_copy_save_answers_witness :
  store demo_closed !! 0%nat
  = Some {| resource := demo_file; dirty := false; model := Resolved 0%nat;
            input_query := Some empty_config; viewState := focused_input;
            _highlights := None; disposed := true; onDispose := [] |}
  /\ model_isDisposed 0%nat (host demo_closed) = true
  /\ WorkingCopyAdapter_save (adapter_of 0%nat demo_file) None demo_closed
     = (Resolved false, demo_closed).
Proof.
  assert (store demo_closed !! wc_input (adapter_of 0%nat demo_file)
          = Some {| resource := demo_file; dirty := false; model := Resolved 0%nat;
                    input_query := Some empty_config; viewState := focused_input;
                    _highlights := None; disposed := true; onDispose := [] |}) as Ho
    by (vm_compute; reflexivity).
  assert (model_isDisposed 0%nat (host demo_closed) = true) as Hd
    by (vm_compute; reflexivity).
  split; [exact Ho |]. split; [exact Hd |].
  exact (proj1 (working_copy_save_answers (adapter_of 0%nat demo_file) None demo_closed
                  _ 0%nat Ho eq_refl) Hd).
Defined.

End SavingDemo.

Section RefusingDemo.
#[local] Existing Instance demo_collaborators.

(** The small host with a text file service that saves nothing. *)
#[local] Instance demo_refusing : Services DemoHost := demo_services_with None None false.

Lemma saveAs_not_saved_witness :
  suggestFileName 0%nat (demo_opened_picking demo_target)
  = (Resolved demo_suggested, (suggestFileName 0%nat (demo_opened_picking demo_target)).2)
  /\ store (suggestFileName 0%nat (demo_opened_picking demo_target)).2 !! 0%nat
     = Some demo_reloaded_input
  /\ (saveAs 0%nat 0%Z None (demo_opened_picking demo_target)).1 = Resolved None
  /\ call_publicLog2 "searchEditor/saveSearchResults"
     ∈ log (saveAs 0%nat 0%Z None (demo_opened_picking demo_target)).2.
Proof.
  assert (suggestFileName 0%nat (demo_opened_picking demo_target)
          = (Resolved demo_suggested,
             (suggestFileName 0%nat (demo_opened_picking demo_target)).2)) as Hname
    by (vm_compute; reflexivity).
  assert (store (suggestFileName 0%nat (demo_opened_picking demo_target)).2 !! 0%nat
          = Some demo_reloaded_input) as Ho1 by (vm_compute; reflexivity).
  split; [exact Hname |]. split; [exact Ho1 |].
  destruct (saveAs_not_saved 0%nat 0%Z None (demo_opened_picking demo_target)
              demo_suggested _ demo_target
              (host (suggestFileName 0%nat (demo_opened_picking demo_target)).2)
              (host (suggestFileName 0%nat (demo_opened_picking demo_target)).2)
              demo_reloaded_input Hname)
    as (Hres & _ & _ & Hlog); [vm_compute; reflexivity | exact Ho1
                              | vm_compute; reflexivity |].
  split; [exact Hres |].
  rewrite Hlog. apply elem_of_app. right.
  apply list_elem_of_further, list_elem_of_here.
Defined.

End RefusingDemo.
